(** * Night-sky simulator: star positions, marker sizes and colours

    A shallow embedding of [SkySimulator] as it is written in
    [sky_simulator.py] and [sky_simulator_gui.py]:

    - [load_star_catalog], [set_observer_location] and the two variants of
      [get_star_positions] (three arrays in [sky_simulator.py], four in
      [sky_simulator_gui.py]);
    - the pieces of Python and numpy they rest on: [datetime.replace],
      [datetime.astimezone], [np.clip] and float64 arithmetic;
    - Skyfield (time scale, ephemeris, alt/az of a star) as the variables of
      a section: the simulator only passes values through it.

    Numbers.  Magnitudes, altitudes and azimuths are float64 in the program.
    Here a finite float64 is the rational it denotes, comparisons are the
    exact ones, and every arithmetic operation rounds its exact result to
    the nearest value with a 53-bit significand, ties to even ([RN]).
    The exponent range is not bounded (no overflow to infinity, no
    subnormals) and NaN is not represented; [load_star_catalog] keeps a row
    only when [magnitude <= max_magnitude], which no NaN passes.
    [RN] is compared with the Standard Library's IEEE 754 binary64
    operations on the magnitudes a catalog holds (section 10).

    Layout.  Sections 1 to 5 are the embedding; section 6 the properties
    of the two [get_star_positions]; sections 7 to 9 the facts on rounding
    and on dates and the properties that need them; section 10 runs the
    definitions on a small catalog.  Sections 11 to 16 cover the callers:
    [plot_sky] and [create_star_trails] of [sky_simulator.py], the count
    and the times of the frames they share with [animate_sky], and the
    animation controls of the window in [sky_simulator_gui.py]; matplotlib
    and Tk are a list of the calls made to them. *)

From Stdlib Require Import ZArith QArith Qround Qabs Qpower Qminmax Qreduction.
From Stdlib Require Import List String Ascii Bool Lia Lqa DecimalString.
From Stdlib Require Import Floats.SpecFloat.
Import ListNotations.

Open Scope Q_scope.

(* ================================================================== *)
(** ** 1. float64 arithmetic *)
(* ================================================================== *)

Module Binary64.

(** [2^e] for any integer exponent. *)
Definition pow2 (e : Z) : Q := (2 # 1) ^ e.

(** [floor (log2 |q|)] for [q <> 0]: the difference of the bit lengths of
    numerator and denominator is the answer or one more than it. *)
Definition ilog2 (q : Q) : Z :=
  let k := (Z.log2 (Z.abs (Qnum q)) - Z.log2 (Zpos (Qden q)))%Z in
  if Qle_bool (pow2 k) (Qabs q) then k else (k - 1)%Z.

(** Nearest integer, a tie going to the even neighbour. *)
Definition rint (q : Q) : Z :=
  let f := Qfloor q in
  match Qcompare (q - inject_Z f) (1 # 2) with
  | Lt => f
  | Gt => (f + 1)%Z
  | Eq => if Z.even f then f else (f + 1)%Z
  end.

(** Round to nearest, ties to even, on 53 significant bits: [q] is scaled
    so that its integer part has exactly 53 bits, rounded to an integer and
    scaled back.  The result is in lowest terms. *)
Definition RN (q : Q) : Q :=
  if Qeq_bool q 0 then 0
  else let e := (ilog2 q - 52)%Z in
       Qred (inject_Z (rint (q / pow2 e)) * pow2 e).

(** The float64 operations: the exact result, rounded. *)
Definition fadd (x y : Q) : Q := RN (x + y).
Definition fsub (x y : Q) : Q := RN (x - y).
Definition fmul (x y : Q) : Q := RN (x * y).

(** The float64 a decimal literal or a parsed decimal field denotes. *)
Definition float_of_decimal (q : Q) : Q := RN q.

(** The rational a finite IEEE 754 value of the Standard Library denotes,
    to compare [RN] with the library's own binary64 operations. *)
Definition SF2Q (f : spec_float) : Q :=
  match f with
  | S754_finite s m e => (if s then - inject_Z (Zpos m) else inject_Z (Zpos m)) * pow2 e
  | _ => 0
  end.

Definition b64_add := SFadd 53 1024.
Definition b64_sub := SFsub 53 1024.
Definition b64_mul := SFmul 53 1024.

(** The IEEE 754 value with the 53-bit significand and the exponent that
    [RN] computes for [q]. *)
Definition to_SF (q : Q) : spec_float :=
  if Qeq_bool q 0 then S754_zero false
  else let e := (ilog2 q - 52)%Z in
       match rint (q / pow2 e) with
       | Zpos m => S754_finite false m e
       | Zneg m => S754_finite true m e
       | Z0 => S754_zero false
       end.

(** [20 * (5 - m) + 1] with the library's binary64 operations. *)
Definition b64_unclipped_size (m : spec_float) : spec_float :=
  b64_add (b64_mul (S754_finite false 20 0) (b64_sub (S754_finite false 5 0) m))
          (S754_finite false 1 0).

(** For the magnitude written [n / 100] in the catalog: the library's
    binary64 operations and the rounded rational operations give the same
    unclipped size. *)
Definition agrees_with_b64 (n : Z) : bool :=
  let m := RN (n # 100) in
  Qeq_bool (SF2Q (to_SF m)) m &&
  Qeq_bool (SF2Q (b64_unclipped_size (to_SF m))) (fadd (fmul 20 (fsub 5 m)) 1).

End Binary64.

(* ================================================================== *)
(** ** 2. Exceptions *)
(* ================================================================== *)

(** The exceptions the modelled code can raise, and computations that
    either raise or return. *)
Inductive exception : Type :=
| ValueError (msg : string)
| OverflowError (msg : string).

Definition result (A : Type) : Type := (exception + A)%type.

Definition raise {A : Type} (e : exception) : result A := inl e.
Definition ret {A : Type} (a : A) : result A := inr a.

Definition bind {A B : Type} (c : result A) (k : A -> result B) : result B :=
  match c with
  | inl e => inl e
  | inr a => k a
  end.

Notation "x <- c ;; k" := (bind c (fun x => k))
  (at level 61, c at next level, right associativity).

(* ================================================================== *)
(** ** 3. Python's [datetime] *)
(* ================================================================== *)

Module PyDatetime.

Local Open Scope Z_scope.

(** A [tzinfo] object: [utc] is the singleton [datetime.timezone.utc];
    [fixed_offset us] is any other instance of the class, [us] microseconds
    east of UTC. *)
Inductive dt_timezone : Type :=
| utc
| fixed_offset (us : Z).

Definition utcoffset (tz : dt_timezone) : Z :=
  match tz with
  | utc => 0
  | fixed_offset us => us
  end.

Record datetime : Type := mk_datetime {
  year : Z;
  month : Z;
  day : Z;
  hour : Z;
  minute : Z;
  second : Z;
  microsecond : Z;
  tzinfo : option dt_timezone
}.

(** [self.replace(tzinfo=tz)]: the zone is swapped, no field is adjusted. *)
Definition replace_tzinfo (self : datetime) (tz : option dt_timezone) : datetime :=
  mk_datetime (year self) (month self) (day self)
              (hour self) (minute self) (second self) (microsecond self) tz.

(** Proleptic Gregorian ordinals, day 1 being 0001-01-01. *)
Definition is_leap (y : Z) : bool :=
  (y mod 4 =? 0) && (negb (y mod 100 =? 0) || (y mod 400 =? 0)).

Definition DAYS_IN_MONTH : list Z :=
  [-1; 31; 28; 31; 30; 31; 30; 31; 31; 30; 31; 30; 31].

Definition DAYS_BEFORE_MONTH : list Z :=
  [-1; 0; 31; 59; 90; 120; 151; 181; 212; 243; 273; 304; 334].

Definition days_before_year (y : Z) : Z :=
  let y := y - 1 in y * 365 + y / 4 - y / 100 + y / 400.

Definition days_in_month (y m : Z) : Z :=
  if (m =? 2) && is_leap y then 29 else nth (Z.to_nat m) DAYS_IN_MONTH 0.

Definition days_before_month (y m : Z) : Z :=
  nth (Z.to_nat m) DAYS_BEFORE_MONTH 0 + (if (2 <? m) && is_leap y then 1 else 0).

Definition ymd2ord (y m d : Z) : Z :=
  days_before_year y + days_before_month y m + d.

Definition DI400Y : Z := 146097.
Definition DI100Y : Z := 36524.
Definition DI4Y : Z := 1461.
Definition MAXORDINAL : Z := 3652059.

Definition ord2ymd (n : Z) : Z * Z * Z :=
  let n := n - 1 in
  let n400 := n / DI400Y in let n := n mod DI400Y in
  let y := n400 * 400 + 1 in
  let n100 := n / DI100Y in let n := n mod DI100Y in
  let n4 := n / DI4Y in let n := n mod DI4Y in
  let n1 := n / 365 in let n := n mod 365 in
  let y := y + n100 * 100 + n4 * 4 + n1 in
  if (n1 =? 4) || (n100 =? 4) then (y - 1, 12, 31)
  else
    let leapyear := (n1 =? 3) && (negb (n4 =? 24) || (n100 =? 3)) in
    let m := Z.shiftr (n + 50) 5 in
    let preceding :=
      nth (Z.to_nat m) DAYS_BEFORE_MONTH 0
      + (if (2 <? m) && leapyear then 1 else 0) in
    if n <? preceding then
      let m := m - 1 in
      let preceding :=
        preceding - (nth (Z.to_nat m) DAYS_IN_MONTH 0
                     + (if (m =? 2) && leapyear then 1 else 0)) in
      (y, m, n - preceding + 1)
    else (y, m, n - preceding + 1).

Definition US_PER_SECOND : Z := 1000000.
Definition US_PER_DAY : Z := 86400 * US_PER_SECOND.

(** [self + timedelta(microseconds=us)]: the value is taken to a count of
    microseconds since day 0, shifted, and split again; a result outside
    the years 1..9999 raises. *)
Definition add_timedelta (self : datetime) (us : Z) : result datetime :=
  let total :=
    (((ymd2ord (year self) (month self) (day self) * 24 + hour self) * 60
      + minute self) * 60 + second self) * US_PER_SECOND
    + microsecond self + us in
  let days := total / US_PER_DAY in
  let seconds := (total mod US_PER_DAY) / US_PER_SECOND in
  let microseconds := total mod US_PER_SECOND in
  let h := seconds / 3600 in
  let rem := seconds mod 3600 in
  if (0 <? days) && (days <=? MAXORDINAL) then
    let '(y, m, d) := ord2ymd days in
    ret (mk_datetime y m d h (rem / 60) (rem mod 60) microseconds (tzinfo self))
  else raise (OverflowError "date value out of range").

(** [self.astimezone(timezone.utc)].  When the attached zone is the [utc]
    object itself the value is returned as it is.  Otherwise the offset is
    subtracted, [utc] is attached, and [utc.fromutc] adds its zero offset.
    A naive value is read in the host's local zone, [local]. *)
Definition astimezone_utc (local : dt_timezone) (self : datetime) : result datetime :=
  let convert (offset : Z) :=
    u <- add_timedelta self (- offset) ;;
    add_timedelta (replace_tzinfo u (Some utc)) 0 in
  match tzinfo self with
  | Some utc => ret self
  | Some (fixed_offset us) => convert us
  | None => convert (utcoffset local)
  end.

(** The values the [datetime] constructor accepts. *)
Definition valid_date (y m d : Z) : bool :=
  (1 <=? y) && (y <=? 9999) && (1 <=? m) && (m <=? 12) &&
  (1 <=? d) && (d <=? days_in_month y m).

Definition valid_datetime (t : datetime) : bool :=
  valid_date (year t) (month t) (day t) &&
  (0 <=? hour t) && (hour t <? 24) &&
  (0 <=? minute t) && (minute t <? 60) &&
  (0 <=? second t) && (second t <? 60) &&
  (0 <=? microsecond t) && (microsecond t <? 1000000).

(** The integers [lo], [lo + 1], ..., [lo + n - 1]. *)
Fixpoint zrange (lo : Z) (n : nat) : list Z :=
  match n with
  | O => []
  | S k => lo :: zrange (lo + 1) k
  end.

(** One date of the first 400-year cycle goes to its ordinal and back, and
    the ordinal stays within the cycle. *)
Definition date_ok (y m d : Z) : bool :=
  let n := ymd2ord y m d in
  let '(y', m', d') := ord2ymd n in
  (y' =? y) && (m' =? m) && (d' =? d) && (1 <=? n) && (n <=? DI400Y)
  && ((400 <=? y) || (n <=? 145731)).

End PyDatetime.

(* ================================================================== *)
(** ** 4. numpy and the two rendering attributes *)
(* ================================================================== *)

Import Binary64 PyDatetime.

(** The test [x < y] on two floats. *)
Definition Qlt_bool (x y : Q) : bool := negb (Qle_bool y x).

(** [np.clip(a, a_min, a_max)], that is
    [np.minimum(a_max, np.maximum(a, a_min))], on one element. *)
Definition np_clip (a a_min a_max : Q) : Q := Qmin (Qmax a a_min) a_max.

(** One element of [sizes], from one element of [magnitudes]:
    [sizes = 20 * (5 - magnitudes) + 1] and then
    [sizes = np.clip(sizes, 1, 50)], in float64 arithmetic. *)
Definition star_size (mag : Q) : Q :=
  np_clip (fadd (fmul 20 (fsub 5 mag)) 1) 1 50.

(** The size as the specification writes it,
    [clamp(20 * (5 - m) + 1, 1, 50)], over exact numbers; [star_size] is
    compared with it below. *)
Definition spec_size (mag : Q) : Q :=
  np_clip (20 * (5 - mag) + 1) 1 50.

Definition sky_blue : string := "#87CEEB".
Definition white : string := "white".
Definition moccasin : string := "#FFE4B5".
Definition orange : string := "#FFA500".
Definition light_red : string := "#FF6B6B".

(** The colour appended for a star of magnitude [mag]: the [if]/[elif]
    chain of [sky_simulator_gui.py]. *)
Definition star_color (mag : Q) : string :=
  if Qlt_bool mag 1 then sky_blue
  else if Qlt_bool mag 2 then white
  else if Qlt_bool mag 3 then moccasin
  else if Qlt_bool mag 4 then orange
  else light_red.

(* ================================================================== *)
(** ** 5. The simulator *)
(* ================================================================== *)

(** A row of the Hipparcos dataframe, [star_data] in the loops. *)
Record star_data : Type := mk_star {
  hip : Z;
  magnitude : Q;
  ra_degrees : Q;
  dec_degrees : Q
}.

Definition usage_message : string :=
  "Must load star catalog and set observer location first".

Section SkySimulator.

(** Skyfield: the ephemeris kernel [load('de421.bsp')], a body of it, the
    time scale [load.timescale()] and its [Time] values. *)
Context {Kernel Body Timescale Time : Type}.

(** [load_planets['earth']] *)
Variable kernel_earth : Kernel -> Body.

(** [ts.utc(year, month, day, hour, minute, second)] *)
Variable ts_utc : Timescale -> Z -> Z -> Z -> Z -> Z -> Z -> Time.

(** [self.earth + Topos(latitude_degrees=.., longitude_degrees=..,
    elevation_m=..)] *)
Record observer : Type := mk_observer {
  center : Body;
  latitude_degrees : Q;
  longitude_degrees : Q;
  elevation_m : Q
}.

(** [location.at(t).observe(Star.from_dataframe(star_data)).apparent().altaz()]:
    altitude and azimuth, in degrees. *)
Variable altaz : observer -> Time -> star_data -> Q * Q.

(** The local zone of the host, which [astimezone] assumes for a naive
    [datetime]. *)
Variable local_zone : dt_timezone.

Record SkySimulator : Type := mk_simulator {
  load_planets : Kernel;
  earth : Body;
  ts : Timescale;
  stars_df : option (list star_data);
  observer_location : option observer;
  observer_coords : option (Q * Q)
}.

(** [__init__], given what the two [load] calls return. *)
Definition init (planets : Kernel) (timescale : Timescale) : SkySimulator :=
  mk_simulator planets (kernel_earth planets) timescale None None None.

(** [load_star_catalog], given the dataframe [hipparcos.load_dataframe]
    returns: the rows with [magnitude <= max_magnitude], in their order. *)
Definition load_star_catalog (self : SkySimulator) (hipparcos : list star_data)
    (max_magnitude : Q) : SkySimulator :=
  mk_simulator (load_planets self) (earth self) (ts self)
    (Some (filter (fun row => Qle_bool (magnitude row) max_magnitude) hipparcos))
    (observer_location self) (observer_coords self).

Definition set_observer_location (self : SkySimulator)
    (latitude longitude elevation : Q) : SkySimulator :=
  mk_simulator (load_planets self) (earth self) (ts self) (stars_df self)
    (Some (mk_observer (earth self) latitude longitude elevation))
    (Some (latitude, longitude)).

(** One turn of the loop of [sky_simulator.py] over the rows. *)
Definition visit (location : observer) (t : Time)
    (acc : list (Q * Q) * list Q) (row : star_data) : list (Q * Q) * list Q :=
  let '(star_positions, star_magnitudes) := acc in
  let '(alt, az) := altaz location t row in
  if Qlt_bool 0 alt then
    (star_positions ++ [(az, alt)], star_magnitudes ++ [magnitude row])
  else acc.

(** [get_star_positions] of [sky_simulator.py].  The [timezone] argument
    is never read. *)
Definition get_star_positions (self : SkySimulator) (time : datetime)
    (timezone : string) : result (list Q * list Q * list Q) :=
  match stars_df self, observer_location self with
  | Some df, Some location =>
      let time :=
        match tzinfo time with
        | None => replace_tzinfo time (Some utc)
        | Some _ => time
        end in
      utc_time <- astimezone_utc local_zone time ;;
      let t := ts_utc (ts self) (year utc_time) (month utc_time) (day utc_time)
                 (hour utc_time) (minute utc_time) (second utc_time) in
      let '(star_positions, star_magnitudes) :=
        fold_left (visit location t) df ([], []) in
      match star_positions with
      | [] => ret ([], [], [])
      | _ :: _ =>
          let sizes := map star_size star_magnitudes in
          ret (map fst star_positions, map snd star_positions, sizes)
      end
  | _, _ => raise (ValueError usage_message)
  end.

(** One turn of the loop of [sky_simulator_gui.py], which also appends a
    colour. *)
Definition visit_gui (location : observer) (t : Time)
    (acc : list (Q * Q) * list Q * list string) (row : star_data)
    : list (Q * Q) * list Q * list string :=
  let '(star_positions, star_magnitudes, star_colors) := acc in
  let '(alt, az) := altaz location t row in
  if Qlt_bool 0 alt then
    let mag := magnitude row in
    (star_positions ++ [(az, alt)],
     star_magnitudes ++ [magnitude row],
     star_colors ++ [star_color mag])
  else acc.

(** [get_star_positions] of [sky_simulator_gui.py]. *)
Definition get_star_positions_gui (self : SkySimulator) (time : datetime)
    (timezone : string) : result (list Q * list Q * list Q * list string) :=
  match stars_df self, observer_location self with
  | Some df, Some location =>
      let time :=
        match tzinfo time with
        | None => replace_tzinfo time (Some utc)
        | Some _ => time
        end in
      utc_time <- astimezone_utc local_zone time ;;
      let t := ts_utc (ts self) (year utc_time) (month utc_time) (day utc_time)
                 (hour utc_time) (minute utc_time) (second utc_time) in
      let '(star_positions, star_magnitudes, star_colors) :=
        fold_left (visit_gui location t) df ([], [], []) in
      match star_positions with
      | [] => ret ([], [], [], [])
      | _ :: _ =>
          let sizes := map star_size star_magnitudes in
          ret (map fst star_positions, map snd star_positions, sizes, star_colors)
      end
  | _, _ => raise (ValueError usage_message)
  end.

(** *** What the two functions compute, read off their bodies *)

(** The value bound to [utc_time]. *)
Definition utc_time_of (time : datetime) : result datetime :=
  astimezone_utc local_zone
    (match tzinfo time with
     | None => replace_tzinfo time (Some utc)
     | Some _ => time
     end).

(** The value bound to [t]. *)
Definition skyfield_time (self : SkySimulator) (utc_time : datetime) : Time :=
  ts_utc (ts self) (year utc_time) (month utc_time) (day utc_time)
    (hour utc_time) (minute utc_time) (second utc_time).

Definition alt_of (location : observer) (t : Time) (row : star_data) : Q :=
  fst (altaz location t row).

Definition az_of (location : observer) (t : Time) (row : star_data) : Q :=
  snd (altaz location t row).

(** The rows for which the loop appends, in catalog order. *)
Definition emitted (location : observer) (t : Time) (df : list star_data)
    : list star_data :=
  filter (fun row => Qlt_bool 0 (alt_of location t row)) df.

(* ================================================================== *)
(** ** 6. Properties of the simulator *)
(* ================================================================== *)

Lemma Qlt_bool_iff (x y : Q) : Qlt_bool x y = true <-> x < y.
Proof.
  unfold Qlt_bool. rewrite negb_true_iff. split.
  - intro H. apply Qnot_le_lt. intro Hle. apply Qle_bool_iff in Hle. congruence.
  - intro H. destruct (Qle_bool y x) eqn:E; [|reflexivity].
    apply Qle_bool_iff in E. exfalso. apply (Qlt_not_le _ _ H E).
Qed.

Lemma Qlt_bool_false (x y : Q) : Qlt_bool x y = false <-> y <= x.
Proof.
  unfold Qlt_bool. rewrite negb_false_iff. apply Qle_bool_iff.
Qed.

(** *** The loops as a filter followed by maps *)

Lemma visit_step (location : observer) (t : Time) acc (row : star_data) :
  visit location t acc row =
  if Qlt_bool 0 (alt_of location t row) then
    (fst acc ++ [(az_of location t row, alt_of location t row)],
     snd acc ++ [magnitude row])
  else acc.
Proof.
  destruct acc as [ps ms]. unfold visit, alt_of, az_of.
  destruct (altaz location t row) as [alt az]. reflexivity.
Qed.

Lemma visit_gui_step (location : observer) (t : Time) acc (row : star_data) :
  visit_gui location t acc row =
  if Qlt_bool 0 (alt_of location t row) then
    (fst (fst acc) ++ [(az_of location t row, alt_of location t row)],
     snd (fst acc) ++ [magnitude row],
     snd acc ++ [star_color (magnitude row)])
  else acc.
Proof.
  destruct acc as [[ps ms] cs]. unfold visit_gui, alt_of, az_of.
  destruct (altaz location t row) as [alt az]. reflexivity.
Qed.

Lemma emitted_cons (location : observer) (t : Time) row (df : list star_data) :
  emitted location t (row :: df) =
  if Qlt_bool 0 (alt_of location t row) then row :: emitted location t df
  else emitted location t df.
Proof. reflexivity. Qed.

Lemma visit_fold (location : observer) (t : Time) (df : list star_data) :
  forall star_positions star_magnitudes,
    fold_left (visit location t) df (star_positions, star_magnitudes) =
    (star_positions
       ++ map (fun row => (az_of location t row, alt_of location t row))
              (emitted location t df),
     star_magnitudes ++ map magnitude (emitted location t df)).
Proof.
  induction df as [|row df IH]; intros ps ms.
  - simpl. rewrite !app_nil_r. reflexivity.
  - cbn [fold_left]. rewrite visit_step, emitted_cons.
    destruct (Qlt_bool 0 (alt_of location t row)).
    + cbn [fst snd]. rewrite IH. cbn [map]. rewrite <- !app_assoc. reflexivity.
    + apply IH.
Qed.

Lemma visit_gui_fold (location : observer) (t : Time) (df : list star_data) :
  forall star_positions star_magnitudes star_colors,
    fold_left (visit_gui location t) df
      (star_positions, star_magnitudes, star_colors) =
    (star_positions
       ++ map (fun row => (az_of location t row, alt_of location t row))
              (emitted location t df),
     star_magnitudes ++ map magnitude (emitted location t df),
     star_colors
       ++ map (fun row => star_color (magnitude row)) (emitted location t df)).
Proof.
  induction df as [|row df IH]; intros ps ms cs.
  - simpl. rewrite !app_nil_r. reflexivity.
  - cbn [fold_left]. rewrite visit_gui_step, emitted_cons.
    destruct (Qlt_bool 0 (alt_of location t row)).
    + cbn [fst snd]. rewrite IH. cbn [map]. rewrite <- !app_assoc. reflexivity.
    + apply IH.
Qed.

(** With a catalog, an observer and a time that converts, the function of
    [sky_simulator.py] returns the three projections of the emitted rows. *)
Lemma get_star_positions_returns (self : SkySimulator) (time : datetime)
    (timezone : string) df location utc_time :
  stars_df self = Some df ->
  observer_location self = Some location ->
  utc_time_of time = inr utc_time ->
  let t := skyfield_time self utc_time in
  get_star_positions self time timezone =
  inr (map (az_of location t) (emitted location t df),
       map (alt_of location t) (emitted location t df),
       map (fun row => star_size (magnitude row)) (emitted location t df)).
Proof.
  intros Hdf Hloc Hutc t.
  unfold get_star_positions. rewrite Hdf, Hloc.
  unfold utc_time_of in Hutc. rewrite Hutc. simpl.
  fold (skyfield_time self utc_time). fold t.
  rewrite visit_fold. simpl.
  destruct (emitted location t df) as [|row rows]; [reflexivity|].
  simpl. rewrite !map_map. reflexivity.
Qed.

(** The same for [sky_simulator_gui.py], with the colours. *)
Lemma get_star_positions_gui_returns (self : SkySimulator) (time : datetime)
    (timezone : string) df location utc_time :
  stars_df self = Some df ->
  observer_location self = Some location ->
  utc_time_of time = inr utc_time ->
  let t := skyfield_time self utc_time in
  get_star_positions_gui self time timezone =
  inr (map (az_of location t) (emitted location t df),
       map (alt_of location t) (emitted location t df),
       map (fun row => star_size (magnitude row)) (emitted location t df),
       map (fun row => star_color (magnitude row)) (emitted location t df)).
Proof.
  intros Hdf Hloc Hutc t.
  unfold get_star_positions_gui. rewrite Hdf, Hloc.
  unfold utc_time_of in Hutc. rewrite Hutc. simpl.
  fold (skyfield_time self utc_time). fold t.
  rewrite visit_gui_fold. simpl.
  destruct (emitted location t df) as [|row rows]; [reflexivity|].
  simpl. rewrite !map_map. reflexivity.
Qed.

Lemma emitted_In (location : observer) (t : Time) (df : list star_data) row :
  In row (emitted location t df) <-> In row df /\ 0 < alt_of location t row.
Proof.
  unfold emitted. rewrite filter_In, Qlt_bool_iff. reflexivity.
Qed.

Lemma emitted_nil (location : observer) (t : Time) (df : list star_data) :
  (forall row, In row df -> alt_of location t row <= 0) ->
  emitted location t df = [].
Proof.
  induction df as [|row df IH]; intro H; [reflexivity|].
  rewrite emitted_cons.
  assert (E : Qlt_bool 0 (alt_of location t row) = false).
  { apply Qlt_bool_false, H. left. reflexivity. }
  rewrite E. apply IH. intros r Hr. apply H. right. exact Hr.
Qed.

(** Time arithmetic fails with [OverflowError] only. *)
Lemma add_timedelta_raises (d : datetime) (us : Z) (e : exception) :
  add_timedelta d us = inl e -> exists msg, e = OverflowError msg.
Proof.
  unfold add_timedelta, raise, ret.
  match goal with |- context [if ?c then _ else _] => destruct c end.
  - destruct (ord2ymd _) as [[y m] dd]. discriminate.
  - intro H. inversion H. eexists. reflexivity.
Qed.

Lemma utc_time_of_raises (time : datetime) (e : exception) :
  utc_time_of time = inl e -> exists msg, e = OverflowError msg.
Proof.
  unfold utc_time_of, astimezone_utc.
  assert (K : forall d off,
    (u <- add_timedelta d off ;; add_timedelta (replace_tzinfo u (Some utc)) 0)
      = inl e -> exists msg, e = OverflowError msg).
  { intros d off. destruct (add_timedelta d off) as [e'|u] eqn:E; simpl.
    - intro H. inversion H. subst. eapply add_timedelta_raises, E.
    - apply add_timedelta_raises. }
  destruct time as [y mo d h mi s us [[|off]|]];
    cbn [tzinfo replace_tzinfo]; unfold ret.
  - discriminate.
  - apply K.
  - discriminate.
Qed.

(** C1.  With a catalog, an observer and a query time, both variants return,
    every altitude they return is strictly positive, and the rows they
    describe are the catalog rows of strictly positive altitude: a row of
    altitude [<= 0] is not among them. *)
Theorem only_stars_above_horizon_are_emitted
    (self : SkySimulator) (time : datetime) (timezone : string)
    (df : list star_data) (location : observer) (utc_time : datetime) :
  stars_df self = Some df ->
  observer_location self = Some location ->
  utc_time_of time = inr utc_time ->
  let t := skyfield_time self utc_time in
  exists az alt sizes colors,
    get_star_positions self time timezone = inr (az, alt, sizes) /\
    get_star_positions_gui self time timezone = inr (az, alt, sizes, colors) /\
    alt = map (alt_of location t) (emitted location t df) /\
    Forall (fun a => 0 < a) alt /\
    (forall row, In row (emitted location t df) ->
                 In row df /\ 0 < alt_of location t row) /\
    (forall row, In row df -> alt_of location t row <= 0 ->
                 ~ In row (emitted location t df)).
Proof.
  intros Hdf Hloc Hutc t.
  do 4 eexists.
  split; [apply (get_star_positions_returns _ _ _ _ _ _ Hdf Hloc Hutc)|].
  split; [apply (get_star_positions_gui_returns _ _ _ _ _ _ Hdf Hloc Hutc)|].
  split; [reflexivity|].
  split; [|split].
  - apply Forall_forall. intros a Ha.
    apply in_map_iff in Ha. destruct Ha as [row [<- Hrow]].
    apply emitted_In in Hrow. apply Hrow.
  - intros row Hrow. apply emitted_In. exact Hrow.
  - intros row _ Hle Hin. apply emitted_In in Hin. destruct Hin as [_ Hlt].
    apply (Qlt_not_le _ _ Hlt Hle).
Qed.

(** C5.  When no row of the catalog is above the horizon at the query
    time, both variants return (they do not raise) and every array they
    return is empty. *)
Theorem no_star_above_horizon_gives_empty_arrays
    (self : SkySimulator) (time : datetime) (timezone : string)
    (df : list star_data) (location : observer) (utc_time : datetime) :
  stars_df self = Some df ->
  observer_location self = Some location ->
  utc_time_of time = inr utc_time ->
  (forall row, In row df ->
               alt_of location (skyfield_time self utc_time) row <= 0) ->
  get_star_positions self time timezone = inr ([], [], []) /\
  get_star_positions_gui self time timezone = inr ([], [], [], []).
Proof.
  intros Hdf Hloc Hutc Hbelow.
  rewrite (get_star_positions_returns _ _ _ _ _ _ Hdf Hloc Hutc).
  rewrite (get_star_positions_gui_returns _ _ _ _ _ _ Hdf Hloc Hutc).
  rewrite (emitted_nil _ _ _ Hbelow). split; reflexivity.
Qed.

(** C6.  Each variant raises the usage [ValueError] exactly when the
    catalog is not loaded or the observer is not set: without one of them
    it raises it (and returns nothing), with both it never does. *)
Theorem usage_error_iff_not_initialised
    (self : SkySimulator) (time : datetime) (timezone : string) :
  (stars_df self = None \/ observer_location self = None <->
   get_star_positions self time timezone = inl (ValueError usage_message)) /\
  (stars_df self = None \/ observer_location self = None <->
   get_star_positions_gui self time timezone = inl (ValueError usage_message)).
Proof.
  split; split.
  - unfold get_star_positions.
    intros [H|H]; rewrite H; [|destruct (stars_df self)]; reflexivity.
  - destruct (stars_df self) as [df|] eqn:Hdf; [|intros _; left; reflexivity].
    destruct (observer_location self) as [loc|] eqn:Hloc;
      [|intros _; right; reflexivity].
    destruct (utc_time_of time) as [e|u] eqn:Hutc.
    + destruct (utc_time_of_raises _ _ Hutc) as [msg ->].
      unfold get_star_positions. rewrite Hdf, Hloc.
      unfold utc_time_of in Hutc. rewrite Hutc. discriminate.
    + rewrite (get_star_positions_returns _ _ _ _ _ _ Hdf Hloc Hutc).
      discriminate.
  - unfold get_star_positions_gui.
    intros [H|H]; rewrite H; [|destruct (stars_df self)]; reflexivity.
  - destruct (stars_df self) as [df|] eqn:Hdf; [|intros _; left; reflexivity].
    destruct (observer_location self) as [loc|] eqn:Hloc;
      [|intros _; right; reflexivity].
    destruct (utc_time_of time) as [e|u] eqn:Hutc.
    + destruct (utc_time_of_raises _ _ Hutc) as [msg ->].
      unfold get_star_positions_gui. rewrite Hdf, Hloc.
      unfold utc_time_of in Hutc. rewrite Hutc. discriminate.
    + rewrite (get_star_positions_gui_returns _ _ _ _ _ _ Hdf Hloc Hutc).
      discriminate.
Qed.

(** C8.  The arrays returned are parallel: they all have the length of the
    list of emitted rows, and at each index they hold the azimuth, the
    altitude, the size and (GUI variant) the colour of the row at that
    index; the three arrays of the simpler variant are the first three of
    the GUI variant. *)
Theorem returned_arrays_are_parallel
    (self : SkySimulator) (time : datetime) (timezone : string)
    (df : list star_data) (location : observer) (utc_time : datetime) :
  stars_df self = Some df ->
  observer_location self = Some location ->
  utc_time_of time = inr utc_time ->
  let t := skyfield_time self utc_time in
  let rows := emitted location t df in
  exists az alt sizes colors,
    get_star_positions self time timezone = inr (az, alt, sizes) /\
    get_star_positions_gui self time timezone = inr (az, alt, sizes, colors) /\
    List.length az = List.length rows /\
    List.length alt = List.length rows /\
    List.length sizes = List.length rows /\
    List.length colors = List.length rows /\
    forall i row,
      nth_error rows i = Some row ->
      nth_error az i = Some (az_of location t row) /\
      nth_error alt i = Some (alt_of location t row) /\
      nth_error sizes i = Some (star_size (magnitude row)) /\
      nth_error colors i = Some (star_color (magnitude row)).
Proof.
  intros Hdf Hloc Hutc t rows.
  do 4 eexists.
  split; [apply (get_star_positions_returns _ _ _ _ _ _ Hdf Hloc Hutc)|].
  split; [apply (get_star_positions_gui_returns _ _ _ _ _ _ Hdf Hloc Hutc)|].
  fold t. fold rows.
  rewrite !List.length_map. repeat split; try reflexivity.
  - apply (map_nth_error (az_of location t)). assumption.
  - apply (map_nth_error (alt_of location t)). assumption.
  - apply (map_nth_error (fun r => star_size (magnitude r))). assumption.
  - apply (map_nth_error (fun r => star_color (magnitude r))). assumption.
Qed.

(** C9.  [set_observer_location] writes [observer_location] and
    [observer_coords] and nothing else: the catalog, the kernel, the body
    and the time scale are the ones of the state it was called on. *)
Theorem set_observer_location_frame
    (self : SkySimulator) (latitude longitude elevation : Q) :
  let self' := set_observer_location self latitude longitude elevation in
  stars_df self' = stars_df self /\
  load_planets self' = load_planets self /\
  earth self' = earth self /\
  ts self' = ts self /\
  observer_location self' =
    Some (mk_observer (earth self) latitude longitude elevation) /\
  observer_coords self' = Some (latitude, longitude).
Proof.
  cbv zeta. unfold set_observer_location. simpl. repeat split.
Qed.

(** C10.  Two query times whose UTC values agree on year, month, day,
    hour, minute and second give the same result in both variants,
    whatever their microseconds. *)
Theorem microseconds_are_ignored
    (self : SkySimulator) (time1 time2 : datetime) (timezone : string)
    (utc1 utc2 : datetime) :
  utc_time_of time1 = inr utc1 ->
  utc_time_of time2 = inr utc2 ->
  year utc1 = year utc2 -> month utc1 = month utc2 -> day utc1 = day utc2 ->
  hour utc1 = hour utc2 -> minute utc1 = minute utc2 ->
  second utc1 = second utc2 ->
  get_star_positions self time1 timezone =
    get_star_positions self time2 timezone /\
  get_star_positions_gui self time1 timezone =
    get_star_positions_gui self time2 timezone.
Proof.
  intros H1 H2 Hy Hmo Hd Hh Hmi Hs.
  unfold get_star_positions, get_star_positions_gui.
  unfold utc_time_of in H1, H2. rewrite H1, H2. simpl.
  rewrite Hy, Hmo, Hd, Hh, Hmi, Hs. split; reflexivity.
Qed.

(** The five branches of the colour chain, each with the condition under
    which it is taken. *)
Lemma star_color_cases (m : Q) :
  (m < 1 /\ star_color m = sky_blue) \/
  (1 <= m /\ m < 2 /\ star_color m = white) \/
  (2 <= m /\ m < 3 /\ star_color m = moccasin) \/
  (3 <= m /\ m < 4 /\ star_color m = orange) \/
  (4 <= m /\ star_color m = light_red).
Proof.
  unfold star_color.
  destruct (Qlt_bool m 1) eqn:E1;
    [apply Qlt_bool_iff in E1; tauto | apply Qlt_bool_false in E1].
  destruct (Qlt_bool m 2) eqn:E2;
    [apply Qlt_bool_iff in E2; tauto | apply Qlt_bool_false in E2].
  destruct (Qlt_bool m 3) eqn:E3;
    [apply Qlt_bool_iff in E3; tauto | apply Qlt_bool_false in E3].
  destruct (Qlt_bool m 4) eqn:E4;
    [apply Qlt_bool_iff in E4; tauto | apply Qlt_bool_false in E4].
  tauto.
Qed.

(** C3.  The colour of an emitted row is a function of its magnitude
    alone, with five values, each taken on exactly one of the intervals
    [m < 1], [1 <= m < 2], [2 <= m < 3], [3 <= m < 4], [4 <= m]; so
    magnitude 1 is white and magnitude 4 is light red. *)
Theorem colour_is_a_five_bucket_step_function :
  (forall m : Q,
     (star_color m = sky_blue <-> m < 1) /\
     (star_color m = white <-> 1 <= m /\ m < 2) /\
     (star_color m = moccasin <-> 2 <= m /\ m < 3) /\
     (star_color m = orange <-> 3 <= m /\ m < 4) /\
     (star_color m = light_red <-> 4 <= m)) /\
  star_color 1 = white /\
  star_color 4 = light_red /\
  (forall (self : SkySimulator) (time : datetime) (timezone : string)
          (df : list star_data) (location : observer) (utc_time : datetime),
     stars_df self = Some df ->
     observer_location self = Some location ->
     utc_time_of time = inr utc_time ->
     let rows := emitted location (skyfield_time self utc_time) df in
     exists az alt sizes,
       get_star_positions_gui self time timezone =
         inr (az, alt, sizes, map (fun row => star_color (magnitude row)) rows)).
Proof.
  split; [|split; [reflexivity|split; [reflexivity|]]].
  - intro m.
    destruct (star_color_cases m)
      as [[H1 ->]|[[H1 [H2 ->]]|[[H1 [H2 ->]]|[[H1 [H2 ->]]|[H1 ->]]]]];
      repeat split; intros; try reflexivity; try discriminate; try lra.
  - intros self time timezone df location utc_time Hdf Hloc Hutc rows.
    do 3 eexists.
    apply (get_star_positions_gui_returns _ _ _ _ _ _ Hdf Hloc Hutc).
Qed.

(** The [timezone] argument of [get_star_positions] is never read: two
    calls that differ only in it give the same result. *)
Theorem timezone_argument_is_ignored
    (self : SkySimulator) (time : datetime) (timezone1 timezone2 : string) :
  get_star_positions self time timezone1 =
    get_star_positions self time timezone2 /\
  get_star_positions_gui self time timezone1 =
    get_star_positions_gui self time timezone2.
Proof. split; reflexivity. Qed.

(** The two files agree: [sky_simulator.py] raises when
    [sky_simulator_gui.py] raises, with the same exception, and otherwise
    returns the first three arrays that [sky_simulator_gui.py] returns. *)
Theorem gui_variant_extends_simple_variant
    (self : SkySimulator) (time : datetime) (timezone : string) :
  get_star_positions self time timezone =
  match get_star_positions_gui self time timezone with
  | inl e => inl e
  | inr (az, alt, sizes, _) => inr (az, alt, sizes)
  end.
Proof.
  destruct (stars_df self) as [df|] eqn:Hdf;
    [|unfold get_star_positions, get_star_positions_gui; rewrite Hdf;
      reflexivity].
  destruct (observer_location self) as [loc|] eqn:Hloc;
    [|unfold get_star_positions, get_star_positions_gui; rewrite Hdf, Hloc;
      reflexivity].
  destruct (utc_time_of time) as [e|u] eqn:Hutc.
  - unfold get_star_positions, get_star_positions_gui.
    rewrite Hdf, Hloc. unfold utc_time_of in Hutc. rewrite Hutc. reflexivity.
  - rewrite (get_star_positions_returns _ _ _ _ _ _ Hdf Hloc Hutc).
    rewrite (get_star_positions_gui_returns _ _ _ _ _ _ Hdf Hloc Hutc).
    reflexivity.
Qed.

(** [load_star_catalog] keeps exactly the rows of magnitude at most
    [max_magnitude], and leaves the observer as it was. *)
Theorem load_star_catalog_keeps_bright_rows
    (self : SkySimulator) (hipparcos : list star_data) (max_magnitude : Q) :
  let self' := load_star_catalog self hipparcos max_magnitude in
  (exists df, stars_df self' = Some df /\
     forall row, In row df <-> In row hipparcos /\ magnitude row <= max_magnitude) /\
  observer_location self' = observer_location self /\
  observer_coords self' = observer_coords self.
Proof.
  cbv zeta. unfold load_star_catalog. cbn.
  split; [|split; reflexivity].
  eexists. split; [reflexivity|].
  intro row. rewrite filter_In, Qle_bool_iff. reflexivity.
Qed.

End SkySimulator.

(* ================================================================== *)
(** ** 7. Rounding: the facts the size function needs *)
(* ================================================================== *)

Module Binary64Facts.

(** *** Powers of two *)

Lemma pow2_pos (e : Z) : 0 < pow2 e.
Proof. apply Qpower_0_lt. reflexivity. Qed.

Lemma pow2_add (a b : Z) : pow2 (a + b) == pow2 a * pow2 b.
Proof. apply Qpower_plus. discriminate. Qed.

Lemma pow2_le (a b : Z) : (a <= b)%Z -> pow2 a <= pow2 b.
Proof. intro H. apply Qpower_le_compat_l; [exact H | discriminate]. Qed.

Lemma pow2_succ (a : Z) : pow2 (a + 1) == 2 * pow2 a.
Proof. rewrite pow2_add. change (pow2 1) with 2. ring. Qed.

Lemma pow2_inject_Z (n : Z) : (0 <= n)%Z -> inject_Z (2 ^ n) == pow2 n.
Proof. intro H. apply (Zpower_Qpower 2 n H). Qed.

Lemma pow2_log2 (n : Z) :
  (0 < n)%Z -> pow2 (Z.log2 n) <= inject_Z n /\ inject_Z n < pow2 (Z.log2 n + 1).
Proof.
  intro Hn. destruct (Z.log2_spec n Hn) as [Hlo Hhi].
  pose proof (Z.log2_nonneg n) as H0.
  rewrite <- !pow2_inject_Z by lia.
  rewrite <- Zle_Qle, <- Zlt_Qlt. split; [exact Hlo|].
  replace (Z.log2 n + 1)%Z with (Z.succ (Z.log2 n)) by lia. exact Hhi.
Qed.

Lemma pow2_split (k : Z) : pow2 k == inject_Z (2 ^ 52) * pow2 (k - 52).
Proof.
  rewrite pow2_inject_Z by lia. rewrite <- pow2_add.
  replace (52 + (k - 52))%Z with k by lia. reflexivity.
Qed.

Lemma pow2_split_succ (k : Z) : pow2 (k + 1) == inject_Z (2 ^ 53) * pow2 (k - 52).
Proof.
  rewrite pow2_inject_Z by lia. rewrite <- pow2_add.
  replace (53 + (k - 52))%Z with (k + 1)%Z by lia. reflexivity.
Qed.

Lemma div_pow2_le (x y : Q) (e : Z) : x <= y -> x / pow2 e <= y / pow2 e.
Proof.
  intro H. unfold Qdiv. apply Qmult_le_compat_r; [exact H|].
  apply Qlt_le_weak, Qinv_lt_0_compat, pow2_pos.
Qed.

Lemma mul_pow2_le (x y : Q) (e : Z) : x <= y -> x * pow2 e <= y * pow2 e.
Proof.
  intro H. apply Qmult_le_compat_r; [exact H|]. apply Qlt_le_weak, pow2_pos.
Qed.

(** *** The binade of a rational *)

Lemma ilog2_spec (q : Q) :
  ~ q == 0 -> pow2 (ilog2 q) <= Qabs q /\ Qabs q < pow2 (ilog2 q + 1).
Proof.
  intro Hq. unfold ilog2.
  set (n := Z.abs (Qnum q)). set (d := Zpos (Qden q)).
  assert (Hn : (0 < n)%Z).
  { unfold n. destruct q as [[|p|p] dq]; simpl; try lia.
    exfalso. apply Hq. reflexivity. }
  assert (Hd : (0 < d)%Z) by (unfold d; lia).
  destruct (pow2_log2 n Hn) as [Hn1 Hn2], (pow2_log2 d Hd) as [Hd1 Hd2].
  assert (Hdq : 0 < inject_Z d)
    by (change 0 with (inject_Z 0); rewrite <- Zlt_Qlt; exact Hd).
  assert (Habs : Qabs q * inject_Z d == inject_Z n).
  { destruct q as [nq dq]. unfold n, d. simpl.
    rewrite (Qmake_Qdiv (Z.abs nq) dq). field. discriminate. }
  set (a := Z.log2 n) in *. set (b := Z.log2 d) in *.
  pose proof (pow2_pos (a - b)) as Hk.
  pose proof (pow2_pos b) as Hb.
  pose proof (pow2_add (a - b) b) as E1.
  replace (a - b + b)%Z with a in E1 by lia.
  pose proof (pow2_succ a) as E2. pose proof (pow2_succ b) as E3.
  pose proof (pow2_succ (a - b)) as E4.
  pose proof (pow2_succ (a - b - 1)) as E5.
  replace (a - b - 1 + 1)%Z with (a - b)%Z in E5 by lia.
  destruct (Qle_bool (pow2 (a - b)) (Qabs q)) eqn:Hc.
  - apply Qle_bool_iff in Hc. split; [exact Hc|].
    rewrite E4.
    apply (Qmult_lt_r _ _ (inject_Z d) Hdq). rewrite Habs.
    apply Qlt_le_trans with (1 := Hn2). rewrite E2, E1.
    setoid_replace (2 * (pow2 (a - b) * pow2 b))
      with (2 * pow2 (a - b) * pow2 b) by ring.
    apply Qmult_le_l; [lra | exact Hd1].
  - assert (Hc' : Qabs q < pow2 (a - b)).
    { apply Qnot_le_lt. intro H. apply Qle_bool_iff in H. congruence. }
    replace (a - b - 1 + 1)%Z with (a - b)%Z by lia.
    split; [|exact Hc'].
    apply (Qmult_le_r _ _ (inject_Z d) Hdq). rewrite Habs.
    apply Qle_trans with (2 := Hn1). rewrite E1, E5.
    apply Qle_trans with (pow2 (a - b - 1) * pow2 (b + 1)).
    + apply Qmult_le_l; [apply pow2_pos | lra].
    + rewrite E3. lra.
Qed.

Lemma ilog2_unique (q : Q) (k : Z) :
  pow2 k <= Qabs q -> Qabs q < pow2 (k + 1) -> ilog2 q = k.
Proof.
  intros Hlo Hhi.
  assert (Hq : ~ q == 0).
  { intro E. rewrite E in Hlo. pose proof (pow2_pos k). simpl in Hlo. lra. }
  destruct (ilog2_spec q Hq) as [Hlo' Hhi'].
  destruct (Z.lt_trichotomy (ilog2 q) k) as [H|[H|H]]; [exfalso|exact H|exfalso].
  - pose proof (pow2_le (ilog2 q + 1) k ltac:(lia)). lra.
  - pose proof (pow2_le (k + 1) (ilog2 q) ltac:(lia)). lra.
Qed.

Lemma ilog2_monotone (x y : Q) :
  ~ x == 0 -> Qabs x <= Qabs y -> (ilog2 x <= ilog2 y)%Z.
Proof.
  intros Hx Hxy.
  assert (Hy : ~ y == 0).
  { intro E. rewrite E in Hxy. simpl in Hxy.
    apply Qabs_Qle_condition in Hxy. apply Hx. lra. }
  destruct (ilog2_spec x Hx) as [Hlo _], (ilog2_spec y Hy) as [_ Hhi].
  destruct (Z_le_gt_dec (ilog2 x) (ilog2 y)) as [H|H]; [exact H|exfalso].
  pose proof (pow2_le (ilog2 y + 1) (ilog2 x) ltac:(lia)). lra.
Qed.

(** *** Rounding to an integer *)

Lemma rint_near (q : Q) :
  inject_Z (rint q) - (1 # 2) <= q /\ q <= inject_Z (rint q) + (1 # 2).
Proof.
  unfold rint.
  pose proof (Qfloor_le q) as Hlo.
  pose proof (Qlt_floor q) as Hhi.
  rewrite inject_Z_plus in Hhi. change (inject_Z 1) with 1 in Hhi.
  destruct (Qcompare_spec (q - inject_Z (Qfloor q)) (1 # 2)) as [He|Hl|Hg].
  - destruct (Z.even (Qfloor q));
      [|rewrite inject_Z_plus; change (inject_Z 1) with 1]; split; lra.
  - split; lra.
  - rewrite inject_Z_plus. change (inject_Z 1) with 1. split; lra.
Qed.

#[local] Instance rint_proper : Proper (Qeq ==> eq) rint.
Proof.
  intros x y Hxy. unfold rint.
  rewrite (Qfloor_comp x y Hxy).
  assert (E : x - inject_Z (Qfloor y) == y - inject_Z (Qfloor y))
    by (rewrite Hxy; reflexivity).
  rewrite (Qcompare_comp _ _ E (1 # 2) (1 # 2) (Qeq_refl _)).
  reflexivity.
Qed.

Lemma rint_monotone (x y : Q) : x <= y -> (rint x <= rint y)%Z.
Proof.
  intro Hxy.
  destruct (Z_le_gt_dec (rint x) (rint y)) as [H|H]; [exact H|exfalso].
  destruct (rint_near x) as [Hx _], (rint_near y) as [_ Hy].
  assert (Hz : inject_Z (rint y) + 1 <= inject_Z (rint x)).
  { change 1 with (inject_Z 1). rewrite <- inject_Z_plus, <- Zle_Qle. lia. }
  assert (E : x == y) by lra.
  rewrite (rint_proper x y E) in H. lia.
Qed.

Lemma rint_inject_Z (z : Z) : rint (inject_Z z) = z.
Proof.
  unfold rint. rewrite Qfloor_Z.
  destruct (Qcompare_spec (inject_Z z - inject_Z z) (1 # 2)) as [He|Hl|Hg].
  - exfalso. lra.
  - reflexivity.
  - exfalso. lra.
Qed.

(** Rounding on the grid [2^e * Z] keeps a value between two grid points. *)
Lemma rint_grid_bounds (q : Q) (e lo hi : Z) :
  inject_Z lo * pow2 e <= q -> q <= inject_Z hi * pow2 e ->
  inject_Z lo * pow2 e <= inject_Z (rint (q / pow2 e)) * pow2 e /\
  inject_Z (rint (q / pow2 e)) * pow2 e <= inject_Z hi * pow2 e.
Proof.
  intros Hlo Hhi. pose proof (pow2_pos e) as He.
  assert (Elo : inject_Z lo * pow2 e / pow2 e == inject_Z lo) by (field; lra).
  assert (Ehi : inject_Z hi * pow2 e / pow2 e == inject_Z hi) by (field; lra).
  apply (div_pow2_le _ _ e) in Hlo, Hhi. rewrite Elo in Hlo. rewrite Ehi in Hhi.
  apply rint_monotone in Hlo, Hhi. rewrite rint_inject_Z in Hlo, Hhi.
  split; apply mul_pow2_le; rewrite <- Zle_Qle; assumption.
Qed.

(** *** Rounding to 53 bits *)

Lemma RN_nonzero (q : Q) :
  ~ q == 0 ->
  RN q == inject_Z (rint (q / pow2 (ilog2 q - 52))) * pow2 (ilog2 q - 52).
Proof.
  intro Hq. unfold RN.
  destruct (Qeq_bool q 0) eqn:E.
  - apply Qeq_bool_iff in E. contradiction.
  - apply Qred_correct.
Qed.

Lemma RN_zero (q : Q) : q == 0 -> RN q = 0.
Proof.
  intro Hq. unfold RN. apply Qeq_bool_iff in Hq. rewrite Hq. reflexivity.
Qed.

(** A positive value and its rounding lie in the same closed binade. *)
Lemma RN_pos_bounds (q : Q) :
  0 < q -> pow2 (ilog2 q) <= RN q /\ RN q <= pow2 (ilog2 q + 1).
Proof.
  intro Hq.
  assert (Hq0 : ~ q == 0) by lra.
  destruct (ilog2_spec q Hq0) as [Hlo Hhi].
  rewrite (Qabs_pos q) in Hlo, Hhi by lra.
  rewrite (RN_nonzero q Hq0), (pow2_split (ilog2 q)), (pow2_split_succ (ilog2 q)).
  apply rint_grid_bounds.
  - rewrite <- (pow2_split (ilog2 q)). exact Hlo.
  - rewrite <- (pow2_split_succ (ilog2 q)). lra.
Qed.

Lemma RN_neg_bounds (q : Q) :
  q < 0 -> - pow2 (ilog2 q + 1) <= RN q /\ RN q <= - pow2 (ilog2 q).
Proof.
  intro Hq.
  assert (Hq0 : ~ q == 0) by lra.
  destruct (ilog2_spec q Hq0) as [Hlo Hhi].
  rewrite (Qabs_neg q) in Hlo, Hhi by lra.
  rewrite (RN_nonzero q Hq0), (pow2_split (ilog2 q)), (pow2_split_succ (ilog2 q)).
  setoid_replace (- (inject_Z (2 ^ 53) * pow2 (ilog2 q - 52)))
    with (inject_Z (- 2 ^ 53) * pow2 (ilog2 q - 52))
    by (rewrite inject_Z_opp; ring).
  setoid_replace (- (inject_Z (2 ^ 52) * pow2 (ilog2 q - 52)))
    with (inject_Z (- 2 ^ 52) * pow2 (ilog2 q - 52))
    by (rewrite inject_Z_opp; ring).
  apply rint_grid_bounds.
  - rewrite inject_Z_opp.
    setoid_replace (- inject_Z (2 ^ 53) * pow2 (ilog2 q - 52))
      with (- (inject_Z (2 ^ 53) * pow2 (ilog2 q - 52))) by ring.
    rewrite <- (pow2_split_succ (ilog2 q)). lra.
  - rewrite inject_Z_opp.
    setoid_replace (- inject_Z (2 ^ 52) * pow2 (ilog2 q - 52))
      with (- (inject_Z (2 ^ 52) * pow2 (ilog2 q - 52))) by ring.
    rewrite <- (pow2_split (ilog2 q)). lra.
Qed.

Lemma RN_same_binade (x y : Q) :
  ~ x == 0 -> ~ y == 0 -> ilog2 x = ilog2 y -> x <= y -> RN x <= RN y.
Proof.
  intros Hx Hy Hk Hxy.
  rewrite (RN_nonzero x Hx), (RN_nonzero y Hy), Hk.
  apply mul_pow2_le. rewrite <- Zle_Qle.
  apply rint_monotone, div_pow2_le, Hxy.
Qed.

(** Rounding never reverses the order of two values. *)
Lemma RN_monotone (x y : Q) : x <= y -> RN x <= RN y.
Proof.
  intro Hxy.
  destruct (Q_dec x 0) as [[Hx|Hx]|Hx], (Q_dec y 0) as [[Hy|Hy]|Hy];
    try (exfalso; lra).
  - assert (Hk : (ilog2 y <= ilog2 x)%Z).
    { apply ilog2_monotone; [lra|]. rewrite !Qabs_neg by lra. lra. }
    destruct (Z.eq_dec (ilog2 x) (ilog2 y)) as [E|E].
    + apply RN_same_binade; auto; lra.
    + destruct (RN_neg_bounds x Hx) as [_ Hux], (RN_neg_bounds y Hy) as [Hly _].
      pose proof (pow2_le (ilog2 y + 1) (ilog2 x) ltac:(lia)). lra.
  - destruct (RN_neg_bounds x Hx) as [_ Hux], (RN_pos_bounds y Hy) as [Hly _].
    pose proof (pow2_pos (ilog2 x)). pose proof (pow2_pos (ilog2 y)). lra.
  - destruct (RN_neg_bounds x Hx) as [_ Hux].
    rewrite (RN_zero y Hy). pose proof (pow2_pos (ilog2 x)). lra.
  - assert (Hk : (ilog2 x <= ilog2 y)%Z).
    { apply ilog2_monotone; [lra|]. rewrite !Qabs_pos by lra. lra. }
    destruct (Z.eq_dec (ilog2 x) (ilog2 y)) as [E|E].
    + apply RN_same_binade; auto; lra.
    + destruct (RN_pos_bounds x Hx) as [_ Hux], (RN_pos_bounds y Hy) as [Hly _].
      pose proof (pow2_le (ilog2 x + 1) (ilog2 y) ltac:(lia)). lra.
  - destruct (RN_pos_bounds y Hy) as [Hly _].
    rewrite (RN_zero x Hx). pose proof (pow2_pos (ilog2 y)). lra.
  - rewrite (RN_zero x Hx), (RN_zero y Hy). lra.
Qed.

(** Equal rationals round to the same fraction, whatever their writing. *)
Lemma RN_proper (x y : Q) : x == y -> RN x = RN y.
Proof.
  intro Hxy.
  destruct (Qeq_dec x 0) as [Hx|Hx].
  - rewrite (RN_zero x Hx). symmetry. apply RN_zero. rewrite <- Hxy. exact Hx.
  - assert (Hy : ~ y == 0) by (rewrite <- Hxy; exact Hx).
    assert (Hk : ilog2 x = ilog2 y).
    { destruct (ilog2_spec y Hy) as [Hlo Hhi].
      apply ilog2_unique; rewrite Hxy; assumption. }
    unfold RN.
    destruct (Qeq_bool x 0) eqn:Ex; [apply Qeq_bool_iff in Ex; contradiction|].
    destruct (Qeq_bool y 0) eqn:Ey; [apply Qeq_bool_iff in Ey; contradiction|].
    apply Qred_complete. rewrite Hk.
    assert (E : x / pow2 (ilog2 y - 52) == y / pow2 (ilog2 y - 52))
      by (rewrite Hxy; reflexivity).
    rewrite (rint_proper _ _ E). reflexivity.
Qed.

(** The rounding error is at most half a unit in the last place. *)
Lemma RN_error (q : Q) (K : Z) :
  Qabs q <= pow2 K -> Qabs (RN q - q) <= pow2 (K - 53).
Proof.
  intro HK. pose proof (pow2_pos (K - 53)) as HP.
  destruct (Qeq_dec q 0) as [Hq|Hq].
  - rewrite (RN_zero q Hq). apply Qabs_Qle_condition. lra.
  - destruct (ilog2_spec q Hq) as [Hlo _].
    assert (Hk : (ilog2 q <= K)%Z).
    { destruct (Z_le_gt_dec (ilog2 q) K) as [H|H]; [exact H|exfalso].
      pose proof (pow2_le (K + 1) (ilog2 q) ltac:(lia)) as H1.
      pose proof (pow2_succ K) as H2. pose proof (pow2_pos K). lra. }
    set (e := (ilog2 q - 52)%Z).
    pose proof (pow2_pos e) as He.
    destruct (rint_near (q / pow2 e)) as [H1 H2].
    assert (Eq : q / pow2 e * pow2 e == q) by (field; lra).
    assert (Ee : pow2 e == 2 * pow2 (ilog2 q - 53)).
    { rewrite <- pow2_succ. unfold e.
      replace (ilog2 q - 53 + 1)%Z with (ilog2 q - 52)%Z by lia. reflexivity. }
    pose proof (pow2_le (ilog2 q - 53) (K - 53) ltac:(lia)) as Hle.
    apply (mul_pow2_le _ _ e) in H1, H2.
    rewrite Eq in H1, H2.
    rewrite (RN_nonzero q Hq). fold e.
    apply Qabs_Qle_condition.
    set (z := inject_Z (rint (q / pow2 e))) in *.
    split; nra.
Qed.

End Binary64Facts.

(* ================================================================== *)
(** ** 8. Properties of the size function *)
(* ================================================================== *)

Lemma np_clip_bounds (a a_min a_max : Q) :
  a_min <= a_max -> a_min <= np_clip a a_min a_max /\ np_clip a a_min a_max <= a_max.
Proof.
  intro H. unfold np_clip. split.
  - apply Q.min_glb; [apply Q.le_max_r | exact H].
  - apply Q.le_min_r.
Qed.

Lemma np_clip_monotone (a b a_min a_max : Q) :
  a <= b -> np_clip a a_min a_max <= np_clip b a_min a_max.
Proof.
  intro H. unfold np_clip.
  apply Q.min_le_compat_r, Q.max_le_compat_r, H.
Qed.

Lemma np_clip_lipschitz (a b a_min a_max d : Q) :
  Qabs (a - b) <= d ->
  Qabs (np_clip a a_min a_max - np_clip b a_min a_max) <= d.
Proof.
  intro H. apply Qabs_Qle_condition in H. apply Qabs_Qle_condition.
  unfold np_clip.
  destruct (Q.max_spec a a_min) as [[Ha Ea]|[Ha Ea]],
           (Q.max_spec b a_min) as [[Hb Eb]|[Hb Eb]],
           (Q.min_spec (Qmax a a_min) a_max) as [[Ha' Ea']|[Ha' Ea']],
           (Q.min_spec (Qmax b a_min) a_max) as [[Hb' Eb']|[Hb' Eb']];
    rewrite Ea', Eb'; rewrite ?Ea, ?Eb; rewrite Ea in Ha'; rewrite Eb in Hb';
    split; lra.
Qed.

Lemma star_size_monotone (m1 m2 : Q) : m1 <= m2 -> star_size m2 <= star_size m1.
Proof.
  intro H. unfold star_size, fadd, fmul, fsub.
  apply np_clip_monotone, Binary64Facts.RN_monotone.
  apply Qplus_le_compat; [|apply Qle_refl].
  apply Binary64Facts.RN_monotone.
  apply Qmult_le_l; [reflexivity|].
  apply Binary64Facts.RN_monotone. lra.
Qed.

Lemma star_size_close_to_spec_size (m : Q) :
  Qabs (star_size m - spec_size m) <= pow2 (-45).
Proof.
  assert (P45 : pow2 (-45) == 1 # 35184372088832) by reflexivity.
  assert (P47 : pow2 (-47) == 1 # 140737488355328) by reflexivity.
  assert (P51 : pow2 (-51) == 1 # 2251799813685248) by reflexivity.
  assert (Hb : 1 <= star_size m /\ star_size m <= 50)
    by (apply np_clip_bounds; discriminate).
  destruct Hb as [Hlo Hhi].
  destruct (Qlt_le_dec m (5 # 2)) as [Hm1|Hm1]; [|destruct (Qlt_le_dec 5 m) as [Hm2|Hm2]].
  - (* bright: both sizes are 50 *)
    pose proof (star_size_monotone m (5 # 2) ltac:(lra)) as H.
    assert (E : star_size (5 # 2) == 50) by (vm_compute; reflexivity).
    assert (S : spec_size m == 50).
    { unfold spec_size, np_clip.
      rewrite (Q.max_l (20 * (5 - m) + 1) 1) by lra.
      apply Q.min_r. lra. }
    rewrite S. apply Qabs_Qle_condition. lra.
  - (* faint: both sizes are 1 *)
    pose proof (star_size_monotone 5 m ltac:(lra)) as H.
    assert (E : star_size 5 == 1) by (vm_compute; reflexivity).
    assert (S : spec_size m == 1).
    { unfold spec_size, np_clip.
      rewrite (Q.max_r (20 * (5 - m) + 1) 1) by lra.
      apply Q.min_l. lra. }
    rewrite S. apply Qabs_Qle_condition. lra.
  - (* in between: three roundings of values below 64 *)
    unfold star_size, spec_size. apply np_clip_lipschitz.
    unfold fadd, fmul, fsub.
    set (r1 := RN (5 - m)).
    assert (H1 : Qabs (r1 - (5 - m)) <= pow2 (2 - 53)).
    { apply Binary64Facts.RN_error. change (pow2 2) with 4. apply Qabs_Qle_condition. lra. }
    change (2 - 53)%Z with (-51)%Z in H1. apply Qabs_Qle_condition in H1.
    set (r2 := RN (20 * r1)).
    assert (H2 : Qabs (r2 - 20 * r1) <= pow2 (6 - 53)).
    { apply Binary64Facts.RN_error. change (pow2 6) with 64. apply Qabs_Qle_condition. lra. }
    change (6 - 53)%Z with (-47)%Z in H2. apply Qabs_Qle_condition in H2.
    set (r3 := RN (r2 + 1)).
    assert (H3 : Qabs (r3 - (r2 + 1)) <= pow2 (6 - 53)).
    { apply Binary64Facts.RN_error. change (pow2 6) with 64. apply Qabs_Qle_condition. lra. }
    change (6 - 53)%Z with (-47)%Z in H3. apply Qabs_Qle_condition in H3.
    apply Qabs_Qle_condition. lra.
Qed.

(** C7.  For every magnitude the size is between 1 and 50, and a larger
    magnitude never gives a larger size; both hold with the float64
    operations of the code, and with the exact formula of the
    specification. *)
Theorem star_size_bounded_and_non_increasing :
  (forall m : Q, 1 <= star_size m /\ star_size m <= 50) /\
  (forall m1 m2 : Q, m1 <= m2 -> star_size m2 <= star_size m1) /\
  (forall m : Q, 1 <= spec_size m /\ spec_size m <= 50) /\
  (forall m1 m2 : Q, m1 <= m2 -> spec_size m2 <= spec_size m1).
Proof.
  split; [|split; [|split]].
  - intro m. apply np_clip_bounds. discriminate.
  - exact star_size_monotone.
  - intro m. apply np_clip_bounds. discriminate.
  - intros m1 m2 H. unfold spec_size. apply np_clip_monotone. lra.
Qed.

(** C2, as the code has it.  The size returned for an emitted row of
    magnitude [m] is [clip (20 * (5 - m) + 1, 1, 50)] with every operation
    a float64 operation; it is within [2^-45] of the exact value of the
    formula.  For [m = 0.5] it is exactly [50].  For [m = 4.2] (the
    float64 nearest to 4.2) it is [17 - 2^-48], that is
    16.999999999999996; the exact formula gives [17] there. *)
Theorem sizes_are_the_clipped_float_formula :
  (forall {Kernel Body Timescale Time : Type}
          (ts_utc : Timescale -> Z -> Z -> Z -> Z -> Z -> Z -> Time)
          (altaz : @observer Body -> Time -> star_data -> Q * Q)
          (local_zone : dt_timezone)
          (self : @SkySimulator Kernel Body Timescale)
          (time : datetime) (timezone : string)
          (df : list star_data) (location : observer) (utc_time : datetime),
     stars_df self = Some df ->
     observer_location self = Some location ->
     utc_time_of local_zone time = inr utc_time ->
     let rows := emitted altaz location (skyfield_time ts_utc self utc_time) df in
     let sizes :=
       map (fun row =>
              np_clip (fadd (fmul 20 (fsub 5 (magnitude row))) 1) 1 50) rows in
     exists az alt colors,
       get_star_positions ts_utc altaz local_zone self time timezone =
         inr (az, alt, sizes) /\
       get_star_positions_gui ts_utc altaz local_zone self time timezone =
         inr (az, alt, sizes, colors)) /\
  (forall m : Q, Qabs (star_size m - spec_size m) <= pow2 (-45)) /\
  star_size (float_of_decimal (5 # 10)) = 50 /\
  spec_size (5 # 10) == 50 /\
  star_size (float_of_decimal (42 # 10)) == 17 - pow2 (-48) /\
  spec_size (42 # 10) == 17.
Proof.
  split; [|split; [exact star_size_close_to_spec_size|]];
    [|repeat split; vm_compute; reflexivity].
  intros Kernel Body Timescale Time ts_utc altaz local_zone
         self time timezone df location utc_time Hdf Hloc Hutc rows sizes.
  assert (E : sizes = map (fun row => star_size (magnitude row)) rows).
  { apply map_ext. intro row. unfold star_size. reflexivity. }
  rewrite E. clear E sizes.
  do 3 eexists.
  split; [apply (get_star_positions_returns _ _ _ _ _ _ _ _ _ Hdf Hloc Hutc)|].
  apply (get_star_positions_gui_returns _ _ _ _ _ _ _ _ _ Hdf Hloc Hutc).
Qed.

(* ================================================================== *)
(** ** 9. Dates: conversion from a zero offset changes nothing *)
(* ================================================================== *)

Module PyDatetimeFacts.

Local Open Scope Z_scope.

Lemma zrange_In lo n x : lo <= x < lo + Z.of_nat n -> In x (zrange lo n).
Proof.
  revert lo. induction n as [|n IH]; intros lo H; simpl.
  - lia.
  - destruct (Z.eq_dec lo x); [left; assumption|right; apply IH; lia].
Qed.

Lemma forallb_zrange (f : Z -> bool) (lo : Z) (n : nat) :
  forallb f (zrange lo n) = true ->
  forall x, lo <= x < lo + Z.of_nat n -> f x = true.
Proof.
  intros H x Hx. rewrite forallb_forall in H. apply H, zrange_In, Hx.
Qed.

Lemma cycle_ok :
  forallb (fun y =>
    forallb (fun m =>
      forallb (fun d => date_ok y m d) (zrange 1 (Z.to_nat (days_in_month y m))))
      (zrange 1 12))
    (zrange 1 400) = true.
Proof. vm_cast_no_check (@eq_refl bool true). Qed.

Lemma cycle_date_ok (y m d : Z) :
  1 <= y <= 400 -> 1 <= m <= 12 -> 1 <= d <= days_in_month y m ->
  date_ok y m d = true.
Proof.
  intros Hy Hm Hd.
  pose proof (forallb_zrange _ _ _ cycle_ok y ltac:(lia)) as H1.
  pose proof (forallb_zrange _ _ _ H1 m ltac:(lia)) as H2.
  apply (forallb_zrange _ _ _ H2 d). lia.
Qed.

Lemma is_leap_period (y q : Z) : is_leap (y + 400 * q) = is_leap y.
Proof.
  unfold is_leap.
  replace (y + 400 * q) with (y + (100 * q) * 4) at 1 by lia.
  replace (y + 400 * q) with (y + (4 * q) * 100) at 1 by lia.
  replace (y + 400 * q) with (y + q * 400) by lia.
  rewrite !Z_mod_plus_full. reflexivity.
Qed.

Lemma days_before_year_period (y q : Z) :
  days_before_year (y + 400 * q) = days_before_year y + DI400Y * q.
Proof.
  unfold days_before_year, DI400Y.
  replace ((y + 400 * q - 1) / 4) with ((y - 1) / 4 + 100 * q)
    by (rewrite <- Z.div_add by lia; f_equal; lia).
  replace ((y + 400 * q - 1) / 100) with ((y - 1) / 100 + 4 * q)
    by (rewrite <- Z.div_add by lia; f_equal; lia).
  replace ((y + 400 * q - 1) / 400) with ((y - 1) / 400 + q)
    by (rewrite <- Z.div_add by lia; f_equal; lia).
  lia.
Qed.

Lemma ymd2ord_period (y m d q : Z) :
  ymd2ord (y + 400 * q) m d = ymd2ord y m d + DI400Y * q.
Proof.
  unfold ymd2ord, days_before_month.
  rewrite days_before_year_period, is_leap_period. lia.
Qed.

Lemma days_in_month_period (y m q : Z) :
  days_in_month (y + 400 * q) m = days_in_month y m.
Proof. unfold days_in_month. rewrite is_leap_period. reflexivity. Qed.

Lemma ord2ymd_period (n q : Z) :
  1 <= n <= DI400Y ->
  ord2ymd (n + DI400Y * q) =
  let '(y, m, d) := ord2ymd n in (y + 400 * q, m, d).
Proof.
  intro Hn. unfold ord2ymd.
  replace (n + DI400Y * q - 1) with (n - 1 + q * DI400Y) by lia.
  rewrite Z.div_add, Z_mod_plus_full by (unfold DI400Y; lia).
  rewrite (Z.div_small (n - 1) DI400Y), (Z.mod_small (n - 1) DI400Y) by lia.
  cbv zeta.
  destruct ((_ =? 4) || (_ =? 4)).
  - f_equal. f_equal. lia.
  - destruct (_ <? _); f_equal; f_equal; lia.
Qed.

Lemma date_ok_spec (y m d : Z) :
  date_ok y m d = true ->
  ord2ymd (ymd2ord y m d) = (y, m, d) /\
  1 <= ymd2ord y m d <= DI400Y /\
  (400 <= y \/ ymd2ord y m d <= 145731).
Proof.
  unfold date_ok.
  destruct (ord2ymd (ymd2ord y m d)) as [[y' m'] d'].
  rewrite !andb_true_iff, orb_true_iff, !Z.eqb_eq, !Z.leb_le.
  intros [[[[[-> ->] ->] Hn1] Hn2] Hn3]. auto.
Qed.

Lemma ymd_roundtrip (y m d : Z) :
  valid_date y m d = true ->
  ord2ymd (ymd2ord y m d) = (y, m, d) /\ 0 < ymd2ord y m d <= MAXORDINAL.
Proof.
  unfold valid_date. rewrite !andb_true_iff, !Z.leb_le.
  intros [[[[[Hy1 Hy2] Hm1] Hm2] Hd1] Hd2].
  pose (q := (y - 1) / 400). pose (r := (y - 1) mod 400 + 1).
  assert (Hyr : y = r + 400 * q).
  { unfold r, q. pose proof (Z.div_mod (y - 1) 400 ltac:(lia)). lia. }
  assert (Hr : 1 <= r <= 400).
  { unfold r. pose proof (Z.mod_pos_bound (y - 1) 400 ltac:(lia)). lia. }
  assert (Hq : 0 <= q <= 24).
  { unfold q. split.
    - apply Z.div_pos; lia.
    - assert ((y - 1) / 400 < 25) by (apply Z.div_lt_upper_bound; lia). lia. }
  clearbody q r. subst y.
  rewrite days_in_month_period in Hd2.
  destruct (date_ok_spec r m d
              (cycle_date_ok r m d Hr (conj Hm1 Hm2) (conj Hd1 Hd2)))
    as [E [Hn Hn3]].
  rewrite ymd2ord_period, ord2ymd_period, E by exact Hn.
  split; [reflexivity|].
  unfold MAXORDINAL. unfold DI400Y in *. lia.
Qed.

Lemma split_time_of_day (ord h mi s us : Z) :
  0 <= h < 24 -> 0 <= mi < 60 -> 0 <= s < 60 -> 0 <= us < 1000000 ->
  let total := (((ord * 24 + h) * 60 + mi) * 60 + s) * US_PER_SECOND + us + 0 in
  let seconds := (total mod US_PER_DAY) / US_PER_SECOND in
  total / US_PER_DAY = ord /\
  seconds / 3600 = h /\
  (seconds mod 3600) / 60 = mi /\
  (seconds mod 3600) mod 60 = s /\
  total mod US_PER_SECOND = us.
Proof.
  intros Hh Hmi Hs Hus total seconds.
  unfold US_PER_DAY, US_PER_SECOND in *.
  assert (Ed : total / (86400 * 1000000) = ord).
  { symmetry. apply (Z.div_unique total (86400 * 1000000) ord
                       (((h * 60 + mi) * 60 + s) * 1000000 + us)).
    - left. lia.
    - unfold total. ring. }
  assert (Em : total mod (86400 * 1000000) =
               ((h * 60 + mi) * 60 + s) * 1000000 + us).
  { symmetry. apply (Z.mod_unique total (86400 * 1000000) ord).
    - left. lia.
    - unfold total. ring. }
  assert (Es : seconds = (h * 60 + mi) * 60 + s).
  { unfold seconds. rewrite Em. symmetry.
    apply (Z.div_unique _ 1000000 _ us); [left; lia | ring]. }
  split; [exact Ed|]. rewrite Es.
  split; [symmetry; apply (Z.div_unique _ 3600 _ (mi * 60 + s)); [left; lia | ring]|].
  assert (Er : ((h * 60 + mi) * 60 + s) mod 3600 = mi * 60 + s).
  { symmetry. apply (Z.mod_unique _ 3600 h); [left; lia | ring]. }
  rewrite Er.
  split; [symmetry; apply (Z.div_unique _ 60 _ s); [left; lia | ring]|].
  split; [symmetry; apply (Z.mod_unique _ 60 mi); [left; lia | ring]|].
  symmetry.
  apply (Z.mod_unique total 1000000 (((ord * 24 + h) * 60 + mi) * 60 + s));
    [left; lia | unfold total; ring].
Qed.

Lemma add_timedelta_zero (t : datetime) :
  valid_datetime t = true -> add_timedelta t 0 = inr t.
Proof.
  destruct t as [y mo d h mi s us tz].
  unfold valid_datetime. cbn [year month day hour minute second microsecond].
  rewrite !andb_true_iff, !Z.leb_le, !Z.ltb_lt.
  intros [[[[[[[[Hd Hh1] Hh2] Hmi1] Hmi2] Hs1] Hs2] Hus1] Hus2].
  destruct (ymd_roundtrip y mo d Hd) as [E Hord].
  unfold add_timedelta.
  cbn [year month day hour minute second microsecond tzinfo].
  destruct (split_time_of_day (ymd2ord y mo d) h mi s us
              (conj Hh1 Hh2) (conj Hmi1 Hmi2) (conj Hs1 Hs2) (conj Hus1 Hus2))
    as [E1 [E2 [E3 [E4 E5]]]].
  rewrite E1, E2, E3, E4, E5, E.
  replace ((0 <? ymd2ord y mo d) && (ymd2ord y mo d <=? MAXORDINAL)) with true.
  - reflexivity.
  - symmetry. apply andb_true_iff. rewrite Z.ltb_lt, Z.leb_le. exact Hord.
Qed.

Lemma astimezone_utc_zero_offset (local : dt_timezone) (t : datetime) :
  valid_datetime t = true ->
  astimezone_utc local (replace_tzinfo t (Some (fixed_offset 0))) =
  inr (replace_tzinfo t (Some utc)).
Proof.
  intro Hv. unfold astimezone_utc. cbn [tzinfo replace_tzinfo].
  change (- 0) with 0.
  rewrite add_timedelta_zero by (destruct t; exact Hv).
  cbn [bind]. cbn [year month day hour minute second microsecond replace_tzinfo].
  apply (add_timedelta_zero (replace_tzinfo t (Some utc))).
  destruct t; exact Hv.
Qed.

End PyDatetimeFacts.

(** C4.  A naive [time] gives exactly what the same fields give with
    [tzinfo=timezone.utc], in both variants, and (for a value the
    constructor accepts) with any other zone object of offset zero; the
    host's local zone, which [astimezone] would assume for a naive value,
    plays no part. *)
Theorem naive_time_is_read_as_utc
    {Kernel Body Timescale Time : Type}
    (ts_utc : Timescale -> Z -> Z -> Z -> Z -> Z -> Z -> Time)
    (altaz : @observer Body -> Time -> star_data -> Q * Q)
    (local_zone : dt_timezone)
    (self : @SkySimulator Kernel Body Timescale)
    (time : datetime) (timezone : string) :
  tzinfo time = None ->
  let simple := get_star_positions ts_utc altaz in
  let gui := get_star_positions_gui ts_utc altaz in
  simple local_zone self time timezone =
    simple local_zone self (replace_tzinfo time (Some utc)) timezone /\
  gui local_zone self time timezone =
    gui local_zone self (replace_tzinfo time (Some utc)) timezone /\
  (valid_datetime time = true ->
   simple local_zone self time timezone =
     simple local_zone self (replace_tzinfo time (Some (fixed_offset 0))) timezone /\
   gui local_zone self time timezone =
     gui local_zone self (replace_tzinfo time (Some (fixed_offset 0))) timezone) /\
  (forall other_zone : dt_timezone,
     simple other_zone self time timezone = simple local_zone self time timezone /\
     gui other_zone self time timezone = gui local_zone self time timezone).
Proof.
  intros Hnaive simple gui. subst simple gui.
  unfold get_star_positions, get_star_positions_gui.
  rewrite Hnaive. cbn [tzinfo replace_tzinfo].
  split; [reflexivity|]. split; [reflexivity|]. split.
  - intro Hvalid.
    rewrite (PyDatetimeFacts.astimezone_utc_zero_offset local_zone time Hvalid).
    unfold astimezone_utc. cbn [tzinfo replace_tzinfo].
    split; reflexivity.
  - intro other_zone. split; reflexivity.
Qed.

(* ================================================================== *)
(** ** 10. A run on a small sky *)
(* ================================================================== *)

(** A stand-in for Skyfield on which the definitions compute: the time is
    the second of the UTC day, the azimuth of a star is its right ascension
    and its altitude is its declination, lowered by 180 degrees before
    noon. *)
Module SmallSky.

Definition ts_utc (_ : unit) (y mo d h mi s : Z) : Z :=
  (h * 3600 + mi * 60 + s)%Z.

Definition altaz (location : @observer unit) (t : Z) (row : star_data) : Q * Q :=
  (dec_degrees row - (if (t <? 43200)%Z then 180 else 0), ra_degrees row).

Definition sirius : star_data :=
  mk_star 32349 (float_of_decimal (-144 # 100))
    (float_of_decimal (10129 # 100)) (float_of_decimal (-1672 # 100)).
Definition vega : star_data :=
  mk_star 91262 (float_of_decimal (3 # 100))
    (float_of_decimal (27923 # 100)) (float_of_decimal (3878 # 100)).
Definition polaris : star_data :=
  mk_star 11767 (float_of_decimal (197 # 100))
    (float_of_decimal (3795 # 100)) (float_of_decimal (8926 # 100)).
Definition dim_star : star_data :=
  mk_star 65477 (float_of_decimal (42 # 10))
    (float_of_decimal (20131 # 100)) (float_of_decimal (5499 # 100)).
Definition faint : star_data :=
  mk_star 70890 (float_of_decimal (1101 # 100))
    (float_of_decimal (21743 # 100)) (float_of_decimal (-6268 # 100)).

Definition hipparcos : list star_data := [sirius; vega; polaris; dim_star; faint].

(** The calls of [main] in [sky_simulator.py]. *)
Definition simulator : @SkySimulator unit unit unit :=
  set_observer_location
    (load_star_catalog (init (fun _ => tt) tt tt) hipparcos
       (float_of_decimal (45 # 10)))
    (float_of_decimal (407128 # 10000)) (float_of_decimal (-740060 # 10000)) 0.

Definition catalog : list star_data := [sirius; vega; polaris; dim_star].

Definition new_york : @observer unit :=
  mk_observer tt (float_of_decimal (407128 # 10000))
    (float_of_decimal (-740060 # 10000)) 0.

(** [datetime(2024, 6, 15, 22, 0, 0)], naive. *)
Definition evening : datetime := mk_datetime 2024 6 15 22 0 0 0 None.

(** The same instant written two hours east of UTC, half a second later. *)
Definition evening_cest : datetime :=
  mk_datetime 2024 6 16 0 0 0 500000 (Some (fixed_offset 7200000000)).

(** [datetime(2024, 6, 15, 3, 0, 0, tzinfo=timezone.utc)] *)
Definition before_noon : datetime :=
  mk_datetime 2024 6 15 3 0 0 0 (Some utc).

(** The host's local zone, one hour east of UTC. *)
Definition host_zone : dt_timezone := fixed_offset 3600000000.

(** What [utc_time] and [t] are bound to for [evening]. *)
Definition evening_utc : datetime := mk_datetime 2024 6 15 22 0 0 0 (Some utc).
Definition evening_t : Z := skyfield_time ts_utc simulator evening_utc.

Definition run := get_star_positions ts_utc altaz host_zone simulator.
Definition run_gui := get_star_positions_gui ts_utc altaz host_zone simulator.

End SmallSky.

(** The state after the calls of [main]: the faint row is filtered out. *)
Lemma small_sky_state :
  stars_df SmallSky.simulator = Some SmallSky.catalog /\
  observer_location SmallSky.simulator = Some SmallSky.new_york.
Proof. split; vm_compute; reflexivity. Qed.

(** What the simpler variant returns for the evening. *)
Lemma small_sky_evening :
  SmallSky.run SmallSky.evening "UTC" =
  inr (map ra_degrees [SmallSky.vega; SmallSky.polaris; SmallSky.dim_star],
       map dec_degrees [SmallSky.vega; SmallSky.polaris; SmallSky.dim_star],
       [50; 50; 4785074604081151 # 281474976710656]).
Proof. vm_compute. reflexivity. Qed.

(** The float64 nearest to 4.2 and the size computed from it, with the
    binary64 operations of the Standard Library's IEEE 754 model: the same
    values as with [RN]. *)
Lemma star_size_4_2_in_ieee_binary64 :
  let m := S754_finite false 4728779608739021 (-50) in
  SF2Q m == float_of_decimal (42 # 10) /\
  b64_unclipped_size m = S754_finite false 4785074604081151 (-48) /\
  SF2Q (b64_unclipped_size m) == star_size (float_of_decimal (42 # 10)).
Proof. cbv zeta. repeat split; vm_compute; reflexivity. Qed.

(** On every magnitude with two decimals from -2.00 to 15.00, as the
    catalog writes them, the rounded rational operations compute what the
    library's binary64 operations compute. *)
Lemma sizes_agree_with_ieee_binary64 :
  forallb agrees_with_b64 (zrange (-200) 1701) = true.
Proof. vm_compute. reflexivity. Qed.

(** C2, the example as the claim has it: a row of magnitude 4.2 is given
    the size 16.999999999999996 (one unit in the last place below 17), not
    17. *)
Lemma magnitude_4_2_does_not_yield_17 :
  magnitude SmallSky.dim_star = float_of_decimal (42 # 10) /\
  (exists az alt,
     SmallSky.run SmallSky.evening "UTC" =
       inr (az, alt, [50; 50; star_size (magnitude SmallSky.dim_star)])) /\
  star_size (float_of_decimal (42 # 10)) =
    4785074604081151 # 281474976710656 /\
  star_size (float_of_decimal (42 # 10)) < 17.
Proof.
  split; [reflexivity|]. split; [|split; vm_compute; reflexivity].
  do 2 eexists. vm_compute. reflexivity.
Qed.

(** The evening run as an instance of the horizon filter: Sirius, below
    the horizon, is left out. *)
Lemma only_stars_above_horizon_witness :
  (stars_df SmallSky.simulator = Some SmallSky.catalog /\
   observer_location SmallSky.simulator = Some SmallSky.new_york /\
   utc_time_of SmallSky.host_zone SmallSky.evening = inr SmallSky.evening_utc) /\
  exists az alt sizes colors,
    SmallSky.run SmallSky.evening "UTC" = inr (az, alt, sizes) /\
    SmallSky.run_gui SmallSky.evening "UTC" = inr (az, alt, sizes, colors) /\
    alt = map (alt_of SmallSky.altaz SmallSky.new_york SmallSky.evening_t)
              (emitted SmallSky.altaz SmallSky.new_york SmallSky.evening_t
                 SmallSky.catalog) /\
    Forall (fun a => 0 < a) alt /\
    (forall row,
       In row (emitted SmallSky.altaz SmallSky.new_york SmallSky.evening_t
                 SmallSky.catalog) ->
       In row SmallSky.catalog /\
       0 < alt_of SmallSky.altaz SmallSky.new_york SmallSky.evening_t row) /\
    (forall row,
       In row SmallSky.catalog ->
       alt_of SmallSky.altaz SmallSky.new_york SmallSky.evening_t row <= 0 ->
       ~ In row (emitted SmallSky.altaz SmallSky.new_york SmallSky.evening_t
                   SmallSky.catalog)).
Proof.
  split; [repeat split; vm_compute; reflexivity|].
  apply (only_stars_above_horizon_are_emitted
           SmallSky.ts_utc SmallSky.altaz SmallSky.host_zone
           SmallSky.simulator SmallSky.evening "UTC"
           SmallSky.catalog SmallSky.new_york SmallSky.evening_utc);
    vm_compute; reflexivity.
Defined.

(** The naive evening, the same fields in UTC and in a zone of offset
    zero, and another host zone: one result. *)
Lemma naive_time_is_read_as_utc_witness :
  (tzinfo SmallSky.evening = None /\ valid_datetime SmallSky.evening = true) /\
  SmallSky.run SmallSky.evening "UTC" =
    SmallSky.run (replace_tzinfo SmallSky.evening (Some utc)) "UTC" /\
  SmallSky.run_gui SmallSky.evening "UTC" =
    SmallSky.run_gui (replace_tzinfo SmallSky.evening (Some utc)) "UTC" /\
  SmallSky.run SmallSky.evening "UTC" =
    SmallSky.run (replace_tzinfo SmallSky.evening (Some (fixed_offset 0))) "UTC" /\
  SmallSky.run_gui SmallSky.evening "UTC" =
    SmallSky.run_gui
      (replace_tzinfo SmallSky.evening (Some (fixed_offset 0))) "UTC" /\
  get_star_positions SmallSky.ts_utc SmallSky.altaz utc
    SmallSky.simulator SmallSky.evening "UTC" =
    SmallSky.run SmallSky.evening "UTC".
Proof.
  split; [split; reflexivity|].
  destruct (naive_time_is_read_as_utc
              SmallSky.ts_utc SmallSky.altaz SmallSky.host_zone
              SmallSky.simulator SmallSky.evening "UTC" eq_refl)
    as [H1 [H2 [H3 H4]]].
  destruct (H3 eq_refl) as [H31 H32].
  destruct (H4 utc) as [H41 _].
  repeat split; assumption.
Defined.

(** Before noon every row of the small sky is below the horizon: empty
    arrays, no exception. *)
Lemma no_star_above_horizon_witness :
  (forall row, In row SmallSky.catalog ->
     alt_of SmallSky.altaz SmallSky.new_york
       (skyfield_time SmallSky.ts_utc SmallSky.simulator SmallSky.before_noon)
       row <= 0) /\
  SmallSky.run SmallSky.before_noon "UTC" = inr ([], [], []) /\
  SmallSky.run_gui SmallSky.before_noon "UTC" = inr ([], [], [], []).
Proof.
  assert (H : forall row, In row SmallSky.catalog ->
     alt_of SmallSky.altaz SmallSky.new_york
       (skyfield_time SmallSky.ts_utc SmallSky.simulator SmallSky.before_noon)
       row <= 0).
  { intros row [<-|[<-|[<-|[<-|[]]]]]; vm_compute; discriminate. }
  split; [exact H|].
  apply (no_star_above_horizon_gives_empty_arrays
           SmallSky.ts_utc SmallSky.altaz SmallSky.host_zone
           SmallSky.simulator SmallSky.before_noon "UTC"
           SmallSky.catalog SmallSky.new_york SmallSky.before_noon);
    [vm_compute; reflexivity | vm_compute; reflexivity
    | vm_compute; reflexivity | exact H].
Defined.

(** The evening run returns three rows, index by index. *)
Lemma returned_arrays_are_parallel_witness :
  let rows :=
    emitted SmallSky.altaz SmallSky.new_york SmallSky.evening_t SmallSky.catalog in
  rows = [SmallSky.vega; SmallSky.polaris; SmallSky.dim_star] /\
  exists az alt sizes colors,
    SmallSky.run SmallSky.evening "UTC" = inr (az, alt, sizes) /\
    SmallSky.run_gui SmallSky.evening "UTC" = inr (az, alt, sizes, colors) /\
    List.length az = List.length rows /\
    List.length alt = List.length rows /\
    List.length sizes = List.length rows /\
    List.length colors = List.length rows /\
    forall i row,
      nth_error rows i = Some row ->
      nth_error az i = Some (az_of SmallSky.altaz SmallSky.new_york
                               SmallSky.evening_t row) /\
      nth_error alt i = Some (alt_of SmallSky.altaz SmallSky.new_york
                                SmallSky.evening_t row) /\
      nth_error sizes i = Some (star_size (magnitude row)) /\
      nth_error colors i = Some (star_color (magnitude row)).
Proof.
  split; [vm_compute; reflexivity|].
  apply (returned_arrays_are_parallel
           SmallSky.ts_utc SmallSky.altaz SmallSky.host_zone
           SmallSky.simulator SmallSky.evening "UTC"
           SmallSky.catalog SmallSky.new_york SmallSky.evening_utc);
    vm_compute; reflexivity.
Defined.

(** The naive evening and the same second written at +02:00 with half a
    second more: one result. *)
Lemma microseconds_are_ignored_witness :
  (utc_time_of SmallSky.host_zone SmallSky.evening = inr SmallSky.evening_utc /\
   utc_time_of SmallSky.host_zone SmallSky.evening_cest =
     inr (mk_datetime 2024 6 15 22 0 0 500000 (Some utc))) /\
  SmallSky.run SmallSky.evening "UTC" = SmallSky.run SmallSky.evening_cest "UTC" /\
  SmallSky.run_gui SmallSky.evening "UTC" =
    SmallSky.run_gui SmallSky.evening_cest "UTC".
Proof.
  split; [split; vm_compute; reflexivity|].
  apply (microseconds_are_ignored
           SmallSky.ts_utc SmallSky.altaz SmallSky.host_zone
           SmallSky.simulator SmallSky.evening SmallSky.evening_cest "UTC"
           SmallSky.evening_utc
           (mk_datetime 2024 6 15 22 0 0 500000 (Some utc)));
    vm_compute; reflexivity.
Defined.

(** The sizes of the evening run are the float64 formula on the three
    emitted magnitudes. *)
Lemma sizes_are_the_clipped_float_formula_witness :
  let rows :=
    emitted SmallSky.altaz SmallSky.new_york SmallSky.evening_t SmallSky.catalog in
  let sizes :=
    map (fun row => np_clip (fadd (fmul 20 (fsub 5 (magnitude row))) 1) 1 50)
        rows in
  sizes = [50; 50; 4785074604081151 # 281474976710656] /\
  exists az alt colors,
    SmallSky.run SmallSky.evening "UTC" = inr (az, alt, sizes) /\
    SmallSky.run_gui SmallSky.evening "UTC" = inr (az, alt, sizes, colors).
Proof.
  split; [vm_compute; reflexivity|].
  destruct sizes_are_the_clipped_float_formula as [H _].
  apply (H unit unit unit Z SmallSky.ts_utc SmallSky.altaz SmallSky.host_zone
           SmallSky.simulator SmallSky.evening "UTC"%string
           SmallSky.catalog SmallSky.new_york SmallSky.evening_utc);
    vm_compute; reflexivity.
Defined.

(** The colours of the evening run: magnitudes 0.03, 1.97 and 4.2. *)
Lemma colour_is_a_five_bucket_step_function_witness :
  let rows :=
    emitted SmallSky.altaz SmallSky.new_york SmallSky.evening_t SmallSky.catalog in
  map (fun row => star_color (magnitude row)) rows =
    [sky_blue; white; light_red] /\
  exists az alt sizes,
    SmallSky.run_gui SmallSky.evening "UTC" =
      inr (az, alt, sizes, map (fun row => star_color (magnitude row)) rows).
Proof.
  split; [vm_compute; reflexivity|].
  destruct (@colour_is_a_five_bucket_step_function unit unit unit Z
              SmallSky.ts_utc SmallSky.altaz SmallSky.host_zone)
    as [_ [_ [_ H]]].
  apply (H SmallSky.simulator SmallSky.evening "UTC"%string
           SmallSky.catalog SmallSky.new_york SmallSky.evening_utc);
    vm_compute; reflexivity.
Defined.

Import Binary64Facts.

(* ================================================================== *)
(** ** 11. Python numbers, time steps and the events of a plot *)
(* ================================================================== *)

(** The plotting functions and the window compute a number of frames and
    a time for each frame from arguments that are Python [int]s or
    [float]s.  A [float] is a finite float64, an infinity or a NaN; the
    result of an operation overflows to an infinity at [2^1024]
    (subnormals are not modelled: below [2^-1022] a result keeps 53 bits).
    What matplotlib and Tk are asked to do is recorded as a list of
    events. *)

(** Exceptions of the built-in arithmetic, beside the two of the simulator. *)
Inductive pyerror : Type :=
| Raised (e : exception)
| ZeroDivisionError (msg : string)
| IndexError (msg : string)
| AttributeError (msg : string).

(** [str(e)] *)
Definition str_of_error (e : pyerror) : string :=
  match e with
  | Raised (ValueError msg) | Raised (OverflowError msg)
  | ZeroDivisionError msg | IndexError msg | AttributeError msg => msg
  end.

Definition outcome (A : Type) : Type := (pyerror + A)%type.

Definition lift {A : Type} (r : result A) : outcome A :=
  match r with
  | inl e => inl (Raised e)
  | inr a => inr a
  end.

Definition and_then {A B : Type} (c : outcome A) (k : A -> outcome B) : outcome B :=
  match c with
  | inl e => inl e
  | inr a => k a
  end.

Notation "x <~ c ;; k" := (and_then c (fun x => k))
  (at level 61, c at next level, right associativity).

Module PyNumbers.

(** A Python [float]: a finite float64 (the rational it denotes, signed
    zeros identified), an infinity or a NaN. *)
Inductive pyfloat : Type :=
| finite (q : Q)
| infinity (negative : bool)
| nan.

(** A Python number as the simulator receives them: [int] or [float]. *)
Inductive pynum : Type :=
| PyInt (z : Z)
| PyFloat (f : pyfloat).

Definition Qneg (q : Q) : bool := negb (Qle_bool 0 q).

(** A rounded result of magnitude [2^1024] or more does not fit float64. *)
Definition overflows (r : Q) : bool := Qle_bool (pow2 1024) (Qabs r).

(** The float64 result of an operation whose exact result is [q]. *)
Definition round_to_float (q : Q) : pyfloat :=
  let r := RN q in
  if overflows r then infinity (Qneg q) else finite r.

Definition float_mul (x y : pyfloat) : pyfloat :=
  match x, y with
  | nan, _ => nan
  | _, nan => nan
  | finite a, finite b => round_to_float (a * b)
  | infinity s, finite b => if Qeq_bool b 0 then nan else infinity (xorb s (Qneg b))
  | finite a, infinity s => if Qeq_bool a 0 then nan else infinity (xorb (Qneg a) s)
  | infinity s, infinity t => infinity (xorb s t)
  end.

Definition float_add (x y : pyfloat) : pyfloat :=
  match x, y with
  | nan, _ => nan
  | _, nan => nan
  | finite a, finite b => round_to_float (a + b)
  | infinity s, finite _ => infinity s
  | finite _, infinity s => infinity s
  | infinity s, infinity t => if Bool.eqb s t then infinity s else nan
  end.

(** [x / y] on two floats: a zero divisor raises, whatever [x] is. *)
Definition float_div (x y : pyfloat) : outcome pyfloat :=
  match y with
  | finite b =>
      if Qeq_bool b 0 then inl (ZeroDivisionError "float division by zero")
      else match x with
           | finite a => inr (round_to_float (a / b))
           | infinity s => inr (infinity (xorb s (Qneg b)))
           | nan => inr nan
           end
  | infinity _ =>
      match x with
      | finite _ => inr (finite 0)
      | _ => inr nan
      end
  | nan => inr nan
  end.

(** [float(z)] for an [int]. *)
Definition int_to_float (z : Z) : outcome pyfloat :=
  let r := RN (inject_Z z) in
  if overflows r then
    inl (Raised (OverflowError "int too large to convert to float"))
  else inr (finite r).

(** [a / b] on two [int]s: the correctly rounded quotient. *)
Definition int_true_divide (a b : Z) : outcome pyfloat :=
  if (b =? 0)%Z then inl (ZeroDivisionError "division by zero")
  else
    let r := RN (inject_Z a / inject_Z b) in
    if overflows r then
      inl (Raised (OverflowError "integer division result too large for a float"))
    else inr (finite r).

Definition to_float (x : pynum) : outcome pyfloat :=
  match x with
  | PyInt z => int_to_float z
  | PyFloat f => inr f
  end.

(** [x * y] *)
Definition py_mul (x y : pynum) : outcome pynum :=
  match x, y with
  | PyInt a, PyInt b => inr (PyInt (a * b))
  | _, _ =>
      a <~ to_float x ;;
      b <~ to_float y ;;
      inr (PyFloat (float_mul a b))
  end.

(** [x / y] *)
Definition py_truediv (x y : pynum) : outcome pynum :=
  match x, y with
  | PyInt a, PyInt b => f <~ int_true_divide a b ;; inr (PyFloat f)
  | _, _ =>
      a <~ to_float x ;;
      b <~ to_float y ;;
      f <~ float_div a b ;;
      inr (PyFloat f)
  end.

(** The integer part of a finite float, rounding toward zero. *)
Definition trunc (q : Q) : Z := Z.quot (Qnum q) (Zpos (Qden q)).

(** [int(x)] *)
Definition py_int (x : pynum) : outcome Z :=
  match x with
  | PyInt z => inr z
  | PyFloat (finite q) => inr (trunc q)
  | PyFloat (infinity _) =>
      inl (Raised (OverflowError "cannot convert float infinity to integer"))
  | PyFloat nan =>
      inl (Raised (ValueError "cannot convert float NaN to integer"))
  end.

(** C's [round]: nearest integer, a tie going away from zero. *)
Definition round_half_away (q : Q) : Z :=
  if Qle_bool 0 q then Qfloor (q + (1 # 2)) else Qceiling (q - (1 # 2)).

Definition US_PER_MINUTE : Z := 60000000.
Definition MAX_DELTA_DAYS : Z := 999999999.

(** A count of microseconds as a [timedelta]: the days must fit. *)
Definition microseconds_to_delta (us : Z) : outcome Z :=
  let days := (us / PyDatetime.US_PER_DAY)%Z in
  if ((- MAX_DELTA_DAYS <=? days) && (days <=? MAX_DELTA_DAYS))%Z then inr us
  else inl (Raised (OverflowError "days; must have magnitude <= 999999999")).

(** [timedelta(minutes=x)], in microseconds.  For a float the whole
    minutes are converted exactly; the fraction is multiplied by
    60000000 in float64, split again into a whole part and a fraction, and
    the fraction is rounded to a whole microsecond, a tie making the total
    even. *)
Definition timedelta_minutes (x : pynum) : outcome Z :=
  match x with
  | PyInt z => microseconds_to_delta (z * US_PER_MINUTE)
  | PyFloat nan =>
      inl (Raised (ValueError "cannot convert float NaN to integer"))
  | PyFloat (infinity _) =>
      inl (Raised (OverflowError "cannot convert float infinity to integer"))
  | PyFloat (finite q) =>
      let intpart := trunc q in
      let fracpart := q - inject_Z intpart in
      let sum := (intpart * US_PER_MINUTE)%Z in
      if Qeq_bool fracpart 0 then microseconds_to_delta sum
      else
        let dnum := RN (inject_Z US_PER_MINUTE * fracpart) in
        let intpart2 := trunc dnum in
        let leftover := dnum - inject_Z intpart2 in
        let y := (sum + intpart2)%Z in
        if Qeq_bool leftover 0 then microseconds_to_delta y
        else
          let whole := round_half_away leftover in
          let whole :=
            if Qeq_bool (Qabs (inject_Z whole - leftover)) (1 # 2) then
              let odd := if Z.odd y then 1%Z else 0%Z in
              (2 * round_half_away ((leftover + inject_Z odd) * (1 # 2)) - odd)%Z
            else whole in
          microseconds_to_delta (y + whole)
  end.

End PyNumbers.
Import PyNumbers.

(** [int(duration_hours * 60 / interval_minutes)] *)
Definition num_frames_of (duration_hours interval_minutes : pynum) : outcome Z :=
  x <~ py_mul duration_hours (PyInt 60) ;;
  q <~ py_truediv x interval_minutes ;;
  py_int q.

(** [start_time + timedelta(minutes=i * interval_minutes)] *)
Definition frame_time (start_time : datetime) (interval_minutes : pynum) (i : Z)
    : outcome datetime :=
  m <~ py_mul (PyInt i) interval_minutes ;;
  us <~ timedelta_minutes m ;;
  lift (add_timedelta start_time us).


(** [0.1 + 0.9 * (i / num_frames)] *)
Definition trail_alpha (i num_frames : Z) : outcome pyfloat :=
  x <~ int_true_divide i num_frames ;;
  inr (float_add (finite (float_of_decimal (1 # 10)))
                 (float_mul (finite (float_of_decimal (9 # 10))) x)).

(** [[f(x) for x in xs]]: the first exception ends the comprehension. *)
Fixpoint comprehension {A B : Type} (f : A -> outcome B) (xs : list A)
    : outcome (list B) :=
  match xs with
  | [] => inr []
  | x :: rest =>
      y <~ f x ;;
      ys <~ comprehension f rest ;;
      inr (y :: ys)
  end.

(** [range(n)] *)
Definition range (n : Z) : list Z := zrange 0 (Z.to_nat n).

(** What a plotting function does that can be observed, in order. *)
Inductive event : Type :=
| Print (msg : string)
| Subplots (width height : Z)
| Scatter (theta r s : list Q) (c : string) (alpha : pyfloat)
| LegendScatter (s : Z) (c : string) (alpha : pyfloat) (label : string)
| Call (stmt : string)
| SetTitle (title : string) (fontsize : Z)
| Savefig (path : string)
| Show
| ShowError (title message : string)
| StopEventSource
| Clear
| ScatterColors (theta r s : list Q) (c : list string) (alpha : pyfloat)
| Text (x y : Z) (s : string)
| Draw
| DrawIdle.

(** The events of a call, and the exception that ended it if one did. *)
Definition plot_run : Type := (list event * option pyerror)%type.

Definition newline : string := String (ascii_of_nat 10) EmptyString.

(** [str(z)] *)
Definition str (z : Z) : string := NilZero.string_of_int (Z.to_int z).

(** [np.clip] on a Python [int]. *)
Definition clip_int (a a_min a_max : Z) : Z := Z.min (Z.max a a_min) a_max.


(* ================================================================== *)
(** ** 12. Whole numbers in float64 and the count of frames *)
(* ================================================================== *)

Module RoundingFacts.

(** Rounding moves a value by at most [2^-53] of its magnitude. *)
Lemma RN_relative_error (q : Q) :
  Qabs (RN q - q) <= Qabs q * pow2 (-53).
Proof.
  destruct (Qeq_dec q 0) as [Hq|Hq].
  - rewrite (RN_zero q Hq), Hq. vm_compute. discriminate.
  - destruct (ilog2_spec q Hq) as [Hlo _].
    set (k := ilog2 q) in *.
    set (e := (k - 52)%Z).
    pose proof (pow2_pos e) as He.
    destruct (rint_near (q / pow2 e)) as [H1 H2].
    assert (Eq : q / pow2 e * pow2 e == q) by (field; lra).
    assert (Ee : pow2 e == 2 * pow2 (k - 53)).
    { rewrite <- pow2_succ. unfold e.
      replace (k - 53 + 1)%Z with (k - 52)%Z by lia. reflexivity. }
    assert (Ek : pow2 (k - 53) == pow2 k * pow2 (-53)).
    { rewrite <- pow2_add. replace (k + -53)%Z with (k - 53)%Z by lia. reflexivity. }
    pose proof (pow2_pos (-53)) as H53. pose proof (pow2_pos (k - 53)) as Hk53.
    apply (mul_pow2_le _ _ e) in H1, H2.
    rewrite Eq in H1, H2.
    rewrite (RN_nonzero q Hq). fold k. fold e.
    set (z := inject_Z (rint (q / pow2 e))) in *.
    apply Qle_trans with (pow2 (k - 53)).
    + apply Qabs_Qle_condition. split; nra.
    + rewrite Ek. apply Qmult_le_compat_r; [exact Hlo | lra].
Qed.

(** An integer of at most 53 bits is a float64. *)
Lemma RN_integer (z : Z) :
  (Z.abs z <= 2 ^ 53)%Z -> RN (inject_Z z) == inject_Z z.
Proof.
  intro Hz.
  destruct (Z.eq_dec z 0) as [->|Hnz]; [reflexivity|].
  assert (Hq : ~ inject_Z z == 0).
  { intro E. apply Hnz. apply (inject_Z_injective z 0). exact E. }
  destruct (ilog2_spec _ Hq) as [Hlo Hhi].
  set (k := ilog2 (inject_Z z)) in *.
  assert (Habs : Qabs (inject_Z z) == inject_Z (Z.abs z)).
  { unfold Qabs, inject_Z. simpl. reflexivity. }
  assert (Hk : (k <= 53)%Z).
  { destruct (Z_le_gt_dec k 53) as [H|H]; [exact H|exfalso].
    pose proof (pow2_le 54 k ltac:(lia)) as H1.
    rewrite Habs in Hlo.
    assert (H2 : inject_Z (Z.abs z) <= inject_Z (2 ^ 53)) by (rewrite <- Zle_Qle; exact Hz).
    rewrite pow2_inject_Z in H2 by lia.
    pose proof (pow2_succ 53) as H3. change (53 + 1)%Z with 54%Z in H3.
    pose proof (pow2_pos 53). lra. }
  rewrite (RN_nonzero _ Hq). fold k.
  destruct (Z_le_gt_dec (k - 52) 0) as [He|He].
  - (* the grid is finer than the integers *)
    assert (Ei : / pow2 (k - 52) == inject_Z (2 ^ (52 - k))).
    { rewrite pow2_inject_Z by lia. unfold pow2.
      rewrite <- Qpower_opp. replace (- (k - 52))%Z with (52 - k)%Z by lia.
      reflexivity. }
    assert (E : inject_Z z / pow2 (k - 52) == inject_Z (z * 2 ^ (52 - k))).
    { unfold Qdiv. rewrite Ei, inject_Z_mult. reflexivity. }
    rewrite (rint_proper _ _ E), rint_inject_Z.
    rewrite inject_Z_mult, <- Ei.
    pose proof (pow2_pos (k - 52)). field. lra.
  - (* k = 53: z is plus or minus 2^53 *)
    assert (k = 53%Z) by lia.
    assert (Hz53 : Z.abs z = (2 ^ 53)%Z).
    { apply Z.le_antisymm; [exact Hz|].
      rewrite Habs in Hlo. replace k with 53%Z in Hlo.
      rewrite <- pow2_inject_Z in Hlo by lia. rewrite <- Zle_Qle in Hlo. exact Hlo. }
    replace k with 53%Z.
    assert (Ez : z = (2 ^ 53)%Z \/ z = (- 2 ^ 53)%Z) by lia.
    destruct Ez as [-> | ->]; vm_compute; reflexivity.
Qed.

End RoundingFacts.

Import RoundingFacts.

(** [x] is the [int] [z] or the float of the same value. *)
Definition wholeb (x : pynum) (z : Z) : bool :=
  match x with
  | PyInt z' => (z' =? z)%Z
  | PyFloat (finite q) => Qeq_bool q (inject_Z z)
  | PyFloat _ => false
  end.

Module PyNumbersFacts.

Lemma overflows_small (r : Q) : Qabs r <= pow2 53 -> overflows r = false.
Proof.
  intro H. unfold overflows.
  destruct (Qle_bool (pow2 1024) (Qabs r)) eqn:E; [exfalso|reflexivity].
  apply Qle_bool_iff in E.
  pose proof (pow2_le 54 1024 ltac:(lia)) as H1.
  pose proof (pow2_succ 53) as H2. change (53 + 1)%Z with 54%Z in H2.
  pose proof (pow2_pos 53). lra.
Qed.

Lemma Qabs_inject_Z (z : Z) : Qabs (inject_Z z) == inject_Z (Z.abs z).
Proof. reflexivity. Qed.

Lemma inject_Z_le_pow2_53 (z : Z) :
  (Z.abs z <= 2 ^ 53)%Z -> Qabs (inject_Z z) <= pow2 53.
Proof.
  intro H. rewrite Qabs_inject_Z, <- pow2_inject_Z by lia.
  rewrite <- Zle_Qle. exact H.
Qed.

Lemma wholeb_finite (q : Q) (z : Z) :
  q == inject_Z z -> wholeb (PyFloat (finite q)) z = true.
Proof. intro H. apply Qeq_bool_iff, H. Qed.

Lemma to_float_whole (x : pynum) (z : Z) :
  wholeb x z = true -> (Z.abs z <= 2 ^ 53)%Z ->
  exists q, to_float x = inr (finite q) /\ q == inject_Z z.
Proof.
  intros Hx Hz. destruct x as [z'|[q| |]]; simpl in Hx; try discriminate.
  - apply Z.eqb_eq in Hx. subst z'. simpl. unfold int_to_float.
    pose proof (RN_integer z Hz) as E.
    rewrite overflows_small by (rewrite E; apply inject_Z_le_pow2_53, Hz).
    eexists. split; [reflexivity | exact E].
  - apply Qeq_bool_iff in Hx. exists q. split; [reflexivity | exact Hx].
Qed.

Lemma round_to_float_integer (q : Q) (z : Z) :
  q == inject_Z z -> (Z.abs z <= 2 ^ 53)%Z ->
  exists r, round_to_float q = finite r /\ r == inject_Z z.
Proof.
  intros Hq Hz. unfold round_to_float.
  rewrite (RN_proper q (inject_Z z) Hq).
  pose proof (RN_integer z Hz) as E.
  rewrite overflows_small by (rewrite E; apply inject_Z_le_pow2_53, Hz).
  eexists. split; [reflexivity | exact E].
Qed.

(** The product of two whole numbers is whole, as long as it has at most
    53 bits. *)
Lemma py_mul_whole (x y : pynum) (a b : Z) :
  wholeb x a = true -> wholeb y b = true ->
  (Z.abs a <= 2 ^ 53)%Z -> (Z.abs b <= 2 ^ 53)%Z -> (Z.abs (a * b) <= 2 ^ 53)%Z ->
  exists m, py_mul x y = inr m /\ wholeb m (a * b) = true.
Proof.
  intros Hx Hy Ha Hb Hab.
  destruct (to_float_whole x a Hx Ha) as [qa [Ea Qa]].
  destruct (to_float_whole y b Hy Hb) as [qb [Eb Qb]].
  assert (Hq : qa * qb == inject_Z (a * b)) by (rewrite Qa, Qb, inject_Z_mult; reflexivity).
  destruct (round_to_float_integer _ _ Hq Hab) as [r [Er Qr]].
  assert (F : (a' <~ to_float x ;; b' <~ to_float y ;; inr (PyFloat (float_mul a' b')))
              = inr (PyFloat (finite r))).
  { rewrite Ea, Eb. simpl. rewrite Er. reflexivity. }
  destruct x as [za|fa], y as [zb|fb].
  - simpl in Hx, Hy. apply Z.eqb_eq in Hx, Hy. subst.
    eexists. split; [reflexivity|]. simpl. apply Z.eqb_refl.
  - exists (PyFloat (finite r)). split; [exact F | apply wholeb_finite, Qr].
  - exists (PyFloat (finite r)). split; [exact F | apply wholeb_finite, Qr].
  - exists (PyFloat (finite r)). split; [exact F | apply wholeb_finite, Qr].
Qed.

Lemma trunc_whole (q : Q) (z : Z) : q == inject_Z z -> trunc q = z.
Proof.
  intro H. unfold trunc. unfold Qeq in H. simpl in H.
  rewrite Z.mul_1_r in H. rewrite H. apply Z.quot_mul. lia.
Qed.

Lemma trunc_between (r : Q) (k : Z) :
  (0 <= k)%Z -> inject_Z k <= r -> r < inject_Z (k + 1) -> trunc r = k.
Proof.
  intros Hk Hlo Hhi. unfold trunc.
  unfold Qle in Hlo. unfold Qlt in Hhi. simpl in Hlo, Hhi.
  rewrite Z.mul_1_r in Hhi.
  assert (Hn : (0 <= Qnum r)%Z) by nia.
  rewrite Z.quot_div_nonneg by lia.
  symmetry. apply (Z.div_unique_pos _ _ k (Qnum r - k * Zpos (Qden r))); lia.
Qed.

(** The float64 quotient of two whole numbers has the integer part of the
    exact quotient, when the numerator has at most 53 bits. *)
Lemma trunc_rounded_quotient (a b : Z) :
  (0 <= a < 2 ^ 53)%Z -> (0 < b)%Z ->
  exists r, RN (inject_Z a / inject_Z b) = r /\
            inject_Z (a / b) <= r /\ r < inject_Z (a / b + 1).
Proof.
  intros Ha Hb. eexists. split; [reflexivity|].
  set (k := (a / b)%Z).
  set (x := inject_Z a / inject_Z b).
  assert (HB : 0 < inject_Z b) by (change 0 with (inject_Z 0); rewrite <- Zlt_Qlt; lia).
  assert (Ex : x * inject_Z b == inject_Z a) by (unfold x; field; lra).
  pose proof (Z.div_mod a b ltac:(lia)) as Hdm.
  pose proof (Z.mod_pos_bound a b Hb) as Hmod. fold k in Hdm.
  assert (Hk0 : (0 <= k)%Z) by (apply Z.div_pos; lia).
  assert (Hka : (k <= a)%Z) by nia.
  assert (Hx1 : inject_Z k * inject_Z b <= inject_Z a).
  { rewrite <- inject_Z_mult, <- Zle_Qle. lia. }
  assert (Hx2 : inject_Z a + 1 <= inject_Z (k + 1) * inject_Z b).
  { change 1 with (inject_Z 1) at 1.
    rewrite <- inject_Z_mult, <- inject_Z_plus, <- Zle_Qle. lia. }
  assert (Hkx : inject_Z k <= x).
  { apply (Qmult_le_r _ _ (inject_Z b) HB). rewrite Ex. exact Hx1. }
  split.
  - rewrite <- (RN_integer k) by lia. apply RN_monotone, Hkx.
  - assert (Hx0 : 0 <= x).
    { apply Qle_trans with (2 := Hkx). change 0 with (inject_Z 0).
      rewrite <- Zle_Qle. exact Hk0. }
    pose proof (RN_relative_error x) as Hrel.
    rewrite (Qabs_pos x Hx0) in Hrel. apply Qabs_Qle_condition in Hrel.
    assert (Hc : inject_Z a * pow2 (-53) < 1).
    { assert (H53 : inject_Z a < pow2 53).
      { rewrite <- pow2_inject_Z by lia. rewrite <- Zlt_Qlt. lia. }
      assert (E : pow2 53 * pow2 (-53) == 1) by reflexivity.
      pose proof (pow2_pos (-53)). nra. }
    apply (Qmult_lt_r _ _ (inject_Z b) HB).
    apply Qle_lt_trans with ((x + x * pow2 (-53)) * inject_Z b).
    + apply Qmult_le_compat_r; lra.
    + setoid_replace ((x + x * pow2 (-53)) * inject_Z b)
        with (x * inject_Z b + x * inject_Z b * pow2 (-53)) by ring.
      rewrite Ex. lra.
Qed.

(** [int(duration_hours * 60 / interval_minutes)] for whole numbers of
    hours and minutes: the floor of the exact quotient. *)
Lemma num_frames_whole (duration_hours interval_minutes : pynum) (d iv : Z) :
  wholeb duration_hours d = true -> wholeb interval_minutes iv = true ->
  (0 <= 60 * d < 2 ^ 53)%Z -> (0 < iv <= 2 ^ 53)%Z ->
  num_frames_of duration_hours interval_minutes = inr (60 * d / iv)%Z.
Proof.
  intros Hd Hiv Hd60 Hiv0.
  unfold num_frames_of.
  destruct (py_mul_whole duration_hours (PyInt 60) d 60 Hd eq_refl
              ltac:(lia) ltac:(lia) ltac:(lia)) as [m [Em Hm]].
  rewrite Em. cbn [and_then].
  replace (d * 60)%Z with (60 * d)%Z in Hm by lia.
  set (a := (60 * d)%Z) in *.
  destruct (trunc_rounded_quotient a iv Hd60 ltac:(lia)) as [r [Er [Hlo Hhi]]].
  assert (Hk0 : (0 <= a / iv)%Z) by (apply Z.div_pos; lia).
  assert (Hka : (a / iv <= a)%Z).
  { pose proof (Z.div_mod a iv ltac:(lia)). pose proof (Z.mod_pos_bound a iv ltac:(lia)). nia. }
  assert (Hov : overflows r = false).
  { apply overflows_small.
    assert (0 <= r).
    { apply Qle_trans with (2 := Hlo). change 0 with (inject_Z 0).
      rewrite <- Zle_Qle. exact Hk0. }
    rewrite Qabs_pos by assumption.
    apply Qle_trans with (inject_Z (a / iv + 1)); [lra|].
    rewrite <- pow2_inject_Z by lia. rewrite <- Zle_Qle. lia. }
  assert (Ht : trunc r = (a / iv)%Z) by (apply trunc_between; assumption).
  assert (F : forall qa qb, qa == inject_Z a -> qb == inject_Z iv ->
                float_div (finite qa) (finite qb) = inr (finite r)).
  { intros qa qb Qa Qb. unfold float_div.
    assert (Hnz : Qeq_bool qb 0 = false).
    { destruct (Qeq_bool qb 0) eqn:E; [exfalso|reflexivity].
      apply Qeq_bool_iff in E. rewrite Qb in E.
      apply (inject_Z_injective iv 0) in E. lia. }
    rewrite Hnz. unfold round_to_float.
    rewrite (RN_proper (qa / qb) (inject_Z a / inject_Z iv)) by (rewrite Qa, Qb; reflexivity).
    rewrite Er, Hov. reflexivity. }
  destruct (to_float_whole m a Hm ltac:(lia)) as [qa [Ea Qa]].
  destruct (to_float_whole interval_minutes iv Hiv ltac:(lia)) as [qb [Eb Qb]].
  assert (G : (x <~ to_float m ;; y <~ to_float interval_minutes ;;
               f <~ float_div x y ;; inr (PyFloat f)) = inr (PyFloat (finite r))).
  { rewrite Ea, Eb. cbn [and_then]. rewrite (F qa qb Qa Qb). reflexivity. }
  destruct m as [za|fa], interval_minutes as [zb|fb];
    unfold py_truediv; try (rewrite G; cbn [and_then py_int]; rewrite Ht; reflexivity).
  simpl in Hm, Hiv. apply Z.eqb_eq in Hm, Hiv. subst za zb.
  unfold int_true_divide.
  replace (iv =? 0)%Z with false by (symmetry; apply Z.eqb_neq; lia).
  rewrite Er, Hov. cbn [and_then py_int]. rewrite Ht. reflexivity.
Qed.

(** [timedelta(minutes=m)] for a whole number of minutes. *)
Lemma timedelta_minutes_whole (m : pynum) (w : Z) :
  wholeb m w = true ->
  timedelta_minutes m = microseconds_to_delta (w * US_PER_MINUTE).
Proof.
  intro Hm. destruct m as [z|[q| |]]; simpl in Hm; try discriminate.
  - apply Z.eqb_eq in Hm. subst z. reflexivity.
  - apply Qeq_bool_iff in Hm. unfold timedelta_minutes.
    rewrite (trunc_whole q w Hm).
    assert (E : Qeq_bool (q - inject_Z w) 0 = true).
    { apply Qeq_bool_iff. rewrite Hm. ring. }
    rewrite E. reflexivity.
Qed.

(** Frame [i] of a schedule with a whole interval is [start_time] plus
    exactly [i * interval] minutes. *)
Lemma frame_time_whole (start_time : datetime) (interval_minutes : pynum)
    (iv i : Z) :
  wholeb interval_minutes iv = true ->
  (Z.abs i <= 2 ^ 53)%Z -> (Z.abs iv <= 2 ^ 53)%Z -> (Z.abs (i * iv) <= 2 ^ 53)%Z ->
  frame_time start_time interval_minutes i =
  (us <~ microseconds_to_delta (i * iv * US_PER_MINUTE) ;;
   lift (add_timedelta start_time us)).
Proof.
  intros Hiv Hi Hv Hp. unfold frame_time.
  destruct (py_mul_whole (PyInt i) interval_minutes i iv (Z.eqb_refl i) Hiv Hi Hv Hp)
    as [m [Em Hm]].
  rewrite Em. cbn [and_then].
  rewrite (timedelta_minutes_whole m (i * iv) Hm). reflexivity.
Qed.

(** A zero interval: the division raises [ZeroDivisionError], unless the
    duration is an [int] too large to be converted to a float. *)
Lemma num_frames_zero_interval (duration_hours interval_minutes : pynum) :
  wholeb interval_minutes 0 = true ->
  (forall z, duration_hours = PyInt z ->
             overflows (RN (inject_Z (z * 60))) = false) ->
  exists msg, num_frames_of duration_hours interval_minutes =
              inl (ZeroDivisionError msg).
Proof.
  intros Hiv Hd. unfold num_frames_of.
  assert (Z0 : forall q, Qeq_bool q (inject_Z 0) = true -> Qeq_bool q 0 = true)
    by (intros q H; exact H).
  destruct duration_hours as [z|f].
  - cbn [py_mul and_then]. specialize (Hd z eq_refl).
    destruct interval_minutes as [zi|[q| |]]; cbn [wholeb] in Hiv;
      [ | | discriminate Hiv | discriminate Hiv].
    + apply Z.eqb_eq in Hiv. subst zi. eexists. reflexivity.
    + unfold py_truediv. cbn [to_float]. unfold int_to_float. rewrite Hd.
      cbn [and_then]. unfold float_div. rewrite (Z0 q Hiv).
      eexists. reflexivity.
  - unfold py_mul. cbn [to_float].
    assert (E60 : int_to_float 60 = inr (finite 60)) by (vm_compute; reflexivity).
    rewrite E60. cbn [and_then].
    destruct interval_minutes as [zi|[q| |]]; cbn [wholeb] in Hiv;
      [ | | discriminate Hiv | discriminate Hiv].
    + apply Z.eqb_eq in Hiv. subst zi. unfold py_truediv. cbn [to_float].
      assert (E0 : int_to_float 0 = inr (finite 0)) by (vm_compute; reflexivity).
      rewrite E0. cbn [and_then]. unfold float_div.
      change (Qeq_bool 0 0) with true. eexists. reflexivity.
    + unfold py_truediv. cbn [to_float and_then]. unfold float_div.
      rewrite (Z0 q Hiv). eexists. reflexivity.
Qed.

Lemma RN_nonneg (q : Q) : 0 <= q -> 0 <= RN q.
Proof.
  intro H. apply Qle_trans with (RN 0); [apply Qle_refl | apply RN_monotone, H].
Qed.

Lemma RN_below (q c : Q) : RN c = c -> q <= c -> RN q <= c.
Proof. intros E H. rewrite <- E. apply RN_monotone, H. Qed.

Lemma RN_above (q c : Q) : RN c = c -> c <= q -> c <= RN q.
Proof. intros E H. rewrite <- E at 1. apply RN_monotone, H. Qed.

(** The fade-in of frame [i] of [num_frames] is a float between 0.1 and 1. *)
Lemma trail_alpha_bounds (i num_frames : Z) :
  (0 <= i < num_frames)%Z ->
  exists a, trail_alpha i num_frames = inr (finite a) /\
            float_of_decimal (1 # 10) <= a /\ a <= 1.
Proof.
  intro Hi. unfold trail_alpha, int_true_divide.
  replace (num_frames =? 0)%Z with false by (symmetry; apply Z.eqb_neq; lia).
  set (x := inject_Z i / inject_Z num_frames).
  assert (HN : 0 < inject_Z num_frames)
    by (change 0 with (inject_Z 0); rewrite <- Zlt_Qlt; lia).
  assert (Hx : 0 <= x /\ x <= 1).
  { assert (E : x * inject_Z num_frames == inject_Z i) by (unfold x; field; lra).
    assert (H0 : 0 <= inject_Z i) by (change 0 with (inject_Z 0); rewrite <- Zle_Qle; lia).
    assert (H1 : inject_Z i <= inject_Z num_frames) by (rewrite <- Zle_Qle; lia).
    split; apply (Qmult_le_r _ _ (inject_Z num_frames) HN); rewrite E; lra. }
  destruct Hx as [Hx0 Hx1].
  assert (P53 : 1 <= pow2 53) by (apply (pow2_le 0 53); lia).
  (* the quotient *)
  pose proof (RN_nonneg x Hx0) as Hr0.
  pose proof (RN_below x 1 eq_refl Hx1) as Hr1.
  set (r := RN x) in *.
  rewrite overflows_small by (rewrite Qabs_pos by assumption; lra).
  cbn [and_then]. unfold float_mul, round_to_float.
  set (c9 := float_of_decimal (9 # 10)). set (c1 := float_of_decimal (1 # 10)).
  assert (C9 : 0 <= c9 /\ c9 <= 1) by (split; vm_compute; discriminate).
  assert (C1 : 0 <= c1 /\ c1 <= 1) by (split; vm_compute; discriminate).
  assert (E9 : RN c9 = c9) by (vm_compute; reflexivity).
  assert (E1 : RN c1 = c1) by (vm_compute; reflexivity).
  assert (E19 : RN (c1 + c9) = 1) by (vm_compute; reflexivity).
  (* the product *)
  assert (Hp0 : 0 <= RN (c9 * r)) by (apply RN_nonneg; nra).
  assert (Hp1 : RN (c9 * r) <= c9) by (apply (RN_below _ _ E9); nra).
  set (p := RN (c9 * r)) in *.
  rewrite overflows_small by (rewrite Qabs_pos by assumption; lra).
  unfold float_add, round_to_float.
  (* the sum *)
  assert (Hs0 : c1 <= RN (c1 + p)) by (apply (RN_above _ _ E1); lra).
  assert (Hs1 : RN (c1 + p) <= 1).
  { apply Qle_trans with (RN (c1 + c9)); [apply RN_monotone; lra|].
    rewrite E19. apply Qle_refl. }
  rewrite overflows_small by (rewrite Qabs_pos by lra; lra).
  eexists. split; [reflexivity|]. split; assumption.
Qed.

End PyNumbersFacts.

Import PyNumbersFacts.


(* ================================================================== *)
(** ** 13. [plot_sky] and [create_star_trails] *)
(* ================================================================== *)

Definition is_scatter (ev : event) : bool :=
  match ev with Scatter _ _ _ _ _ => true | _ => false end.

Definition is_print (ev : event) : bool :=
  match ev with Print _ => true | _ => false end.

(** The two events that put the figure in front of the user. *)
Definition is_output (ev : event) : bool :=
  match ev with Savefig _ | Show => true | _ => false end.

(** A scatter whose [alpha] matplotlib accepts and which fades in from 0.1. *)
Definition alpha_in_range (ev : event) : bool :=
  match ev with
  | Scatter _ _ _ _ (finite a) =>
      Qle_bool (float_of_decimal (1 # 10)) a && Qle_bool a 1
  | Scatter _ _ _ _ _ => false
  | _ => true
  end.


Section Plots.

Context {Kernel Body Timescale Time : Type}.
Variable ts_utc : Timescale -> Z -> Z -> Z -> Z -> Z -> Z -> Time.
Variable altaz : @observer Body -> Time -> star_data -> Q * Q.
Variable local_zone : dt_timezone.

(** [np.radians] on one element. *)
Variable np_radians : Q -> Q.

(** [time.strftime(format)] *)
Variable strftime : datetime -> string -> string.

(** [f'{x:.1f}'] *)
Variable format_1f : pynum -> string.

(** The truth value of [save_path]: [None] and the empty string are false. *)
Definition truthy (save_path : option string) : option string :=
  match save_path with
  | Some EmptyString => None
  | other => other
  end.

Definition location_line (self : @SkySimulator Kernel Body Timescale) : string :=
  match observer_coords self with
  | Some (lat, lon) =>
      "Location: " ++ format_1f (PyFloat (finite lat)) ++ "°N, "
        ++ format_1f (PyFloat (finite lon)) ++ "°W"
  | None => "Location: Unknown"
  end.

Definition save_or_show (save_path : option string) : list event :=
  match truthy save_path with
  | Some path => [Savefig path]
  | None => [Show]
  end.

(** [plot_sky] *)
Definition plot_sky (self : @SkySimulator Kernel Body Timescale) (time : datetime)
    (save_path : option string) (timezone : string) : plot_run :=
  match get_star_positions ts_utc altaz local_zone self time timezone with
  | inl e => ([], Some (Raised e))
  | inr (az, alt, sizes) =>
      match az with
      | [] => ([Print "No stars visible at this time/location"], None)
      | _ :: _ =>
          let az_rad := map np_radians az in
          ([Subplots 12 12;
            Scatter az_rad (map (fsub 90) alt) sizes "white"
                    (finite (float_of_decimal (8 # 10)));
            Call "ax.set_theta_zero_location('N')";
            Call "ax.set_theta_direction(-1)";
            Call "ax.set_ylim(0, 90)";
            Call "ax.set_yticks([0, 30, 60, 90])";
            Call "ax.set_yticklabels(['90°', '60°', '30°', '0°'])";
            Call "ax.grid(True, alpha=0.3)";
            Call "ax.set_facecolor('black')";
            Call "fig.patch.set_facecolor('black')";
            Call "ax.set_xticks(np.radians([0, 90, 180, 270]))";
            Call "ax.set_xticklabels(['N', 'E', 'S', 'W'], color='white')";
            Call "ax.tick_params(colors='white')";
            SetTitle ("Sky View - " ++ strftime time "%Y-%m-%d %H:%M" ++ newline
                        ++ location_line self) 14]
           ++ map (fun mag =>
                     LegendScatter (clip_int (20 * (5 - mag) + 1) 1 50) "white"
                       (finite (float_of_decimal (8 # 10)))
                       ("Mag " ++ str mag))
                  [1; 3; 5]%Z
           ++ [Call "ax.legend(loc='upper right', framealpha=0.8, labelcolor='white')";
               Call "plt.tight_layout()"]
           ++ save_or_show save_path,
           None)
      end
  end.

(** The loop of [create_star_trails] over [enumerate(times)]. *)
Fixpoint trail_loop (self : @SkySimulator Kernel Body Timescale) (timezone : string) (num_frames : Z)
    (frames : list (Z * datetime)) : plot_run :=
  match frames with
  | [] => ([], None)
  | (i, time) :: rest =>
      match get_star_positions ts_utc altaz local_zone self time timezone with
      | inl e => ([], Some (Raised e))
      | inr (az, alt, sizes) =>
          match az with
          | _ :: _ =>
              let az_rad := map np_radians az in
              match trail_alpha i num_frames with
              | inl e => ([], Some e)
              | inr alpha =>
                  let '(events, raised) :=
                    trail_loop self timezone num_frames rest in
                  (Scatter az_rad (map (fsub 90) alt) sizes "white" alpha
                     :: events, raised)
              end
          | [] =>
              let '(events, raised) :=
                trail_loop self timezone num_frames rest in
              (if (i =? 0)%Z then
                 Print "Warning: No stars visible at start time" :: events
               else events, raised)
          end
      end
  end.

(** [create_star_trails] *)
Definition create_star_trails (self : @SkySimulator Kernel Body Timescale) (start_time : datetime)
    (duration_hours interval_minutes : pynum) (save_path : option string)
    (timezone : string) : plot_run :=
  match num_frames_of duration_hours interval_minutes with
  | inl e => ([], Some e)
  | inr num_frames =>
      match comprehension (frame_time start_time interval_minutes)
                          (range num_frames) with
      | inl e => ([], Some e)
      | inr times =>
          let setup :=
            [Subplots 12 12;
             Call "ax.set_theta_zero_location('N')";
             Call "ax.set_theta_direction(-1)";
             Call "ax.set_ylim(0, 90)";
             Call "ax.set_facecolor('black')";
             Call "fig.patch.set_facecolor('black')"] in
          match trail_loop self timezone num_frames
                  (combine (range num_frames) times) with
          | (events, Some e) => (setup ++ events, Some e)
          | (events, None) =>
              (setup ++ events
                 ++ [Call "ax.grid(True, alpha=0.3)";
                     Call "ax.set_xticks(np.radians([0, 90, 180, 270]))";
                     Call "ax.set_xticklabels(['N', 'E', 'S', 'W'], color='white')";
                     Call "ax.tick_params(colors='white')";
                     SetTitle ("Star Trails - " ++ format_1f duration_hours
                                 ++ " hours" ++ newline
                                 ++ "Start: " ++ strftime start_time "%Y-%m-%d %H:%M" ++ newline
                                 ++ location_line self) 14;
                     Call "plt.tight_layout()"]
                 ++ save_or_show save_path,
               None)
          end
      end
  end.


(** Whether [get_star_positions] returns at least one star for [time]. *)
Definition frame_has_stars (self : @SkySimulator Kernel Body Timescale)
    (timezone : string) (time : datetime) : bool :=
  match get_star_positions ts_utc altaz local_zone self time timezone with
  | inr (_ :: _, _, _) => true
  | _ => false
  end.

Lemma save_or_show_output (save_path : option string) :
  exists ev, save_or_show save_path = [ev] /\ is_output ev = true.
Proof.
  unfold save_or_show. destruct (truthy save_path); eexists; split; reflexivity.
Qed.

(** With no star above the horizon, [plot_sky] prints its message and
    returns: no figure is opened, and nothing is saved even when a
    [save_path] is given. *)
Theorem plot_sky_without_visible_star
    (self : @SkySimulator Kernel Body Timescale) (time : datetime)
    (save_path : option string) (timezone : string)
    (df : list star_data) (location : observer) (utc_time : datetime) :
  stars_df self = Some df ->
  observer_location self = Some location ->
  utc_time_of local_zone time = inr utc_time ->
  (forall row, In row df ->
     alt_of altaz location (skyfield_time ts_utc self utc_time) row <= 0) ->
  plot_sky
    self time save_path timezone =
  ([Print "No stars visible at this time/location"], None).
Proof.
  intros Hdf Hloc Hutc Hbelow. unfold plot_sky.
  rewrite (get_star_positions_returns ts_utc altaz local_zone
             self time timezone df location utc_time Hdf Hloc Hutc).
  rewrite (emitted_nil altaz location _ df Hbelow). reflexivity.
Qed.

Lemma fsub_90_bounds (alt : Q) :
  0 < alt -> alt <= 90 -> 0 <= fsub 90 alt /\ fsub 90 alt <= 90.
Proof.
  intros H0 H90. unfold fsub. split.
  - apply RN_nonneg. lra.
  - apply (RN_below _ 90); [vm_compute; reflexivity | lra].
Qed.

Lemma split_decoration {A} (a b : A) (l1 l2 l3 s : list A) :
  (a :: b :: l1) ++ l2 ++ l3 ++ s = a :: b :: (l1 ++ l2 ++ l3) ++ s.
Proof. cbn [app]. rewrite !app_assoc. reflexivity. Qed.

(** [plot_sky] with a star above the horizon opens one figure and draws
    the emitted stars in one scatter: the angle is the azimuth in radians,
    the radius [90 - altitude] lies between 0 and 90 when no altitude
    exceeds 90, the sizes are those of [get_star_positions].  What follows
    is decoration (no further star, nothing printed), and the last step
    saves the figure to [save_path] when that is a non-empty string and
    shows it otherwise. *)
Theorem plot_sky_draws_the_emitted_stars
    (self : @SkySimulator Kernel Body Timescale) (time : datetime)
    (save_path : option string) (timezone : string)
    (df : list star_data) (location : observer) (utc_time : datetime) :
  stars_df self = Some df ->
  observer_location self = Some location ->
  utc_time_of local_zone time = inr utc_time ->
  let t := skyfield_time ts_utc self utc_time in
  let rows := emitted altaz location t df in
  let radii := map (fun row => fsub 90 (alt_of altaz location t row)) rows in
  rows <> [] ->
  (forall row, In row df -> alt_of altaz location t row <= 90) ->
  Forall (fun radius => 0 <= radius /\ radius <= 90) radii /\
  exists decoration,
    plot_sky self time save_path timezone =
    (Subplots 12 12
       :: Scatter (map (fun row => np_radians (az_of altaz location t row)) rows)
                  radii
                  (map (fun row => star_size (magnitude row)) rows)
                  "white" (finite (float_of_decimal (8 # 10)))
       :: decoration
       ++ match save_path with
          | Some (String c path) => [Savefig (String c path)]
          | _ => [Show]
          end,
     None) /\
    forallb (fun ev => negb (is_scatter ev || is_output ev || is_print ev))
            decoration = true.
Proof.
  intros Hdf Hloc Hutc t rows radii Hrows Halt. split.
  - apply Forall_forall. intros radius Hin.
    apply in_map_iff in Hin. destruct Hin as [row [<- Hrow]].
    unfold rows in Hrow. apply emitted_In in Hrow. destruct Hrow as [Hin Hpos].
    apply fsub_90_bounds; [exact Hpos | apply Halt, Hin].
  - unfold plot_sky.
    rewrite (get_star_positions_returns ts_utc altaz local_zone
               self time timezone df location utc_time Hdf Hloc Hutc).
    fold t. fold rows.
    destruct (map (az_of altaz location t) rows) as [|a0 az'] eqn:Eaz.
    { destruct rows; [contradiction | discriminate]. }
    rewrite <- Eaz. cbv zeta. rewrite !map_map.
    assert (Es : save_or_show save_path =
                 match save_path with
                 | Some (String c path) => [Savefig (String c path)]
                 | _ => [Show]
                 end)
      by (destruct save_path as [[|c path]|]; reflexivity).
    rewrite <- Es. eexists. split.
    + rewrite split_decoration. reflexivity.
    + reflexivity.
Qed.

(** On a simulator without catalog or without observer, [plot_sky] raises
    the usage [ValueError] of [get_star_positions] before it opens a
    figure. *)
Theorem plot_sky_propagates_the_usage_error
    (self : @SkySimulator Kernel Body Timescale) (time : datetime)
    (save_path : option string) (timezone : string) :
  stars_df self = None \/ observer_location self = None ->
  plot_sky
    self time save_path timezone =
  ([], Some (Raised (ValueError usage_message))).
Proof.
  intro H. unfold plot_sky, get_star_positions.
  destruct H as [H|H]; rewrite H; [|destruct (stars_df self)]; reflexivity.
Qed.

(** *** create_star_trails *)

Lemma zrange_bounds (lo : Z) (n : nat) (x : Z) :
  In x (zrange lo n) -> (lo <= x < lo + Z.of_nat n)%Z.
Proof.
  revert lo. induction n as [|n IH]; intros lo H; simpl in H; [contradiction|].
  destruct H as [<- | H]; [lia | apply IH in H; lia].
Qed.

Lemma zrange_length (lo : Z) (n : nat) : List.length (zrange lo n) = n.
Proof.
  revert lo. induction n as [|n IH]; intro lo; simpl; [|rewrite IH]; reflexivity.
Qed.

Lemma range_bounds (n i : Z) : In i (range n) -> (0 <= i < n)%Z.
Proof. unfold range. intro H. apply zrange_bounds in H. lia. Qed.

Lemma range_nonpositive (n : Z) : (n <= 0)%Z -> range n = [].
Proof.
  intro H. unfold range. replace (Z.to_nat n) with O by lia. reflexivity.
Qed.

Lemma range_positive (n : Z) :
  (0 < n)%Z -> range n = 0%Z :: zrange 1 (Z.to_nat (n - 1)).
Proof.
  intro H. unfold range.
  replace (Z.to_nat n) with (S (Z.to_nat (n - 1))) by lia. reflexivity.
Qed.

Lemma comprehension_length {A B} (f : A -> outcome B) (xs : list A) (ys : list B) :
  comprehension f xs = inr ys -> List.length ys = List.length xs.
Proof.
  revert ys. induction xs as [|x xs IH]; intros ys H; simpl in H.
  - inversion H. reflexivity.
  - destruct (f x) as [e|y]; [discriminate|]. cbn [and_then] in H.
    destruct (comprehension f xs) as [e|ys']; [discriminate|].
    cbn [and_then] in H. inversion H. simpl. rewrite (IH ys' eq_refl).
    reflexivity.
Qed.

Lemma comprehension_nth {A B} (f : A -> outcome B) (xs : list A) (ys : list B) :
  comprehension f xs = inr ys ->
  forall k x, nth_error xs k = Some x ->
              exists y, nth_error ys k = Some y /\ f x = inr y.
Proof.
  revert ys. induction xs as [|x0 xs IH]; intros ys H k x Hk.
  - destruct k; discriminate.
  - simpl in H. destruct (f x0) as [e|y0] eqn:E0; [discriminate|].
    cbn [and_then] in H.
    destruct (comprehension f xs) as [e|ys'] eqn:E; [discriminate|].
    cbn [and_then] in H. inversion H. subst ys.
    destruct k as [|k]; simpl in Hk |- *.
    + inversion Hk. subst x. exists y0. split; [reflexivity | exact E0].
    + apply (IH ys' eq_refl k x Hk).
Qed.

(** What every run of the loop keeps, whether it ends normally or not. *)
Lemma trail_loop_events (self : @SkySimulator Kernel Body Timescale)
    (timezone : string) (num_frames : Z) (frames : list (Z * datetime)) :
  (forall i t, In (i, t) frames -> (0 <= i < num_frames)%Z) ->
  forallb alpha_in_range
    (fst (trail_loop
            self timezone num_frames frames)) = true /\
  existsb is_output
    (fst (trail_loop
            self timezone num_frames frames)) = false.
Proof.
  induction frames as [|[i time] rest IH]; intro Hi; [split; reflexivity|].
  assert (Hrest : forall j t, In (j, t) rest -> (0 <= j < num_frames)%Z)
    by (intros j t H; apply (Hi j t); right; exact H).
  specialize (IH Hrest). destruct IH as [IHa IHo].
  cbn [trail_loop].
  destruct (get_star_positions ts_utc altaz local_zone self time timezone)
    as [e|[[az alt] sizes]]; [split; reflexivity|].
  destruct (trail_loop
              self timezone num_frames rest) as [events raised].
  cbn [fst] in IHa, IHo.
  destruct az as [|a az].
  - destruct (i =? 0)%Z; cbn [fst forallb existsb alpha_in_range is_output];
      split; assumption.
  - destruct (trail_alpha_bounds i num_frames (Hi i time (or_introl eq_refl)))
      as [a0 [Ea [Hlo Hhi]]].
    rewrite Ea. cbn [fst forallb existsb alpha_in_range is_output orb].
    rewrite IHa, IHo.
    apply Qle_bool_iff in Hlo. apply Qle_bool_iff in Hhi.
    rewrite Hlo, Hhi. split; reflexivity.
Qed.

Lemma combine_range_bounds (n : Z) (times : list datetime) (i : Z) (t : datetime) :
  In (i, t) (combine (range n) times) -> (0 <= i < n)%Z.
Proof. intro H. apply in_combine_l in H. apply range_bounds, H. Qed.

Lemma forallb_app_true {A} (f : A -> bool) (l1 l2 : list A) :
  forallb f l1 = true -> forallb f l2 = true -> forallb f (l1 ++ l2) = true.
Proof. intros H1 H2. rewrite forallb_app, H1, H2. reflexivity. Qed.

Lemma save_or_show_alpha (save_path : option string) :
  forallb alpha_in_range (save_or_show save_path) = true.
Proof. unfold save_or_show. destruct (truthy save_path); reflexivity. Qed.

(** Whatever its arguments, every scatter of [create_star_trails] has a
    finite [alpha] between 0.1 (as float64) and 1, which matplotlib
    accepts. *)
Theorem star_trail_opacity_stays_in_range
    (self : @SkySimulator Kernel Body Timescale) (start_time : datetime)
    (duration_hours interval_minutes : pynum) (save_path : option string)
    (timezone : string) :
  forallb alpha_in_range
    (fst (create_star_trails self start_time duration_hours interval_minutes
            save_path timezone)) = true.
Proof.
  unfold create_star_trails.
  destruct (num_frames_of duration_hours interval_minutes) as [e|n];
    [reflexivity|].
  destruct (comprehension (frame_time start_time interval_minutes) (range n))
    as [e|times]; [reflexivity|].
  destruct (trail_loop_events self timezone n (combine (range n) times)
              (combine_range_bounds n times)) as [Ha _].
  destruct (trail_loop self timezone n
              (combine (range n) times)) as [events [e|]];
    cbn [fst] in Ha |- *; cbv zeta.
  - cbn [fst app forallb alpha_in_range andb]. exact Ha.
  - cbn [fst app forallb alpha_in_range andb]. apply forallb_app_true; [exact Ha|].
    cbn [app forallb alpha_in_range andb]. apply save_or_show_alpha.
Qed.

(** [create_star_trails] saves or shows the figure once, as its last step,
    when it ends normally; a call that ends with an exception neither saves
    nor shows anything. *)
Theorem star_trails_are_output_once_or_not_at_all
    (self : @SkySimulator Kernel Body Timescale) (start_time : datetime)
    (duration_hours interval_minutes : pynum) (save_path : option string)
    (timezone : string) :
  match create_star_trails self start_time duration_hours interval_minutes
          save_path timezone with
  | (events, Some _) => existsb is_output events = false
  | (events, None) =>
      exists figure,
        events = figure ++ save_or_show save_path /\
        existsb is_output figure = false
  end.
Proof.
  unfold create_star_trails.
  destruct (num_frames_of duration_hours interval_minutes) as [e|n];
    [reflexivity|].
  destruct (comprehension (frame_time start_time interval_minutes) (range n))
    as [e|times]; [reflexivity|].
  destruct (trail_loop_events self timezone n (combine (range n) times)
              (combine_range_bounds n times)) as [_ Ho].
  destruct (trail_loop self timezone n
              (combine (range n) times)) as [events [e|]];
    cbn [fst] in Ho |- *; cbv zeta.
  - cbn [app existsb is_output orb]. exact Ho.
  - rewrite !app_assoc. eexists. split; [reflexivity|].
    rewrite !existsb_app. cbn [existsb is_output orb].
    rewrite Ho. reflexivity.
Qed.

Lemma overflows_int_times_60 (z : Z) :
  (Z.abs z <= 2 ^ 1000)%Z -> overflows (RN (inject_Z (z * 60))) = false.
Proof.
  intro H. unfold overflows.
  destruct (Qle_bool (pow2 1024) (Qabs (RN (inject_Z (z * 60))))) eqn:E;
    [exfalso|reflexivity].
  apply Qle_bool_iff in E.
  assert (B : Qabs (RN (inject_Z (z * 60))) <= pow2 1006).
  { assert (Hq : - pow2 1006 <= inject_Z (z * 60) /\ inject_Z (z * 60) <= pow2 1006).
    { assert (P : pow2 1006 == inject_Z (2 ^ 1006)) by (vm_compute; reflexivity).
      rewrite P. rewrite <- inject_Z_opp. rewrite <- !Zle_Qle.
      change (2 ^ 1006)%Z with (2 ^ 1000 * 64)%Z. lia. }
    apply Qabs_Qle_condition. split.
    - assert (R : RN (- pow2 1006) = - pow2 1006) by (vm_compute; reflexivity).
      rewrite <- R. apply RN_monotone, Hq.
    - apply (RN_below _ (pow2 1006)); [vm_compute; reflexivity | apply Hq]. }
  assert (L : pow2 1006 < pow2 1024) by (vm_compute; reflexivity).
  lra.
Qed.

(** An interval of zero minutes ([0] or [0.0]) makes [create_star_trails]
    raise [ZeroDivisionError] before anything is drawn (an [int] duration
    must be convertible to float, as in [duration * 60 / 0.0]). *)
Theorem star_trails_reject_a_zero_interval
    (self : @SkySimulator Kernel Body Timescale) (start_time : datetime)
    (duration_hours interval_minutes : pynum) (save_path : option string)
    (timezone : string) :
  wholeb interval_minutes 0 = true ->
  (forall z, duration_hours = PyInt z -> (Z.abs z <= 2 ^ 1000)%Z) ->
  exists msg,
    create_star_trails self start_time duration_hours interval_minutes
      save_path timezone =
    ([], Some (ZeroDivisionError msg)).
Proof.
  intros Hiv Hd.
  destruct (num_frames_zero_interval duration_hours interval_minutes Hiv)
    as [msg E].
  { intros z Hz. apply overflows_int_times_60, (Hd z Hz). }
  exists msg. unfold create_star_trails. rewrite E. reflexivity.
Qed.

(** When the number of frames is zero or negative (a duration shorter
    than the interval, or a negative one), [create_star_trails] never asks
    for star positions: it draws no star, prints nothing, raises nothing
    even on a simulator that is not ready, and saves or shows an empty
    figure. *)
Theorem star_trails_without_frames_skip_the_simulator
    (self : @SkySimulator Kernel Body Timescale) (start_time : datetime)
    (duration_hours interval_minutes : pynum) (save_path : option string)
    (timezone : string) (num_frames : Z) :
  num_frames_of duration_hours interval_minutes = inr num_frames ->
  (num_frames <= 0)%Z ->
  exists figure,
    create_star_trails self start_time duration_hours interval_minutes
      save_path timezone =
    (figure ++ save_or_show save_path, None) /\
    forallb (fun ev => negb (is_scatter ev || is_print ev || is_output ev))
            figure = true.
Proof.
  intros En Hn. unfold create_star_trails. rewrite En.
  rewrite (range_nonpositive num_frames Hn).
  cbn [comprehension combine trail_loop]. cbv zeta.
  rewrite !app_assoc.
  eexists. split; reflexivity.
Qed.


Lemma frame_has_stars_spec (self : @SkySimulator Kernel Body Timescale)
    (timezone : string) (time : datetime) az alt sizes :
  get_star_positions ts_utc altaz local_zone self time timezone
    = inr (az, alt, sizes) ->
  frame_has_stars self timezone time =
  match az with [] => false | _ :: _ => true end.
Proof. intro E. unfold frame_has_stars. rewrite E. reflexivity. Qed.

(** A loop whose every frame gets its positions ends normally. *)
Lemma trail_loop_returns (self : @SkySimulator Kernel Body Timescale)
    (timezone : string) (num_frames : Z) (frames : list (Z * datetime)) :
  (forall i t, In (i, t) frames ->
     (0 <= i < num_frames)%Z /\
     exists out, get_star_positions ts_utc altaz local_zone self t timezone
                 = inr out) ->
  exists events,
    trail_loop self timezone num_frames
      frames = (events, None) /\
    List.length (filter is_scatter events) =
    List.length (filter (frame_has_stars self timezone) (map snd frames)) /\
    existsb is_print events =
    existsb (fun frame => (fst frame =? 0)%Z
                          && negb (frame_has_stars self timezone (snd frame)))
            frames.
Proof.
  induction frames as [|[i time] rest IH]; intro H.
  - exists []. repeat split.
  - destruct IH as [events [IHe [IHs IHp]]].
    { intros j t Hj. apply H. right. exact Hj. }
    destruct (H i time (or_introl eq_refl)) as [Hi [[[az alt] sizes] E]].
    cbn [trail_loop map snd fst filter existsb].
    rewrite (frame_has_stars_spec self timezone time az alt sizes E).
    rewrite E, IHe. destruct az as [|a az].
    + destruct (i =? 0)%Z; eexists; (split; [reflexivity|]);
        cbn [filter is_scatter existsb is_print negb andb orb];
        (split; [exact IHs|]); [reflexivity | exact IHp].
    + destruct (trail_alpha_bounds i num_frames Hi) as [a0 [Ea _]].
      rewrite Ea. eexists. split; [reflexivity|].
      cbn [filter is_scatter existsb is_print negb andb orb List.length].
      rewrite IHs, Bool.andb_false_r. split; [reflexivity | exact IHp].
Qed.

Lemma map_snd_combine {A B} (xs : list A) (ys : list B) :
  List.length ys = List.length xs -> map snd (combine xs ys) = ys.
Proof.
  revert ys. induction xs as [|x xs IH]; intros [|y ys] H; try discriminate;
    [reflexivity|].
  simpl. rewrite IH; [reflexivity | simpl in H; lia].
Qed.

Lemma no_first_frame_later (f : datetime -> bool) (lo : Z) (k : nat)
    (times : list datetime) :
  (0 < lo)%Z ->
  existsb (fun frame : Z * datetime => (fst frame =? 0)%Z && f (snd frame))
          (combine (zrange lo k) times) = false.
Proof.
  revert lo times. induction k as [|k IH]; intros lo times Hlo; [reflexivity|].
  destruct times as [|t times]; [reflexivity|].
  cbn [zrange combine existsb fst snd].
  replace (lo =? 0)%Z with false by (symmetry; apply Z.eqb_neq; lia).
  apply IH. lia.
Qed.

(** On a ready simulator whose frame times all convert to UTC,
    [create_star_trails] ends normally, draws one scatter for each frame
    that has a star above the horizon and none for the others, and prints
    its warning exactly when there is a first frame and it has no star. *)
Theorem star_trails_draw_one_layer_per_starry_frame
    (self : @SkySimulator Kernel Body Timescale) (start_time : datetime)
    (duration_hours interval_minutes : pynum) (save_path : option string)
    (timezone : string) (num_frames : Z) (times : list datetime)
    (df : list star_data) (location : observer) :
  stars_df self = Some df ->
  observer_location self = Some location ->
  num_frames_of duration_hours interval_minutes = inr num_frames ->
  comprehension (frame_time start_time interval_minutes) (range num_frames)
    = inr times ->
  (forall t, In t times -> exists u, utc_time_of local_zone t = inr u) ->
  exists events,
    create_star_trails self start_time duration_hours interval_minutes
      save_path timezone = (events, None) /\
    List.length (filter is_scatter events) =
    List.length (filter (frame_has_stars self timezone) times) /\
    existsb is_print events =
    match times with
    | [] => false
    | first :: _ => negb (frame_has_stars self timezone first)
    end.
Proof.
  intros Hdf Hloc En Et Hutc. unfold create_star_trails. rewrite En, Et.
  pose proof (comprehension_length _ _ _ Et) as Hlen.
  destruct (trail_loop_returns self timezone num_frames
              (combine (range num_frames) times)) as [events [E [Hs Hp]]].
  { intros i t Hin. split; [apply (combine_range_bounds _ _ _ _ Hin)|].
    apply in_combine_r in Hin. destruct (Hutc t Hin) as [u Hu].
    eexists. apply (get_star_positions_returns ts_utc altaz local_zone
                      self t timezone df location u Hdf Hloc Hu). }
  rewrite E. cbv zeta. eexists. split; [reflexivity|].
  rewrite (map_snd_combine _ _ Hlen) in Hs.
  split.
  - rewrite !filter_app, !length_app.
    assert (S0 : List.length (filter is_scatter (save_or_show save_path)) = O)
      by (unfold save_or_show; destruct (truthy save_path); reflexivity).
    rewrite S0, Hs. simpl. lia.
  - rewrite !existsb_app.
    assert (S0 : existsb is_print (save_or_show save_path) = false)
      by (unfold save_or_show; destruct (truthy save_path); reflexivity).
    rewrite S0. cbn [existsb is_print orb]. rewrite !Bool.orb_false_r.
    rewrite Hp.
    destruct (Z_le_gt_dec num_frames 0) as [Hn|Hn].
    + rewrite (range_nonpositive _ Hn) in Hlen |- *.
      destruct times; [reflexivity | discriminate Hlen].
    + rewrite (range_positive num_frames ltac:(lia)) in Hlen |- *.
      destruct times as [|t0 times]; [discriminate Hlen|].
      cbn [combine existsb fst snd]. rewrite Z.eqb_refl. cbn [andb].
      rewrite (no_first_frame_later
                 (fun t => negb (frame_has_stars self timezone t))
                 1 _ times ltac:(lia)).
      apply Bool.orb_false_r.
Qed.

(** *** States built through the methods *)

Variable kernel_earth : Kernel -> Body.

(** The simulators a program gets from the constructor and the two
    setters. *)
Inductive reachable : @SkySimulator Kernel Body Timescale -> Prop :=
| reachable_init planets timescale :
    reachable (init kernel_earth planets timescale)
| reachable_load self hipparcos max_magnitude :
    reachable self ->
    reachable (load_star_catalog self hipparcos max_magnitude)
| reachable_set self latitude longitude elevation :
    reachable self ->
    reachable (set_observer_location self latitude longitude elevation).

Definition coords_match (self : @SkySimulator Kernel Body Timescale) : Prop :=
  match observer_location self, observer_coords self with
  | Some location, Some (lat, lon) =>
      center location = earth self /\
      latitude_degrees location = lat /\ longitude_degrees location = lon
  | None, None => True
  | _, _ => False
  end.

Lemma reachable_coords_match (self : @SkySimulator Kernel Body Timescale) :
  reachable self ->
  earth self = kernel_earth (load_planets self) /\ coords_match self.
Proof.
  induction 1 as [planets timescale | self h m _ [IHe IHc]
                 | self lat lon el _ [IHe IHc]].
  - split; reflexivity.
  - split; [exact IHe | exact IHc].
  - split; [exact IHe|]. unfold coords_match. cbn. repeat split.
Qed.

(** In every simulator built by the constructor, [load_star_catalog] and
    [set_observer_location], [earth] is the kernel's Earth, and
    [observer_coords] is set exactly when [observer_location] is, to the
    latitude and longitude of that observer, which stands on [earth]. *)
Theorem coordinates_describe_the_observer
    (self : @SkySimulator Kernel Body Timescale) :
  reachable self ->
  earth self = kernel_earth (load_planets self) /\ coords_match self.
Proof. apply reachable_coords_match. Qed.

(** When [plot_sky] draws the stars of such a simulator, the title it sets
    gives the latitude and longitude of the observer the positions were
    computed for, never [Location: Unknown]. *)
Theorem plot_sky_title_names_the_observer
    (self : @SkySimulator Kernel Body Timescale) (time : datetime)
    (save_path : option string) (timezone : string)
    (df : list star_data) (location : observer) (utc_time : datetime) :
  reachable self ->
  stars_df self = Some df ->
  observer_location self = Some location ->
  utc_time_of local_zone time = inr utc_time ->
  emitted altaz location (skyfield_time ts_utc self utc_time) df <> [] ->
  In (SetTitle
        ("Sky View - " ++ strftime time "%Y-%m-%d %H:%M" ++ newline
           ++ "Location: "
           ++ format_1f (PyFloat (finite (latitude_degrees location)))
           ++ "°N, "
           ++ format_1f (PyFloat (finite (longitude_degrees location)))
           ++ "°W") 14)
     (fst (plot_sky
             self time save_path timezone)).
Proof.
  intros Hreach Hdf Hloc Hutc Hrows.
  destruct (reachable_coords_match self Hreach) as [_ Hc].
  unfold coords_match in Hc. rewrite Hloc in Hc.
  destruct (observer_coords self) as [[lat lon]|] eqn:Ec; [|contradiction].
  destruct Hc as [_ [Hlat Hlon]].
  unfold plot_sky.
  rewrite (get_star_positions_returns ts_utc altaz local_zone
             self time timezone df location utc_time Hdf Hloc Hutc).
  destruct (map _ (emitted altaz location (skyfield_time ts_utc self utc_time) df))
    as [|a0 az'] eqn:Eaz.
  { destruct (emitted altaz location _ df); [contradiction | discriminate]. }
  cbv zeta. cbn [fst]. unfold location_line. rewrite Ec, Hlat, Hlon.
  cbn [app In]. do 13 right. left. reflexivity.
Qed.


End Plots.


(* ================================================================== *)
(** ** 14. The catalog limit and the schedule of frames *)
(* ================================================================== *)

(** *** The catalog limit *)

Section Limits.

Context {Kernel Body Timescale Time : Type}.
Variable ts_utc : Timescale -> Z -> Z -> Z -> Z -> Z -> Z -> Time.
Variable altaz : @observer Body -> Time -> star_data -> Q * Q.
Variable local_zone : dt_timezone.

Lemma filter_filter_le (hipparcos : list star_data) (m1 m2 : Q) :
  m1 <= m2 ->
  filter (fun row => Qle_bool (magnitude row) m1)
    (filter (fun row => Qle_bool (magnitude row) m2) hipparcos) =
  filter (fun row => Qle_bool (magnitude row) m1) hipparcos.
Proof.
  intro H. induction hipparcos as [|row rest IH]; [reflexivity|].
  cbn [filter].
  destruct (Qle_bool (magnitude row) m1) eqn:E1.
  - assert (E2 : Qle_bool (magnitude row) m2 = true).
    { apply Qle_bool_iff. apply Qle_bool_iff in E1. lra. }
    rewrite E2. cbn [filter]. rewrite E1, IH. reflexivity.
  - destruct (Qle_bool (magnitude row) m2); [cbn [filter]; rewrite E1|];
      exact IH.
Qed.

Lemma filter_swap {A} (f g : A -> bool) (l : list A) :
  filter f (filter g l) = filter g (filter f l).
Proof.
  induction l as [|x l IH]; [reflexivity|]. cbn [filter].
  destruct (f x) eqn:Ef, (g x) eqn:Eg; cbn [filter];
    rewrite ?Ef, ?Eg, IH; reflexivity.
Qed.

Lemma filter_length_le {A} (f : A -> bool) (l : list A) :
  (List.length (filter f l) <= List.length l)%nat.
Proof.
  induction l as [|x l IH]; [apply le_n|]. cbn [filter].
  destruct (f x); simpl; lia.
Qed.

(** Loading the same catalog with a lower magnitude limit makes
    [get_star_positions] return the stars it returns with the higher limit
    less those fainter than the lower limit, in the same order: never
    more stars, never a new one. *)
Theorem lower_limit_keeps_the_brighter_stars
    (self : @SkySimulator Kernel Body Timescale) (hipparcos : list star_data)
    (m1 m2 : Q) (time : datetime) (timezone : string)
    (location : observer) (utc_time : datetime) :
  m1 <= m2 ->
  observer_location self = Some location ->
  utc_time_of local_zone time = inr utc_time ->
  let t := skyfield_time ts_utc self utc_time in
  let shown m := emitted altaz location t
                   (filter (fun row => Qle_bool (magnitude row) m) hipparcos) in
  let positions rows :=
    inr (map (az_of altaz location t) rows, map (alt_of altaz location t) rows,
         map (fun row => star_size (magnitude row)) rows)
    : result (list Q * list Q * list Q) in
  get_star_positions ts_utc altaz local_zone
    (load_star_catalog self hipparcos m1) time timezone = positions (shown m1) /\
  get_star_positions ts_utc altaz local_zone
    (load_star_catalog self hipparcos m2) time timezone = positions (shown m2) /\
  shown m1 = filter (fun row => Qle_bool (magnitude row) m1) (shown m2) /\
  (List.length (shown m1) <= List.length (shown m2))%nat.
Proof.
  intros Hm Hloc Hutc t shown positions.
  assert (G : forall m,
    get_star_positions ts_utc altaz local_zone
      (load_star_catalog self hipparcos m) time timezone = positions (shown m)).
  { intro m.
    apply (get_star_positions_returns ts_utc altaz local_zone
             (load_star_catalog self hipparcos m) time timezone
             _ location utc_time eq_refl Hloc Hutc). }
  assert (E : shown m1 = filter (fun row => Qle_bool (magnitude row) m1) (shown m2)).
  { unfold shown, emitted.
    rewrite (filter_swap (fun row => Qle_bool (magnitude row) m1)).
    rewrite (filter_filter_le hipparcos m1 m2 Hm). reflexivity. }
  repeat split; [apply G | apply G | exact E |].
  rewrite E. apply filter_length_le.
Qed.

End Limits.

(** *** The schedule of frames *)

(** For a whole number [d] of hours and a whole number [iv] of minutes,
    given as [int] or as [float] ([60 * d] below [2^40], [iv] positive
    and at most [2^53]): the number of frames is the integer quotient
    [60 * d / iv], so that many intervals fit in the duration and one more
    does not; frame [i] is the start time plus exactly [i * iv] minutes,
    strictly before the end of the duration. *)
Theorem whole_number_schedule (start_time : datetime)
    (duration_hours interval_minutes : pynum) (d iv : Z) :
  wholeb duration_hours d = true -> wholeb interval_minutes iv = true ->
  (0 <= 60 * d < 2 ^ 40)%Z -> (0 < iv <= 2 ^ 53)%Z ->
  let num_frames := (60 * d / iv)%Z in
  num_frames_of duration_hours interval_minutes = inr num_frames /\
  (num_frames * iv <= 60 * d < (num_frames + 1) * iv)%Z /\
  forall i, (0 <= i < num_frames)%Z ->
    (i * iv < 60 * d)%Z /\
    frame_time start_time interval_minutes i =
    lift (add_timedelta start_time (i * iv * US_PER_MINUTE)).
Proof.
  intros Hd Hiv Hd60 Hiv0 num_frames.
  assert (Hn : (num_frames * iv <= 60 * d < num_frames * iv + iv)%Z).
  { unfold num_frames.
    pose proof (Z.div_mod (60 * d) iv ltac:(lia)) as E.
    pose proof (Z.mod_pos_bound (60 * d) iv ltac:(lia)) as B. nia. }
  split; [|split].
  - apply num_frames_whole; [assumption | assumption | lia | assumption].
  - lia.
  - intros i Hi.
    assert (Hlt : (i * iv < 60 * d)%Z) by nia.
    split; [exact Hlt|].
    assert (Hi0 : (0 <= i * iv)%Z) by nia.
    assert (Hib : (i <= i * iv)%Z) by nia.
    rewrite (frame_time_whole start_time interval_minutes iv i Hiv)
      by (rewrite Z.abs_eq; lia).
    unfold microseconds_to_delta.
    assert (Hdays : (0 <= i * iv * US_PER_MINUTE / PyDatetime.US_PER_DAY
                     <= MAX_DELTA_DAYS)%Z).
    { unfold US_PER_MINUTE, PyDatetime.US_PER_DAY, PyDatetime.US_PER_SECOND,
        MAX_DELTA_DAYS.
      split.
      - apply Z.div_pos; lia.
      - apply Z.div_le_upper_bound; [reflexivity|].
        change (2 ^ 40)%Z with 1099511627776%Z in Hd60. lia. }
    destruct Hdays as [D0 D1].
    replace (- MAX_DELTA_DAYS <=? _)%Z with true
      by (symmetry; apply Z.leb_le; unfold MAX_DELTA_DAYS in *; lia).
    replace (_ <=? MAX_DELTA_DAYS)%Z with true
      by (symmetry; apply Z.leb_le; exact D1).
    reflexivity.
Qed.


(* ================================================================== *)
(** ** 15. The animation controls of the window *)
(* ================================================================== *)

(** [xs[i]] on a list: a negative index counts from the end. *)
Definition getitem {A : Type} (xs : list A) (i : Z) : outcome A :=
  let n := Z.of_nat (List.length xs) in
  let j := if (i <? 0)%Z then (i + n)%Z else i in
  match (if (0 <=? j)%Z then nth_error xs (Z.to_nat j) else None) with
  | Some x => inr x
  | None => inl (IndexError "list index out of range")
  end.

(** [len(xs)] *)
Definition len {A : Type} (xs : list A) : Z := Z.of_nat (List.length xs).

Section Gui.

Context {Kernel Body Timescale Time : Type}.
Variable ts_utc : Timescale -> Z -> Z -> Z -> Z -> Z -> Z -> Time.
Variable altaz : @observer Body -> Time -> star_data -> Q * Q.
Variable local_zone : dt_timezone.
Variable np_radians : Q -> Q.
Variable strftime : datetime -> string -> string.
Variable format_1f : pynum -> string.

(** [datetime.strptime(text, format)] *)
Variable strptime : string -> string -> result datetime.

(** [float(text)] *)
Variable float_of_str : string -> result pyfloat.

(** The attributes of [SkySimulatorGUI] that the animation controls read or
    write.  A Tk variable is the text it holds, the button the text it
    shows; [animation] is the [FuncAnimation] with its [frames] argument;
    [animation_times] is [None] until [start_animation] has assigned it. *)
Record SkySimulatorGUI : Type := mk_gui {
  simulator : @SkySimulator Kernel Body Timescale;
  latitude : pyfloat;
  longitude : pyfloat;
  date_var : string;
  time_var : string;
  duration_var : string;
  interval_var : string;
  animation_running : bool;
  animation : option Z;
  animation_times : option (list datetime);
  animate_button : string;
  status_var : string
}.

Definition with_running (self : SkySimulatorGUI) (running : bool) :=
  mk_gui (simulator self) (latitude self) (longitude self) (date_var self)
    (time_var self) (duration_var self) (interval_var self)
    running (animation self) (animation_times self)
    (animate_button self) (status_var self).

Definition with_animation (self : SkySimulatorGUI) (anim : option Z) :=
  mk_gui (simulator self) (latitude self) (longitude self) (date_var self)
    (time_var self) (duration_var self) (interval_var self)
    (animation_running self) anim (animation_times self)
    (animate_button self) (status_var self).

Definition with_times (self : SkySimulatorGUI) (times : list datetime) :=
  mk_gui (simulator self) (latitude self) (longitude self) (date_var self)
    (time_var self) (duration_var self) (interval_var self)
    (animation_running self) (animation self) (Some times)
    (animate_button self) (status_var self).

Definition with_button (self : SkySimulatorGUI) (text : string) :=
  mk_gui (simulator self) (latitude self) (longitude self) (date_var self)
    (time_var self) (duration_var self) (interval_var self)
    (animation_running self) (animation self) (animation_times self)
    text (status_var self).

Definition with_status (self : SkySimulatorGUI) (text : string) :=
  mk_gui (simulator self) (latitude self) (longitude self) (date_var self)
    (time_var self) (duration_var self) (interval_var self)
    (animation_running self) (animation self) (animation_times self)
    (animate_button self) text.

Definition with_date_time (self : SkySimulatorGUI) (date time : string) :=
  mk_gui (simulator self) (latitude self) (longitude self) date
    time (duration_var self) (interval_var self)
    (animation_running self) (animation self) (animation_times self)
    (animate_button self) (status_var self).

(** [parse_time] *)
Definition parse_time (self : SkySimulatorGUI) : result datetime :=
  match strptime (date_var self ++ " " ++ time_var self) "%Y-%m-%d %H:%M" with
  | inr dt =>
      ret (match tzinfo dt with
           | None => replace_tzinfo dt (Some utc)
           | Some _ => dt
           end)
  | inl (ValueError _) => raise (ValueError "Invalid date/time format")
  | inl e => raise e
  end.

(** [stop_animation] *)
Definition stop_animation (self : SkySimulatorGUI)
    : SkySimulatorGUI * list event :=
  let self := with_running self false in
  let '(self, events) :=
    match animation self with
    | Some _ => (with_animation self None, [StopEventSource])
    | None => (self, [])
    end in
  (with_status (with_button self "Start Animation") "Animation stopped",
   events).

(** The handler of [start_animation]: an error box, then
    [stop_animation]. *)
Definition start_failed (self : SkySimulatorGUI) (e : pyerror)
    : SkySimulatorGUI * list event :=
  let '(self, events) := stop_animation self in
  (self,
   ShowError "Animation Error"
             ("Failed to start animation: " ++ str_of_error e) :: events).

(** [start_animation] *)
Definition start_animation (self : SkySimulatorGUI)
    : SkySimulatorGUI * list event :=
  match (duration <- float_of_str (duration_var self) ;;
         interval <- float_of_str (interval_var self) ;;
         start_time <- parse_time self ;;
         ret (duration, interval, start_time)) with
  | inl e => start_failed self (Raised e)
  | inr (duration, interval, start_time) =>
      let self :=
        with_status
          (with_button (with_running self true) "Stop Animation")
          "Animation running..." in
      match (num_frames <~ num_frames_of (PyFloat duration) (PyFloat interval) ;;
             times <~ comprehension
                        (frame_time start_time (PyFloat interval))
                        (range num_frames) ;;
             inr (num_frames, times)) with
      | inl e => start_failed self e
      | inr (num_frames, times) =>
          (with_animation (with_times self times) (Some num_frames), [Draw])
      end
  end.

(** [toggle_animation] *)
Definition toggle_animation (self : SkySimulatorGUI)
    : SkySimulatorGUI * list event :=
  if negb (animation_running self) then start_animation self
  else stop_animation self.

(** [setup_plot] *)
Definition setup_plot : list event :=
  [Call "self.ax.set_theta_zero_location('N')";
   Call "self.ax.set_theta_direction(-1)";
   Call "self.ax.set_ylim(0, 90)";
   Call "self.ax.set_yticks([0, 30, 60, 90])";
   Call "self.ax.set_yticklabels(['90°', '60°', '30°', '0°'])";
   Call "self.ax.grid(True, alpha=0.3)";
   Call "self.ax.set_facecolor('black')";
   Call "self.fig.patch.set_facecolor('black')";
   Call "self.ax.set_xticks(np.radians([0, 90, 180, 270]))";
   Call "self.ax.set_xticklabels(['N', 'E', 'S', 'W'], color='white')";
   Call "self.ax.tick_params(colors='white')"]
  ++ map (fun element : string * string =>
            LegendScatter 50 (snd element)
              (finite (float_of_decimal (9 # 10))) (fst element))
         [("Bright (<1 mag)"%string, sky_blue);
          ("White (1-2 mag)"%string, white);
          ("Yellow (2-3 mag)"%string, moccasin);
          ("Orange (3-4 mag)"%string, orange);
          ("Dim (>4 mag)"%string, light_red)]
  ++ [Call "self.ax.legend(loc='upper right', framealpha=0.8, labelcolor='white', fontsize=8, title='Star Magnitude', title_fontsize=9)"].

(** The handler of [update_animation_frame]: the status line. *)
Definition frame_failed (self : SkySimulatorGUI) (e : pyerror)
    : SkySimulatorGUI * list event :=
  (with_status self ("Animation frame error: " ++ str_of_error e), []).

(** [update_animation_frame] *)
Definition update_animation_frame (self : SkySimulatorGUI) (frame : Z)
    : SkySimulatorGUI * list event :=
  if negb (animation_running self) then (self, [])
  else
    match animation_times self with
    | None =>
        frame_failed self
          (AttributeError
             "'SkySimulatorGUI' object has no attribute 'animation_times'")
    | Some times =>
        match getitem times frame with
        | inl e => frame_failed self e
        | inr current_time =>
            let self :=
              with_date_time self (strftime current_time "%Y-%m-%d")
                (strftime current_time "%H:%M") in
            match get_star_positions_gui ts_utc altaz local_zone
                    (simulator self) current_time "UTC" with
            | inl e => frame_failed self (Raised e)
            | inr (az, alt, sizes, colors) =>
                let drawn :=
                  match az with
                  | _ :: _ =>
                      ScatterColors (map np_radians az) (map (fsub 90) alt)
                        sizes colors (finite (float_of_decimal (9 # 10)))
                  | [] => Text 0 45 "No stars visible"
                  end in
                let counter := (str (frame + 1) ++ "/" ++ str (len times))%string in
                let title :=
                  ("Sky Animation - "
                     ++ strftime current_time "%Y-%m-%d %H:%M" ++ newline
                     ++ "Location: " ++ format_1f (PyFloat (latitude self))
                     ++ "°N, " ++ format_1f (PyFloat (longitude self))
                     ++ "°W" ++ newline
                     ++ "Frame " ++ counter)%string in
                (with_status self ("Animation - Frame " ++ counter),
                 Clear :: setup_plot ++ [drawn; SetTitle title 12; DrawIdle])
            end
        end
    end.

(** What the other callbacks ([update_sky], [update_magnitude],
    [set_location], [use_current_time], [save_image]) and the user's typing
    can change: the simulator, the position, the entries and the status
    line.  None of them assigns the four attributes of the animation.
    ([on_closing] destroys the window and is left out.) *)
Definition other_callback (self : SkySimulatorGUI)
    (sim : @SkySimulator Kernel Body Timescale) (lat lon : pyfloat)
    (date time duration interval status : string) : SkySimulatorGUI :=
  mk_gui sim lat lon date time duration interval
    (animation_running self) (animation self) (animation_times self)
    (animate_button self) status.

(** The window as [__init__] leaves the animation controls, and what the
    callbacks make of it. *)
Inductive gui_reachable : SkySimulatorGUI -> Prop :=
| gui_init sim lat lon date time duration interval status :
    gui_reachable
      (mk_gui sim lat lon date time duration interval
         false None None "Start Animation" status)
| gui_toggle self :
    gui_reachable self -> gui_reachable (fst (toggle_animation self))
| gui_frame self frame :
    gui_reachable self ->
    gui_reachable (fst (update_animation_frame self frame))
| gui_other self sim lat lon date time duration interval status :
    gui_reachable self ->
    gui_reachable
      (other_callback self sim lat lon date time duration interval status).

(** The flag, the animation object, the list of times and the button agree. *)
Definition consistent (self : SkySimulatorGUI) : Prop :=
  match animation_running self, animation self with
  | true, Some num_frames =>
      animate_button self = "Stop Animation"%string /\
      exists times, animation_times self = Some times /\
                    List.length times = Z.to_nat num_frames
  | false, None => animate_button self = "Start Animation"%string
  | _, _ => False
  end.

Lemma stop_animation_state (self : SkySimulatorGUI) :
  let self' := fst (stop_animation self) in
  animation_running self' = false /\ animation self' = None /\
  animate_button self' = "Start Animation"%string /\
  status_var self' = "Animation stopped"%string.
Proof.
  cbv zeta. unfold stop_animation. cbn [with_running animation].
  destruct (animation self) eqn:E; cbn; rewrite ?E; repeat split; reflexivity.
Qed.

Lemma start_failed_state (self : SkySimulatorGUI) (e : pyerror) :
  let self' := fst (start_failed self e) in
  animation_running self' = false /\ animation self' = None /\
  animate_button self' = "Start Animation"%string /\
  status_var self' = "Animation stopped"%string.
Proof.
  unfold start_failed.
  pose proof (stop_animation_state self) as H.
  destruct (stop_animation self) as [self' events]. exact H.
Qed.

Lemma stopped_is_consistent (self : SkySimulatorGUI) :
  animation_running self = false -> animation self = None ->
  animate_button self = "Start Animation"%string -> consistent self.
Proof. intros H1 H2 H3. unfold consistent. rewrite H1, H2. exact H3. Qed.

Lemma start_animation_consistent (self : SkySimulatorGUI) :
  consistent (fst (start_animation self)).
Proof.
  unfold start_animation.
  destruct (duration <- float_of_str (duration_var self) ;;
            interval <- float_of_str (interval_var self) ;;
            start_time <- parse_time self ;;
            ret (duration, interval, start_time))
    as [e|[[duration interval] start_time]].
  - destruct (start_failed_state self (Raised e)) as [H1 [H2 [H3 _]]].
    apply stopped_is_consistent; assumption.
  - cbv zeta.
    destruct (num_frames_of (PyFloat duration) (PyFloat interval))
      as [e|num_frames]; cbn [and_then].
    + match goal with |- consistent (fst (start_failed ?s ?e)) =>
        destruct (start_failed_state s e) as [H1 [H2 [H3 _]]] end.
      apply stopped_is_consistent; assumption.
    + destruct (comprehension (frame_time start_time (PyFloat interval))
                  (range num_frames)) as [e|times] eqn:Et; cbn [and_then].
      * match goal with |- consistent (fst (start_failed ?s ?e)) =>
          destruct (start_failed_state s e) as [H1 [H2 [H3 _]]] end.
        apply stopped_is_consistent; assumption.
      * unfold consistent. cbn. split; [reflexivity|].
        exists times. split; [reflexivity|].
        rewrite (comprehension_length _ _ _ Et). unfold range.
        apply zrange_length.
Qed.

Lemma update_animation_frame_keeps (self : SkySimulatorGUI) (frame : Z) :
  let self' := fst (update_animation_frame self frame) in
  animation_running self' = animation_running self /\
  animation self' = animation self /\
  animation_times self' = animation_times self /\
  animate_button self' = animate_button self.
Proof.
  cbv zeta. unfold update_animation_frame.
  destruct (animation_running self) eqn:Er; cbn [negb];
    [|cbn [fst]; rewrite Er; repeat split].
  destruct (animation_times self) as [times|] eqn:Et;
    [|cbn; rewrite Er, Et; repeat split].
  destruct (getitem times frame) as [e|current_time];
    [cbn; rewrite Er, Et; repeat split|].
  cbv zeta.
  match goal with
  | |- context [get_star_positions_gui ?a ?b ?c ?d ?t ?z] =>
      destruct (get_star_positions_gui a b c d t z)
        as [e|[[[az alt] sizes] colors]]
  end;
    cbn [fst frame_failed with_status with_date_time animation_running
         animation animation_times animate_button];
    rewrite Er, Et; repeat split.
Qed.

(** After any sequence of callbacks of the open window, the animation
    controls agree: either the animation runs, a [FuncAnimation] exists, the button
    reads [Stop Animation] and [animation_times] holds one time for each
    of its frames; or it does not run, no [FuncAnimation] is kept and the
    button reads [Start Animation]. *)
Theorem animation_controls_stay_consistent (self : SkySimulatorGUI) :
  gui_reachable self -> consistent self.
Proof.
  induction 1 as [| self _ IH | self frame _ IH
                 | self sim lat lon date time duration interval status _ IH].
  - reflexivity.
  - unfold toggle_animation.
    destruct (animation_running self) eqn:Er; cbn [negb].
    + destruct (stop_animation_state self) as [H1 [H2 [H3 _]]].
      apply stopped_is_consistent; assumption.
    + apply start_animation_consistent.
  - destruct (update_animation_frame_keeps self frame) as [H1 [H2 [H3 H4]]].
    unfold consistent in *. rewrite H1, H2, H3, H4. exact IH.
  - exact IH.
Qed.

(** Starting the animation with an interval that reads as zero shows the
    error box [Animation Error] and leaves the controls stopped: flag
    off, no [FuncAnimation], button [Start Animation]. *)
Theorem zero_interval_leaves_the_animation_stopped (self : SkySimulatorGUI)
    (duration : pyfloat) (interval : Q) (start_time : datetime) :
  float_of_str (duration_var self) = inr duration ->
  float_of_str (interval_var self) = inr (finite interval) ->
  interval == 0 ->
  parse_time self = inr start_time ->
  exists msg events,
    snd (start_animation self) =
    ShowError "Animation Error" ("Failed to start animation: " ++ msg)
      :: events /\
    Forall (fun ev => ev = StopEventSource) events /\
    animation_running (fst (start_animation self)) = false /\
    animation (fst (start_animation self)) = None /\
    animate_button (fst (start_animation self)) = "Start Animation"%string.
Proof.
  intros Ed Ei Hz Et. unfold start_animation. rewrite Ed, Ei, Et.
  cbn [bind ret]. cbv zeta.
  destruct (num_frames_zero_interval (PyFloat duration) (PyFloat (finite interval)))
    as [msg E].
  { apply Qeq_bool_iff. exact Hz. }
  { intros z Hz'. discriminate Hz'. }
  rewrite E. cbn [and_then].
  match goal with |- context [start_failed ?s ?e] =>
    destruct (start_failed_state s e) as [H1 [H2 [H3 _]]];
    set (g := s) in * end.
  exists msg. unfold start_failed in *.
  destruct (stop_animation g) as [self' events] eqn:Es.
  exists events. cbn [fst snd] in *.
  repeat split; try assumption.
  unfold stop_animation in Es.
  destruct (animation (with_running g false)); inversion Es; subst;
    repeat constructor.
Qed.

Lemma zrange_nth (lo : Z) (n : nat) (i : nat) :
  (i < n)%nat -> nth_error (zrange lo n) i = Some (lo + Z.of_nat i)%Z.
Proof.
  revert lo i. induction n as [|n IH]; intros lo i Hi; [lia|].
  destruct i as [|i]; cbn [zrange nth_error].
  - f_equal. lia.
  - rewrite IH by lia. f_equal. lia.
Qed.

(** Once an animation is started, its number of frames is
    [int(duration * 60 / interval)], and for every frame number below it
    the callback finds its time in [animation_times] (no [IndexError]) and
    writes it to the date and time entries: the start time plus
    [frame * interval] minutes. *)
Theorem every_frame_shows_its_time (self : SkySimulatorGUI)
    (duration interval : pyfloat) (start_time : datetime) (num_frames : Z) :
  float_of_str (duration_var self) = inr duration ->
  float_of_str (interval_var self) = inr interval ->
  parse_time self = inr start_time ->
  animation (fst (start_animation self)) = Some num_frames ->
  num_frames_of (PyFloat duration) (PyFloat interval) = inr num_frames /\
  forall frame, (0 <= frame < num_frames)%Z ->
    exists current_time,
      frame_time start_time (PyFloat interval) frame = inr current_time /\
      let shown := fst (update_animation_frame
                          (fst (start_animation self)) frame) in
      date_var shown = strftime current_time "%Y-%m-%d" /\
      time_var shown = strftime current_time "%H:%M".
Proof.
  intros Ed Ei Et. unfold start_animation. rewrite Ed, Ei, Et.
  cbn [bind ret]. cbv zeta.
  destruct (num_frames_of (PyFloat duration) (PyFloat interval))
    as [e|n] eqn:En; cbn [and_then].
  { match goal with |- context [start_failed ?s ?e] =>
      destruct (start_failed_state s e) as [_ [H2 _]] end.
    rewrite H2. discriminate. }
  destruct (comprehension (frame_time start_time (PyFloat interval)) (range n))
    as [e|times] eqn:Ec; cbn [and_then].
  { match goal with |- context [start_failed ?s ?e] =>
      destruct (start_failed_state s e) as [_ [H2 _]] end.
    rewrite H2. discriminate. }
  cbn [fst with_animation with_times animation]. intro Hn.
  inversion Hn. subst n. split; [reflexivity|].
  intros frame Hframe.
  assert (Hnth : nth_error (range num_frames) (Z.to_nat frame) = Some frame).
  { unfold range. rewrite zrange_nth by lia. f_equal. lia. }
  destruct (comprehension_nth _ _ _ Ec _ _ Hnth) as [t [Ht Hf]].
  exists t. split; [exact Hf|].
  unfold update_animation_frame.
  cbn [animation_running animation_times with_animation with_times with_status
       with_button with_running negb].
  assert (Eg : getitem times frame = inr t).
  { unfold getitem.
    replace (frame <? 0)%Z with false by (symmetry; apply Z.ltb_ge; lia).
    replace (0 <=? frame)%Z with true by (symmetry; apply Z.leb_le; lia).
    rewrite Ht. reflexivity. }
  rewrite Eg. cbv zeta.
  match goal with
  | |- context [get_star_positions_gui ?a ?b ?c ?d ?t ?z] =>
      destruct (get_star_positions_gui a b c d t z)
        as [e|[[[az alt] sizes] colors]]
  end; split; reflexivity.
Qed.

(** The date and time entries are read as UTC: [parse_time] attaches UTC
    to the naive value [strptime] returns, and [get_star_positions] then
    uses it as it is, whatever the host's time zone. *)
Theorem entered_times_are_read_as_utc (self : SkySimulatorGUI)
    (entered : datetime) :
  strptime (date_var self ++ " " ++ time_var self) "%Y-%m-%d %H:%M"
    = inr entered ->
  tzinfo entered = None ->
  parse_time self = inr (replace_tzinfo entered (Some utc)) /\
  utc_time_of local_zone (replace_tzinfo entered (Some utc))
    = inr (replace_tzinfo entered (Some utc)).
Proof.
  intros Es Hn. unfold parse_time. rewrite Es, Hn. split; reflexivity.
Qed.

End Gui.

(* ================================================================== *)
(** ** 16. The plots and the window on the small sky *)
(* ================================================================== *)

(** Stand-ins for numpy, [strftime], the [.1f] format, [strptime] and
    [float], on which the plots of section 13 and the window of section 15
    compute over the small sky of section 10. *)
Module SmallPlots.

Definition np_radians (degrees : Q) : Q := degrees * (355 # 113) / 180.

Definition strftime (time : datetime) (format : string) : string :=
  (str (year time) ++ "-" ++ str (month time) ++ "-" ++ str (day time)
     ++ " " ++ str (hour time) ++ ":" ++ str (minute time))%string.

Definition format_1f (x : pynum) : string :=
  match x with
  | PyInt z => (str z ++ ".0")%string
  | PyFloat (finite q) => (str (Qfloor q) ++ ".?")%string
  | PyFloat _ => "nan"%string
  end.

Definition strptime (text format : string) : result datetime :=
  if String.eqb text "2024-06-15 22:00" then ret SmallSky.evening
  else raise (ValueError "time data does not match format").

Definition float_of_str (text : string) : result pyfloat :=
  if String.eqb text "2" then ret (finite 2)
  else if String.eqb text "10" then ret (finite 10)
  else if String.eqb text "0" then ret (finite 0)
  else raise (ValueError "could not convert string to float").

Definition plot :=
  @plot_sky unit unit unit Z SmallSky.ts_utc SmallSky.altaz SmallSky.host_zone
    np_radians strftime format_1f.

Definition trails :=
  @create_star_trails unit unit unit Z SmallSky.ts_utc SmallSky.altaz SmallSky.host_zone
    np_radians strftime format_1f.

(** A simulator fresh from the constructor. *)
Definition fresh : @SkySimulator unit unit unit := init (fun _ => tt) tt tt.

(** The window as [__init__] leaves it, with the evening in its entries. *)
Definition window : @SkySimulatorGUI unit unit unit :=
  mk_gui SmallSky.simulator
    (finite (float_of_decimal (407128 # 10000)))
    (finite (float_of_decimal (-740060 # 10000)))
    "2024-06-15" "22:00" "2" "10" false None None "Start Animation" "Ready".

(** The same window with [0] typed into the interval entry. *)
Definition window_zero : @SkySimulatorGUI unit unit unit :=
  mk_gui SmallSky.simulator
    (finite (float_of_decimal (407128 # 10000)))
    (finite (float_of_decimal (-740060 # 10000)))
    "2024-06-15" "22:00" "2" "0" false None None "Start Animation" "Ready".

Definition start :=
  @start_animation unit unit unit strptime float_of_str.

Definition show_frame :=
  @update_animation_frame unit unit unit Z SmallSky.ts_utc SmallSky.altaz
    SmallSky.host_zone np_radians strftime format_1f.

End SmallPlots.

(** The morning plot of the small sky: the message, and no file. *)
Lemma plot_sky_without_visible_star_witness :
  SmallPlots.plot SmallSky.simulator SmallSky.before_noon
    (Some "sky.png"%string) "UTC" =
  ([Print "No stars visible at this time/location"], None).
Proof.
  apply (@plot_sky_without_visible_star unit unit unit Z
           SmallSky.ts_utc SmallSky.altaz SmallSky.host_zone
           SmallPlots.np_radians SmallPlots.strftime SmallPlots.format_1f
           SmallSky.simulator SmallSky.before_noon (Some "sky.png"%string)
           "UTC"%string SmallSky.catalog SmallSky.new_york
           SmallSky.before_noon);
    [vm_compute; reflexivity | vm_compute; reflexivity
    | vm_compute; reflexivity |].
  intros row [<-|[<-|[<-|[<-|[]]]]]; vm_compute; discriminate.
Defined.

(** The evening plot of the small sky, saved to a file: three stars. *)
Lemma plot_sky_draws_the_emitted_stars_witness :
  let rows :=
    emitted SmallSky.altaz SmallSky.new_york SmallSky.evening_t SmallSky.catalog in
  let radii :=
    map (fun row => fsub 90 (alt_of SmallSky.altaz SmallSky.new_york
                               SmallSky.evening_t row)) rows in
  rows = [SmallSky.vega; SmallSky.polaris; SmallSky.dim_star] /\
  Forall (fun radius => 0 <= radius /\ radius <= 90) radii /\
  exists decoration,
    SmallPlots.plot SmallSky.simulator SmallSky.evening
      (Some "sky.png"%string) "UTC" =
    (Subplots 12 12
       :: Scatter (map (fun row => SmallPlots.np_radians
                                     (az_of SmallSky.altaz SmallSky.new_york
                                        SmallSky.evening_t row)) rows)
                  radii
                  (map (fun row => star_size (magnitude row)) rows)
                  "white" (finite (float_of_decimal (8 # 10)))
       :: decoration ++ [Savefig "sky.png"],
     None) /\
    forallb (fun ev => negb (is_scatter ev || is_output ev || is_print ev))
            decoration = true.
Proof.
  split; [vm_compute; reflexivity|].
  apply (@plot_sky_draws_the_emitted_stars unit unit unit Z
           SmallSky.ts_utc SmallSky.altaz SmallSky.host_zone
           SmallPlots.np_radians SmallPlots.strftime SmallPlots.format_1f
           SmallSky.simulator SmallSky.evening (Some "sky.png"%string)
           "UTC"%string SmallSky.catalog SmallSky.new_york
           SmallSky.evening_utc);
    [vm_compute; reflexivity | vm_compute; reflexivity
    | vm_compute; reflexivity | vm_compute; discriminate |].
  intros row [<-|[<-|[<-|[<-|[]]]]]; vm_compute; discriminate.
Defined.

(** A plot asked of a simulator fresh from the constructor. *)
Lemma plot_sky_propagates_the_usage_error_witness :
  SmallPlots.plot SmallPlots.fresh SmallSky.evening None "UTC" =
  ([], Some (Raised (ValueError usage_message))).
Proof.
  apply (@plot_sky_propagates_the_usage_error unit unit unit Z
           SmallSky.ts_utc SmallSky.altaz SmallSky.host_zone
           SmallPlots.np_radians SmallPlots.strftime SmallPlots.format_1f
           SmallPlots.fresh SmallSky.evening None "UTC"%string).
  left. reflexivity.
Defined.

(** The simulator of [main] holds the coordinates of its observer. *)
Lemma coordinates_describe_the_observer_witness :
  earth SmallSky.simulator = tt /\ coords_match SmallSky.simulator.
Proof.
  apply (@coordinates_describe_the_observer unit unit unit (fun _ => tt)
           SmallSky.simulator).
  apply reachable_set, reachable_load, reachable_init.
Defined.

(** The title of the evening plot names New York. *)
Lemma plot_sky_title_names_the_observer_witness :
  In (SetTitle
        ("Sky View - " ++ SmallPlots.strftime SmallSky.evening "%Y-%m-%d %H:%M"
           ++ newline ++ "Location: "
           ++ SmallPlots.format_1f
                (PyFloat (finite (latitude_degrees SmallSky.new_york)))
           ++ "°N, "
           ++ SmallPlots.format_1f
                (PyFloat (finite (longitude_degrees SmallSky.new_york)))
           ++ "°W") 14)
     (fst (SmallPlots.plot SmallSky.simulator SmallSky.evening None "UTC")).
Proof.
  apply (@plot_sky_title_names_the_observer unit unit unit Z
           SmallSky.ts_utc SmallSky.altaz SmallSky.host_zone
           SmallPlots.np_radians SmallPlots.strftime SmallPlots.format_1f
           (fun _ => tt)
           SmallSky.simulator SmallSky.evening None "UTC"%string
           SmallSky.catalog SmallSky.new_york SmallSky.evening_utc);
    [apply reachable_set, reachable_load, reachable_init
    | vm_compute; reflexivity | vm_compute; reflexivity
    | vm_compute; reflexivity | vm_compute; discriminate].
Defined.

(** The small sky loaded with the limits 2.0 and 4.5: the lower limit
    drops the star of magnitude 4.2. *)
Lemma lower_limit_keeps_the_brighter_stars_witness :
  let shown m :=
    emitted SmallSky.altaz SmallSky.new_york SmallSky.evening_t
      (filter (fun row => Qle_bool (magnitude row) m) SmallSky.hipparcos) in
  (shown 2 = [SmallSky.vega; SmallSky.polaris] /\
   shown (float_of_decimal (45 # 10)) =
     [SmallSky.vega; SmallSky.polaris; SmallSky.dim_star]) /\
  shown 2 = filter (fun row => Qle_bool (magnitude row) 2)
                   (shown (float_of_decimal (45 # 10))) /\
  (List.length (shown 2%Q) <= List.length (shown (float_of_decimal (45 # 10))))%nat.
Proof.
  split; [split; vm_compute; reflexivity|].
  destruct (@lower_limit_keeps_the_brighter_stars unit unit unit Z
              SmallSky.ts_utc SmallSky.altaz SmallSky.host_zone
              SmallSky.simulator SmallSky.hipparcos
              2 (float_of_decimal (45 # 10)) SmallSky.evening "UTC"%string
              SmallSky.new_york SmallSky.evening_utc)
    as [_ [_ [H1 H2]]];
    [apply Qle_bool_iff; vm_compute; reflexivity
    | vm_compute; reflexivity | vm_compute; reflexivity |].
  split; [exact H1 | exact H2].
Defined.

(** Two hours every ten minutes, as the window passes them: twelve
    frames, the last one at 110 minutes. *)
Lemma whole_number_schedule_witness :
  num_frames_of (PyFloat (finite 2)) (PyFloat (finite 10)) = inr 12%Z /\
  (12 * 10 <= 60 * 2 < (12 + 1) * 10)%Z /\
  forall i, (0 <= i < 12)%Z ->
    (i * 10 < 60 * 2)%Z /\
    frame_time SmallSky.evening (PyFloat (finite 10)) i =
    lift (add_timedelta SmallSky.evening (i * 10 * US_PER_MINUTE)).
Proof.
  apply (whole_number_schedule SmallSky.evening
           (PyFloat (finite 2)) (PyFloat (finite 10)) 2 10);
    [reflexivity | reflexivity | split; vm_compute; [discriminate|reflexivity]
    | split; vm_compute; [reflexivity|discriminate]].
Defined.

(** Star trails of the small sky with an interval of [0.0]. *)
Lemma star_trails_reject_a_zero_interval_witness :
  exists msg,
    SmallPlots.trails SmallSky.simulator SmallSky.evening
      (PyInt 6) (PyFloat (finite 0)) None "UTC" =
    ([], Some (ZeroDivisionError msg)).
Proof.
  apply (@star_trails_reject_a_zero_interval unit unit unit Z
           SmallSky.ts_utc SmallSky.altaz SmallSky.host_zone
           SmallPlots.np_radians SmallPlots.strftime SmallPlots.format_1f
           SmallSky.simulator SmallSky.evening (PyInt 6) (PyFloat (finite 0))
           None "UTC"%string);
    [reflexivity|].
  intros z H. inversion H. apply Z.leb_le. vm_compute. reflexivity.
Defined.

(** Star trails of zero hours on a simulator fresh from the constructor:
    an empty figure, shown. *)
Lemma star_trails_without_frames_witness :
  num_frames_of (PyInt 0) (PyInt 15) = inr 0%Z /\
  exists figure,
    SmallPlots.trails SmallPlots.fresh SmallSky.evening
      (PyInt 0) (PyInt 15) None "UTC" =
    (figure ++ save_or_show None, None) /\
    forallb (fun ev => negb (is_scatter ev || is_print ev || is_output ev))
            figure = true.
Proof.
  split; [vm_compute; reflexivity|].
  apply (@star_trails_without_frames_skip_the_simulator unit unit unit Z
           SmallSky.ts_utc SmallSky.altaz SmallSky.host_zone
           SmallPlots.np_radians SmallPlots.strftime SmallPlots.format_1f
           SmallPlots.fresh SmallSky.evening (PyInt 0) (PyInt 15)
           None "UTC"%string 0%Z);
    [vm_compute; reflexivity | vm_compute; discriminate].
Defined.


(** Six hours of the small sky every two hours: of the frames at 22:00,
    00:00 and 02:00 only the first has stars; one scatter, no warning. *)
Lemma star_trails_draw_one_layer_witness :
  let times := [SmallSky.evening; mk_datetime 2024 6 16 0 0 0 0 None;
                mk_datetime 2024 6 16 2 0 0 0 None] in
  let has_stars :=
    frame_has_stars SmallSky.ts_utc SmallSky.altaz SmallSky.host_zone
      SmallSky.simulator "UTC" in
  map has_stars times = [true; false; false] /\
  exists events,
    SmallPlots.trails SmallSky.simulator SmallSky.evening
      (PyInt 6) (PyInt 120) None "UTC" = (events, None) /\
    List.length (filter is_scatter events) =
    List.length (filter has_stars times) /\
    existsb is_print events = negb (has_stars SmallSky.evening).
Proof.
  split; [vm_compute; reflexivity|].
  apply (@star_trails_draw_one_layer_per_starry_frame unit unit unit Z
           SmallSky.ts_utc SmallSky.altaz SmallSky.host_zone
           SmallPlots.np_radians SmallPlots.strftime SmallPlots.format_1f
           SmallSky.simulator SmallSky.evening (PyInt 6) (PyInt 120)
           None "UTC"%string 3%Z
           [SmallSky.evening; mk_datetime 2024 6 16 0 0 0 0 None;
            mk_datetime 2024 6 16 2 0 0 0 None]
           SmallSky.catalog SmallSky.new_york);
    [vm_compute; reflexivity | vm_compute; reflexivity
    | vm_compute; reflexivity | vm_compute; reflexivity |].
  intros t [<-|[<-|[<-|[]]]]; eexists; vm_compute; reflexivity.
Defined.

(** The window after a click on the animation button and one frame. *)
Lemma animation_controls_stay_consistent_witness :
  consistent
    (fst (SmallPlots.show_frame
            (fst (toggle_animation SmallPlots.strptime SmallPlots.float_of_str
                    SmallPlots.window)) 3)).
Proof.
  apply (@animation_controls_stay_consistent unit unit unit Z
           SmallSky.ts_utc SmallSky.altaz SmallSky.host_zone
           SmallPlots.np_radians SmallPlots.strftime SmallPlots.format_1f
           SmallPlots.strptime SmallPlots.float_of_str).
  apply gui_frame, gui_toggle, gui_init.
Defined.

(** The window with [0] in the interval entry. *)
Lemma zero_interval_leaves_the_animation_stopped_witness :
  exists msg events,
    snd (SmallPlots.start SmallPlots.window_zero) =
    ShowError "Animation Error" ("Failed to start animation: " ++ msg)
      :: events /\
    Forall (fun ev => ev = StopEventSource) events /\
    animation_running (fst (SmallPlots.start SmallPlots.window_zero))
      = false /\
    animation (fst (SmallPlots.start SmallPlots.window_zero)) = None /\
    animate_button (fst (SmallPlots.start SmallPlots.window_zero))
      = "Start Animation"%string.
Proof.
  apply (@zero_interval_leaves_the_animation_stopped unit unit unit
           SmallPlots.strptime SmallPlots.float_of_str SmallPlots.window_zero
           (finite 2) 0 SmallSky.evening_utc);
    [reflexivity | reflexivity | reflexivity | reflexivity].
Defined.

(** The window started for two hours every ten minutes: twelve frames. *)
Lemma every_frame_shows_its_time_witness :
  num_frames_of (PyFloat (finite 2)) (PyFloat (finite 10)) = inr 12%Z /\
  forall frame, (0 <= frame < 12)%Z ->
    exists current_time,
      frame_time SmallSky.evening_utc (PyFloat (finite 10)) frame
        = inr current_time /\
      let shown :=
        fst (SmallPlots.show_frame
               (fst (SmallPlots.start SmallPlots.window)) frame) in
      date_var shown = SmallPlots.strftime current_time "%Y-%m-%d" /\
      time_var shown = SmallPlots.strftime current_time "%H:%M".
Proof.
  apply (@every_frame_shows_its_time unit unit unit Z
           SmallSky.ts_utc SmallSky.altaz SmallSky.host_zone
           SmallPlots.np_radians SmallPlots.strftime SmallPlots.format_1f
           SmallPlots.strptime SmallPlots.float_of_str SmallPlots.window
           (finite 2) (finite 10) SmallSky.evening_utc 12%Z);
    [reflexivity | reflexivity | reflexivity | vm_compute; reflexivity].
Defined.

(** The evening typed into the window, on a host one hour east of UTC. *)
Lemma entered_times_are_read_as_utc_witness :
  parse_time SmallPlots.strptime SmallPlots.window = inr SmallSky.evening_utc /\
  utc_time_of SmallSky.host_zone SmallSky.evening_utc = inr SmallSky.evening_utc.
Proof.
  apply (@entered_times_are_read_as_utc unit unit unit
           SmallSky.host_zone SmallPlots.strptime SmallPlots.window
           SmallSky.evening);
    reflexivity.
Defined.
